(** * Starboard aggregation engine of cogs/stars.py

    A shallow embedding of the star / unstar workflow of the [Stars] cog:
    the two store tables ([starboard_entries], [starrers]), the messages of
    the chat platform, the message cache, the set of mirror messages the
    cog is about to delete, and the functions [star_emoji],
    [star_gradient_colour], [get_message], [_star_message] and
    [_unstar_message] with their public wrappers; around them the
    listeners ([reaction_action], [on_raw_message_delete],
    [on_raw_bulk_message_delete], [on_raw_reaction_clear]), the commands
    [star_lock], [star_unlock], [star_limit] and [star_age], the hourly
    [clean_message_cache] and [is_url_spoiler]. *)

From Stdlib Require Import ZArith List Bool String Floats Uint63.
From stdpp Require Import base option gmap.

Local Open Scope Z_scope.

(** ** Rendering: [star_emoji] and [star_gradient_colour] *)

Inductive Emoji : Type :=
| WHITE_MEDIUM_STAR
| GLOWING_STAR
| DIZZY_SYMBOL
| SPARKLES.

(** [5 > stars >= 0] is Python's chained comparison
    [(5 > stars) and (stars >= 0)]. *)
Definition star_emoji (stars : Z) : Emoji :=
  if (stars <? 5) && (0 <=? stars) then WHITE_MEDIUM_STAR
  else if (stars <? 10) && (5 <=? stars) then GLOWING_STAR
  else if (stars <? 25) && (10 <=? stars) then DIZZY_SYMBOL
  else SPARKLES.

(** Python floats are IEEE 754 binary64 numbers, as are Rocq's primitive
    floats.  [stars / 13] on two ints is the correctly rounded quotient;
    for [0 <= stars < 2^53] both operands are exact doubles, so it is the
    binary64 division of their conversions. *)
Definition float_of_int (z : Z) : float := PrimFloat.of_uint63 (Uint63.of_Z z).

(** [int(x)] on a float: truncation towards zero. *)
Definition int_of_float (x : float) : Z :=
  match Prim2SF x with
  | S754_finite s m e =>
      let a := match e with
               | Z0 => Zpos m
               | Zpos p => Z.shiftl (Zpos m) (Zpos p)
               | Zneg p => Z.shiftr (Zpos m) (Zpos p)
               end in
      if s then - a else a
  | _ => 0
  end.

Definition star_gradient_colour (stars : Z) : Z :=
  let p := (float_of_int stars / 13)%float in
  let p := if (1 <? p)%float then 1%float else p in
  let red := 255 in
  let green := int_of_float (194 * p + 253 * (1 - p))%float in
  let blue := int_of_float (12 * p + 247 * (1 - p))%float in
  Z.shiftl red 16 + Z.shiftl green 8 + blue.

(** ** Data model *)

Inductive MessageType : Type :=
| MT_default
| MT_reply
| MT_other.

(** The text of a message: what a user wrote, the line
    [get_emoji_message] renders (the count is shown only above one), or
    the answer of [star_limit],
    [f'Messages now require {plural(stars):star} to show up in the
    starboard.'], kept by its number ([utils.formats.plural], which writes
    the number and the noun, is not part of the sources). *)
Inductive Content : Type :=
| UserText (text : string)
| StarText (emoji : Emoji) (stars : option Z) (origin_channel origin_id : Z)
| LimitText (stars : Z).

Record Embed : Type := mkEmbed {
  embed_description : Content;
  embed_colour : Z
}.

Record Message : Type := mkMessage {
  msg_id : Z;
  msg_channel : Z;
  msg_author : Z;
  msg_content : Content;
  msg_attachments : nat;
  msg_type : MessageType;
  msg_created_at : Z;
  msg_embed : option Embed
}.

Record Channel : Type := mkChannel {
  ch_id : Z;
  ch_nsfw : bool;
  (** [permissions_for(guild.me).send_messages] *)
  ch_send_messages : bool
}.

(** A row of [starboard], as [StarboardConfig] presents it.  Without a row
    [channel_id] is [None] and the other attributes are never read. *)
Record StarboardConfig : Type := mkConfig {
  channel_id : option Z;
  threshold : Z;
  locked : bool;
  max_age : Z
}.

(** A row of [starboard_entries]. *)
Record Entry : Type := mkEntry {
  entry_id : Z;
  bot_message_id : option Z;
  entry_message_id : Z;
  entry_channel_id : Z;
  entry_guild_id : Z;
  entry_author_id : Z
}.

(** A row of [starrers]. *)
Record Starrer : Type := mkStarrer {
  starrer_author_id : Z;
  starrer_entry_id : Z
}.

(** What a call sees of the guild and of the bot around it; none of it is
    changed by starring. *)
Record Guild : Type := mkGuild {
  guild_id : Z;
  guild_channels : gmap Z Channel;
  guild_me : Z;
  (** [bot.config_cog] and its two verdicts (moderation policy). *)
  config_cog : bool;
  is_plonked : Z -> Channel -> bool;
  is_command_blocked : Z -> bool;
  (** Modelled from the spec: the table declarations are not part of the
      sources.  The spec gives the two uniqueness constraints, on
      [message_id] of an entry and on the pair of a starrer; whether
      deleting an entry also deletes its starrers is left open and is this
      flag. *)
  fk_cascade : bool;
  (** nesting depth the interpreter allows before [RecursionError] *)
  recursion_limit : nat
}.

Record World : Type := mkWorld {
  entries : list Entry;
  starrers : list Starrer;
  (** next value of the serial [starboard_entries.id] *)
  entry_seq : Z;
  starboard : StarboardConfig;
  (** the messages that exist on the platform, by id *)
  platform : gmap Z Message;
  next_snowflake : Z;
  _message_cache : gmap Z Message;
  _about_to_be_deleted : gset Z
}.

Definition set_entries (f : list Entry -> list Entry) (w : World) : World :=
  mkWorld (f (entries w)) (starrers w) (entry_seq w) (starboard w)
          (platform w) (next_snowflake w) (_message_cache w) (_about_to_be_deleted w).

Definition set_starrers (f : list Starrer -> list Starrer) (w : World) : World :=
  mkWorld (entries w) (f (starrers w)) (entry_seq w) (starboard w)
          (platform w) (next_snowflake w) (_message_cache w) (_about_to_be_deleted w).

Definition set_entry_seq (z : Z) (w : World) : World :=
  mkWorld (entries w) (starrers w) z (starboard w)
          (platform w) (next_snowflake w) (_message_cache w) (_about_to_be_deleted w).

Definition set_starboard (c : StarboardConfig) (w : World) : World :=
  mkWorld (entries w) (starrers w) (entry_seq w) c
          (platform w) (next_snowflake w) (_message_cache w) (_about_to_be_deleted w).

Definition set_platform (f : gmap Z Message -> gmap Z Message) (w : World) : World :=
  mkWorld (entries w) (starrers w) (entry_seq w) (starboard w)
          (f (platform w)) (next_snowflake w) (_message_cache w) (_about_to_be_deleted w).

Definition set_next_snowflake (z : Z) (w : World) : World :=
  mkWorld (entries w) (starrers w) (entry_seq w) (starboard w)
          (platform w) z (_message_cache w) (_about_to_be_deleted w).

Definition set_message_cache (f : gmap Z Message -> gmap Z Message) (w : World) : World :=
  mkWorld (entries w) (starrers w) (entry_seq w) (starboard w)
          (platform w) (next_snowflake w) (f (_message_cache w)) (_about_to_be_deleted w).

Definition set_about_to_be_deleted (f : gset Z -> gset Z) (w : World) : World :=
  mkWorld (entries w) (starrers w) (entry_seq w) (starboard w)
          (platform w) (next_snowflake w) (_message_cache w) (f (_about_to_be_deleted w)).

(** ** Errors and the monad of a call *)

Inductive PermVerb : Type := Post | Edit.

(** One constructor per message a [StarError] is raised with. *)
Inductive StarError : Type :=
| NoStarboard            (* Starboard channel not found. *)
| Locked                 (* Starboard is locked. *)
| NsfwMismatch           (* Cannot star NSFW in non-NSFW starboard channel. *)
| NotFound               (* Could not find message in the starboard. *)
| OriginChannelNotFound  (* Could not find original channel. *)
| NoPermission (v : PermVerb) (* Cannot post / edit messages in starboard channel. *)
| MessageNotFound        (* This message could not be found. *)
| SelfStar               (* You cannot star your own message. *)
| NotStarrable           (* This message cannot be starred. *)
| TooOld                 (* This message is too old. *)
| AlreadyStarred         (* You already starred this message. *)
| NotStarred.            (* You have not starred this message. *)

Inductive Exn : Type :=
| Star (e : StarError)
| HTTPException
| TypeError
| RecursionError.

Inductive Res (A : Type) : Type :=
| Ok (a : A)
| Raise (x : Exn).
Arguments Ok {A} a.
Arguments Raise {A} x.

(** Every statement is committed as it is executed (no transaction is
    opened), so the world at the point an exception is raised is the world
    the caller is left with. *)
Definition M (A : Type) : Type := World -> Res A * World.

Definition ret {A} (a : A) : M A := fun w => (Ok a, w).
Definition raise {A} (x : Exn) : M A := fun w => (Raise x, w).
Definition bind {A B} (m : M A) (k : A -> M B) : M B :=
  fun w => match m w with
           | (Ok a, w') => k a w'
           | (Raise x, w') => (Raise x, w')
           end.
Definition gets {A} (f : World -> A) : M A := fun w => (Ok (f w), w).
Definition modify (f : World -> World) : M unit := fun w => (Ok tt, f w).

Notation "'let*' x ':=' m 'in' k" := (bind m (fun x => k))
  (at level 10, x name, m at level 100, k at level 200,
   format "'[v' 'let*'  x  :=  m  'in' '/' k ']'").
Notation "m ';;' k" := (bind m (fun _ => k))
  (at level 100, k at level 200, right associativity,
   format "'[v' m  ;; '/' k ']'").

(** ** The store: one definition per SQL statement of the workflow *)

Definition is_bot_message (bot_id : Z) (e : Entry) : bool :=
  match bot_message_id e with
  | Some b => b =? bot_id
  | None => false
  end.

Definition has_message_id (message_id : Z) (e : Entry) : bool :=
  entry_message_id e =? message_id.

Definition has_entry_id (eid : Z) (e : Entry) : bool :=
  entry_id e =? eid.

Definition stars_of (eid : Z) (s : Starrer) : bool :=
  starrer_entry_id s =? eid.

Definition is_starrer (author eid : Z) (s : Starrer) : bool :=
  (starrer_author_id s =? author) && (starrer_entry_id s =? eid).

(** [SELECT channel_id, message_id FROM starboard_entries
     WHERE bot_message_id=$1] *)
Definition select_origin (bot_id : Z) : M (option (Z * Z)) :=
  gets (fun w =>
    match List.find (is_bot_message bot_id) (entries w) with
    | Some e => Some (entry_channel_id e, entry_message_id e)
    | None => None
    end).

(** The statement of [_star_message] that inserts the entry unless one
    exists for the message ([ON CONFLICT (message_id) DO NOTHING]) and then
    the starrer, returning the entry id.  The value of the serial for the
    id of the entry is drawn before the conflict is looked for, and a drawn
    value is never given back: every run of the statement consumes one,
    also when an entry exists already and when the statement fails.  The
    starrer breaking the uniqueness of its pair fails the whole statement,
    which then leaves no row behind: the outcome [None] stands for
    [asyncpg.UniqueViolationError]. *)
Definition insert_entry_and_starrer
    (message_id channel guild author starrer_id : Z) (w : World)
    : option Z * World :=
  let drawn := set_entry_seq (entry_seq w + 1) w in
  let '(eid, w1) :=
    match List.find (has_message_id message_id) (entries w) with
    | Some e => (entry_id e, drawn)
    | None =>
        (entry_seq w,
         set_entry_seq (entry_seq w + 1)
           (set_entries
              (fun l => l ++ [mkEntry (entry_seq w) None message_id channel guild author])
              w))
    end in
  if existsb (is_starrer starrer_id eid) (starrers w1)
  then (None, drawn)
  else (Some eid, set_starrers (fun l => l ++ [mkStarrer starrer_id eid]) w1).

Definition count_rows (eid : Z) (rows : list Starrer) : Z :=
  Z.of_nat (length (List.filter (stars_of eid) rows)).

(** [SELECT COUNT( * ) FROM starrers WHERE entry_id=$1] *)
Definition count_stars (eid : Z) (w : World) : Z :=
  count_rows eid (starrers w).

(** [SELECT bot_message_id FROM starboard_entries WHERE message_id=$1],
    followed by [record[0]], which is a [TypeError] on no row. *)
Definition select_bot_message_id (message_id : Z) : M (option Z) :=
  fun w =>
    match List.find (has_message_id message_id) (entries w) with
    | Some e => (Ok (bot_message_id e), w)
    | None => (Raise TypeError, w)
    end.

Definition with_bot_message_id (b : option Z) (e : Entry) : Entry :=
  mkEntry (entry_id e) b (entry_message_id e) (entry_channel_id e)
          (entry_guild_id e) (entry_author_id e).

(** [UPDATE starboard_entries SET bot_message_id=... WHERE ...] *)
Definition update_where (sel : Entry -> bool) (b : option Z) (e : Entry) : Entry :=
  if sel e then with_bot_message_id b e else e.

(** [UPDATE starboard_entries SET bot_message_id=$1 WHERE message_id=$2] *)
Definition update_bot_message_id (new_id message_id : Z) : M unit :=
  modify (set_entries
    (List.map (update_where (has_message_id message_id) (Some new_id)))).

(** [UPDATE starboard_entries SET bot_message_id=NULL WHERE id=$1] *)
Definition null_bot_message_id (eid : Z) : M unit :=
  modify (set_entries (List.map (update_where (has_entry_id eid) None))).

(** Deleting the entries that satisfy [sel]; with the cascade their
    starrers go with them. *)
Definition delete_entries (cascade : bool) (sel : Entry -> bool) (w : World) : World :=
  let gone := List.filter sel (entries w) in
  let w1 := set_entries (List.filter (fun e => negb (sel e))) w in
  if cascade
  then set_starrers
         (List.filter (fun s => negb (existsb (fun e => stars_of (entry_id e) s) gone))) w1
  else w1.

(** [DELETE FROM starboard_entries WHERE message_id=$1] *)
Definition delete_entry_by_message_id (cascade : bool) (message_id : Z) : M unit :=
  modify (delete_entries cascade (has_message_id message_id)).

(** [DELETE FROM starboard_entries WHERE id=$1] *)
Definition delete_entry_by_id (cascade : bool) (eid : Z) : M unit :=
  modify (delete_entries cascade (has_entry_id eid)).

(** The join of the [DELETE FROM starrers USING starboard_entries entry]
    of [_unstar_message]: the starrer rows of [starrer_id] on an entry of
    the message. *)
Definition unstar_target (message_id starrer_id : Z) (w : World) (s : Starrer) : bool :=
  (starrer_author_id s =? starrer_id)
  && existsb (fun e => has_message_id message_id e && (entry_id e =? starrer_entry_id s))
             (entries w).

(** That statement: the targeted rows are deleted and the first of them is
    returned as [(entry_id, bot_message_id)]. *)
Definition delete_starrer (message_id starrer_id : Z) : M (option (Z * option Z)) :=
  fun w =>
    match List.find (unstar_target message_id starrer_id w) (starrers w) with
    | None => (Ok None, w)
    | Some s =>
        let bot :=
          match List.find (fun e => has_message_id message_id e
                                    && (entry_id e =? starrer_entry_id s)) (entries w) with
          | Some e => bot_message_id e
          | None => None
          end in
        (Ok (Some (starrer_entry_id s, bot)),
         set_starrers
           (List.filter (fun s' => negb (unstar_target message_id starrer_id w s'))) w)
    end.

(** ** The platform *)

(** [channel.fetch_message(message_id)], [None] for [discord.HTTPException] *)
Definition fetch_message (channel : Channel) (message_id : Z) (w : World)
    : option Message :=
  match platform w !! message_id with
  | Some msg => if msg_channel msg =? ch_id channel then Some msg else None
  | None => None
  end.

Definition get_message (channel : Channel) (message_id : Z) : M (option Message) :=
  fun w =>
    match _message_cache w !! message_id with
    | Some msg => (Ok (Some msg), w)
    | None =>
        match fetch_message channel message_id w with
        | None => (Ok None, w)
        | Some msg => (Ok (Some msg), set_message_cache (insert message_id msg) w)
        end
    end.

(** [channel.send(content, embed=embed)]: the platform gives the message a
    fresh id. *)
Definition send (g : Guild) (now : Z) (channel : Channel)
    (content : Content) (embed : Embed) : M Message :=
  fun w =>
    let msg := mkMessage (next_snowflake w) (ch_id channel) (guild_me g) content 0
                         MT_default now (Some embed) in
    (Ok msg,
     set_next_snowflake (next_snowflake w + 1)
       (set_platform (insert (next_snowflake w) msg) w)).

Definition with_content (cur : Message) (content : Content) (embed : Embed) : Message :=
  mkMessage (msg_id cur) (msg_channel cur) (msg_author cur) content
            (msg_attachments cur) (msg_type cur) (msg_created_at cur) (Some embed).

(** [message.edit(content=content, embed=embed)]; a message that is gone
    is a [discord.NotFound], an [HTTPException]. *)
Definition edit (message : Message) (content : Content) (embed : Embed) : M unit :=
  fun w =>
    match platform w !! msg_id message with
    | Some cur =>
        (Ok tt,
         set_platform (insert (msg_id message) (with_content cur content embed)) w)
    | None => (Raise HTTPException, w)
    end.

(** [message.delete()] *)
Definition delete_message (message : Message) : M unit :=
  fun w =>
    match platform w !! msg_id message with
    | Some _ => (Ok tt, set_platform (delete (msg_id message)) w)
    | None => (Raise HTTPException, w)
    end.

(** [get_emoji_message]: the line and the embed of the mirror message.
    Of the embed the description and the colour are kept; the image, the
    fields, the author and the timestamp only copy parts of the message. *)
Definition get_emoji_message (message : Message) (stars : Z) : Content * Embed :=
  let emoji := star_emoji stars in
  let content :=
    if 1 <? stars
    then StarText emoji (Some stars) (msg_channel message) (msg_id message)
    else StarText emoji None (msg_channel message) (msg_id message) in
  (content, mkEmbed (msg_content message) (star_gradient_colour stars)).

(** ** The workflow *)

(** [StarboardConfig.channel] *)
Definition starboard_channel (g : Guild) (config : StarboardConfig) : option Channel :=
  match channel_id config with
  | Some c => guild_channels g !! c
  | None => None
  end.

(** [guild.get_channel_or_thread] *)
Definition get_channel_or_thread (g : Guild) (c : Z) : option Channel :=
  guild_channels g !! c.

Definition content_empty (c : Content) : bool :=
  match c with
  | UserText s => Nat.eqb (String.length s) 0
  | StarText _ _ _ _ => false
  | LimitText _ => false
  end.

Definition starrable_type (t : MessageType) : bool :=
  match t with
  | MT_default | MT_reply => true
  | MT_other => false
  end.

(** The end of [_star_message]: the count of the entry and, from the
    threshold on, its mirror message. *)
Definition star_publish (g : Guild) (now : Z) (sb_channel : Channel)
    (message_id : Z) (msg : Message) (entry_id : Z) : M unit :=
  let* count := gets (count_stars entry_id) in
  let* config := gets starboard in
  if count <? threshold config then ret tt
  else
    let '(content, embed) := get_emoji_message msg count in
    let* bot_id := select_bot_message_id message_id in
    match bot_id with
    | None =>
        let* new_msg := send g now sb_channel content embed in
        update_bot_message_id (msg_id new_msg) message_id
    | Some b =>
        let* new_msg := get_message sb_channel b in
        match new_msg with
        | None => delete_entry_by_message_id (fk_cascade g) message_id
        | Some m => edit m content embed
        end
    end.

(** The part of [_star_message] after the checks: the insert, with the
    uniqueness violation turned into the [StarError], and the rest. *)
Definition star_commit (g : Guild) (now : Z) (sb_channel channel : Channel)
    (message_id starrer_id : Z) (msg : Message) : M unit :=
  let* entry_id :=
    (fun w =>
       match insert_entry_and_starrer message_id (ch_id channel) (guild_id g)
                                      (msg_author msg) starrer_id w with
       | (None, w') => (Raise (Star AlreadyStarred), w')
       | (Some eid, w') => (Ok eid, w')
       end) in
  star_publish g now sb_channel message_id msg entry_id.

(** [depth] counts the nested calls still allowed. *)
Fixpoint _star_message (depth : nat) (g : Guild) (now : Z) (channel : Channel)
    (message_id starrer_id : Z) {struct depth} : M unit :=
  match depth with
  | O => raise RecursionError
  | S depth' =>
    let* config := gets starboard in
    match starboard_channel g config with
    | None => raise (Star NoStarboard)
    | Some sb_channel =>
      if locked config then raise (Star Locked)
      else if ch_nsfw channel && negb (ch_nsfw sb_channel)
      then raise (Star NsfwMismatch)
      else if ch_id channel =? ch_id sb_channel then
        let* record := select_origin message_id in
        match record with
        | None => raise (Star NotFound)
        | Some (origin_channel, origin_id) =>
            match get_channel_or_thread g origin_channel with
            | None => raise (Star OriginChannelNotFound)
            | Some ch => _star_message depth' g now ch origin_id starrer_id
            end
        end
      else if negb (ch_send_messages sb_channel)
      then raise (Star (NoPermission Post))
      else
        let* msg := get_message channel message_id in
        match msg with
        | None => raise (Star MessageNotFound)
        | Some msg =>
            if msg_author msg =? starrer_id then raise (Star SelfStar)
            else
              let empty_message :=
                content_empty (msg_content msg)
                && Nat.eqb (msg_attachments msg) 0 in
              if empty_message || negb (starrable_type (msg_type msg))
              then raise (Star NotStarrable)
              else
                let oldest_allowed := now - max_age config in
                if msg_created_at msg <? oldest_allowed
                then raise (Star TooOld)
                else star_commit g now sb_channel channel message_id starrer_id msg
        end
    end
  end.

(** The end of [_unstar_message], from the count on. *)
Definition unstar_retract (g : Guild) (sb_channel channel : Channel)
    (message_id entry_id : Z) (bot_id : option Z) : M unit :=
  let* count := gets (count_stars entry_id) in
  (if count =? 0 then delete_entry_by_id (fk_cascade g) entry_id else ret tt) ;;
  match bot_id with
  | None => ret tt
  | Some b =>
      let* bot_message := get_message sb_channel b in
      match bot_message with
      | None => ret tt
      | Some bot_message =>
          let* config := gets starboard in
          if count <? threshold config then
            modify (set_about_to_be_deleted (fun s => {[ b ]} ∪ s)) ;;
            (if negb (count =? 0) then null_bot_message_id entry_id else ret tt) ;;
            delete_message bot_message
          else
            let* msg := get_message channel message_id in
            match msg with
            | None => raise (Star MessageNotFound)
            | Some msg =>
                let '(content, embed) := get_emoji_message msg count in
                edit bot_message content embed
            end
      end
  end.

(** The part of [_unstar_message] after the checks. *)
Definition unstar_commit (g : Guild) (sb_channel channel : Channel)
    (message_id starrer_id : Z) : M unit :=
  let* record := delete_starrer message_id starrer_id in
  match record with
  | None => raise (Star NotStarred)
  | Some (entry_id, bot_id) =>
      unstar_retract g sb_channel channel message_id entry_id bot_id
  end.

Fixpoint _unstar_message (depth : nat) (g : Guild) (channel : Channel)
    (message_id starrer_id : Z) {struct depth} : M unit :=
  match depth with
  | O => raise RecursionError
  | S depth' =>
    let* config := gets starboard in
    match starboard_channel g config with
    | None => raise (Star NoStarboard)
    | Some sb_channel =>
      if locked config then raise (Star Locked)
      else if ch_id channel =? ch_id sb_channel then
        let* record := select_origin message_id in
        match record with
        | None => raise (Star NotFound)
        | Some (origin_channel, origin_id) =>
            match get_channel_or_thread g origin_channel with
            | None => raise (Star OriginChannelNotFound)
            | Some ch => _unstar_message depth' g ch origin_id starrer_id
            end
        end
      else if negb (ch_send_messages sb_channel)
      then raise (Star (NoPermission Edit))
      else unstar_commit g sb_channel channel message_id starrer_id
    end
  end.

(** The public operations.  The guild lock orders the calls of one guild;
    a call is modelled as running alone.  With [verify] the moderation
    policy may end the call silently. *)
Definition star_message (g : Guild) (now : Z) (channel : Channel)
    (message_id starrer_id : Z) (verify : bool) : M unit :=
  if verify && config_cog g && is_plonked g starrer_id channel then ret tt
  else if verify && config_cog g && is_command_blocked g (ch_id channel) then ret tt
  else _star_message (recursion_limit g) g now channel message_id starrer_id.

Definition unstar_message (g : Guild) (channel : Channel)
    (message_id starrer_id : Z) (verify : bool) : M unit :=
  if verify && config_cog g && is_plonked g starrer_id channel then ret tt
  else if verify && config_cog g && is_command_blocked g (ch_id channel) then ret tt
  else _unstar_message (recursion_limit g) g channel message_id starrer_id.

(** ** The commands of the moderators *)

(** [requires_starboard], the check in front of the starboard commands,
    for a command given in the guild.  (What becomes of the error, and
    the check that the caller is a moderator, belong to the command
    framework.) *)
Definition requires_starboard (g : Guild) : M unit :=
  let* config := gets starboard in
  match starboard_channel g config with
  | None => raise (Star NoStarboard)
  | Some _ => ret tt
  end.

(** [UPDATE starboard SET locked=... WHERE id=$1] *)
Definition set_locked (b : bool) (w : World) : World :=
  set_starboard (mkConfig (channel_id (starboard w)) (threshold (starboard w))
                          b (max_age (starboard w))) w.

(** [UPDATE starboard SET threshold=$2 WHERE id=$1] *)
Definition set_threshold (stars : Z) (w : World) : World :=
  set_starboard (mkConfig (channel_id (starboard w)) stars
                          (locked (starboard w)) (max_age (starboard w))) w.

(** [ctx.send(...)], the reply of a command: a message of the bot in the
    channel the command was given in; [discord.Forbidden], an
    [HTTPException], when the bot may not write there. *)
Definition reply (g : Guild) (now : Z) (channel : Channel) (content : Content)
    : M unit :=
  fun w =>
    if ch_send_messages channel
    then (Ok tt,
          set_next_snowflake (next_snowflake w + 1)
            (set_platform
               (insert (next_snowflake w)
                  (mkMessage (next_snowflake w) (ch_id channel) (guild_me g)
                             content 0 MT_default now None)) w))
    else (Raise HTTPException, w).

(** [star_limit], the threshold command, as a moderator gives it in
    [channel] at the time [now]: the check for the starboard, the number
    brought into 1..100, the update, the answer. *)
Definition star_limit (g : Guild) (now : Z) (channel : Channel) (stars : Z) : M unit :=
  requires_starboard g ;;
  let stars := Z.min (Z.max stars 1) 100 in
  modify (set_threshold stars) ;;
  reply g now channel (LimitText stars).

(** ** What happens to a guild *)

(** A user writes a message; the platform gives it a fresh id. *)
Definition post_message (channel author : Z) (content : string) (attachments : nat)
    (type : MessageType) (now : Z) : M unit :=
  modify (fun w =>
    set_next_snowflake (next_snowflake w + 1)
      (set_platform
         (insert (next_snowflake w)
            (mkMessage (next_snowflake w) channel author (UserText content)
                       attachments type now None)) w)).

(** Someone deletes a message that is not the mirror message of an entry
    (the deletion of a mirror message by somebody else is the external
    desynchronization that is left out). *)
Definition remove_message (message_id : Z) : M unit :=
  modify (fun w =>
    if existsb (is_bot_message message_id) (entries w) then w
    else set_platform (delete message_id) w).

Inductive Event : Type :=
| Starred (now : Z) (channel : Channel) (message_id starrer_id : Z) (verify : bool)
| Unstarred (channel : Channel) (message_id starrer_id : Z) (verify : bool)
| Posted (channel author : Z) (content : string) (attachments : nat)
         (type : MessageType) (now : Z)
| Removed (message_id : Z)
| Limit (now : Z) (channel : Channel) (stars : Z).

Definition apply_event (g : Guild) (w : World) (ev : Event) : World :=
  snd (match ev with
       | Starred now channel message_id starrer_id verify =>
           star_message g now channel message_id starrer_id verify
       | Unstarred channel message_id starrer_id verify =>
           unstar_message g channel message_id starrer_id verify
       | Posted channel author content attachments type now =>
           post_message channel author content attachments type now
       | Removed message_id => remove_message message_id
       | Limit now channel stars => star_limit g now channel stars
       end w).

Definition run_events (g : Guild) (evs : list Event) (w : World) : World :=
  fold_left (apply_event g) evs w.

Definition keeps_threshold (ev : Event) : bool :=
  match ev with
  | Limit _ _ _ => false
  | _ => true
  end.

(** A world in which nothing has been starred yet. *)
Record fresh_start (w : World) : Prop := {
  fresh_entries : entries w = [];
  fresh_starrers : starrers w = [];
  fresh_platform : forall k m, platform w !! k = Some m ->
                               msg_id m = k /\ k < next_snowflake w;
  fresh_cache : forall k m, _message_cache w !! k = Some m -> msg_id m = k
}.

(** An entry is settled when it has a mirror message exactly when its
    count is at the threshold or above. *)
Definition settled (w : World) (e : Entry) : Prop :=
  is_Some (bot_message_id e) <-> threshold (starboard w) <= count_stars (entry_id e) w.

(** The property of C1: every entry is settled. *)
Definition mirror_iff (w : World) : Prop :=
  forall e, In e (entries w) -> settled w e.

(** What the tables and the platform keep to between two calls. *)
Record well_formed (g : Guild) (w : World) : Prop := {
  wf_message_id : forall e1 e2, In e1 (entries w) -> In e2 (entries w) ->
      entry_message_id e1 = entry_message_id e2 -> e1 = e2;
  wf_entry_id : forall e1 e2, In e1 (entries w) -> In e2 (entries w) ->
      entry_id e1 = entry_id e2 -> e1 = e2;
  wf_entry_seq : forall e, In e (entries w) -> entry_id e < entry_seq w;
  wf_starrer_seq : forall s, In s (starrers w) -> starrer_entry_id s < entry_seq w;
  wf_mirror : forall e1 e2 b, In e1 (entries w) -> In e2 (entries w) ->
      bot_message_id e1 = Some b -> bot_message_id e2 = Some b -> e1 = e2;
  wf_live : forall sb e b, starboard_channel g (starboard w) = Some sb ->
      In e (entries w) -> bot_message_id e = Some b ->
      exists m, platform w !! b = Some m /\ msg_channel m = ch_id sb;
  wf_off_board : forall sb e, starboard_channel g (starboard w) = Some sb ->
      In e (entries w) -> entry_channel_id e ≠ ch_id sb;
  wf_platform : forall k m, platform w !! k = Some m ->
      msg_id m = k /\ k < next_snowflake w;
  wf_cache : forall k m, _message_cache w !! k = Some m -> msg_id m = k
}.

(** ** Worked example: one guild, one message *)

Module Example.

Definition general : Channel := mkChannel 1 false true.
Definition board : Channel := mkChannel 50 false true.
Definition muted_board : Channel := mkChannel 50 false false.

Definition guild : Guild :=
  mkGuild 10 (<[1:=general]> (<[50:=board]> ∅)) 999 false
          (fun _ _ => false) (fun _ => false) true 1000%nat.

(** the same guild, the bot not allowed to write to the starboard channel *)
Definition muted_guild : Guild :=
  mkGuild 10 (<[1:=general]> (<[50:=muted_board]> ∅)) 999 false
          (fun _ _ => false) (fun _ => false) true 1000%nat.

(** the same guild under a moderation policy that blocks the star command
    in the starboard channel *)
Definition policed_guild : Guild :=
  mkGuild 10 (<[1:=general]> (<[50:=board]> ∅)) 999 true
          (fun _ _ => false) (fun c => c =? 50) true 1000%nat.

(** the same guild after the general channel has been deleted *)
Definition shrunk_guild : Guild :=
  mkGuild 10 (<[50:=board]> ∅) 999 false
          (fun _ _ => false) (fun _ => false) true 1000%nat.

(** message 100, written by user 7 in the general channel *)
Definition hello : Message :=
  mkMessage 100 1 7 (UserText "hello") 0 MT_default 1000 None.

(** a week *)
Definition config (limit : Z) (lock : bool) : StarboardConfig :=
  mkConfig (Some 50) limit lock 604800.

(** nothing starred yet *)
Definition fresh (limit : Z) (lock : bool) : World :=
  mkWorld [] [] 1 (config limit lock) (<[100:=hello]> ∅) 101 ∅ ∅.

(** with a threshold of two: user 8 has starred message 100 *)
Definition starred_once : World :=
  mkWorld [mkEntry 1 None 100 1 10 7] [mkStarrer 8 1] 2 (config 2 false)
          (<[100:=hello]> ∅) 101 (<[100:=hello]> ∅) ∅.



(** the mirror message, showing two stars *)
Definition mirror : Message :=
  mkMessage 101 50 999 (StarText WHITE_MEDIUM_STAR (Some 2) 1 100) 0 MT_default
            2000 (Some (mkEmbed (UserText "hello") 16774098)).

(** users 8 and 9 have: the mirror message 101 exists *)
Definition starred_twice : World :=
  mkWorld [mkEntry 1 (Some 101) 100 1 10 7] [mkStarrer 8 1; mkStarrer 9 1] 3
          (config 2 false) (<[101:=mirror]> (<[100:=hello]> ∅)) 102
          (<[100:=hello]> ∅) ∅.

(** the mirror message deleted by a moderator *)
Definition stale : World :=
  set_platform (delete 101) starred_twice.

End Example.

(** ** What the checks of a call amount to *)

(** The checks of [_star_message] before the message is fetched, for a call
    that is not on the starboard channel. *)
Record star_gate (g : Guild) (w : World) (channel sb : Channel) : Prop := {
  star_board : starboard_channel g (starboard w) = Some sb;
  star_unlocked : locked (starboard w) = false;
  star_nsfw : ch_nsfw channel && negb (ch_nsfw sb) = false;
  star_direct : ch_id channel ≠ ch_id sb;
  star_perm : ch_send_messages sb = true
}.

(** The config, lock and redirect checks of [_unstar_message]. *)
Record unstar_gate (g : Guild) (w : World) (channel sb : Channel) : Prop := {
  unstar_board : starboard_channel g (starboard w) = Some sb;
  unstar_unlocked : locked (starboard w) = false;
  unstar_direct : ch_id channel ≠ ch_id sb
}.

(** With [verify], the moderation policy ends a call given in [channel]
    without a word: the user is plonked there, or the star command is
    blocked there. *)
Definition policy_stops (g : Guild) (verify : bool) (starrer_id : Z)
    (channel : Channel) : bool :=
  verify && config_cog g
  && (is_plonked g starrer_id channel || is_command_blocked g (ch_id channel)).

(** [_star_message] accepts the message as one that can be starred. *)
Definition starrable (msg : Message) : bool :=
  negb ((content_empty (msg_content msg) && Nat.eqb (msg_attachments msg) 0)
        || negb (starrable_type (msg_type msg))).

(** Two worlds that differ in the message cache at most. *)
Definition same_but_cache (w w' : World) : Prop :=
  entries w' = entries w /\ starrers w' = starrers w
  /\ entry_seq w' = entry_seq w /\ starboard w' = starboard w
  /\ platform w' = platform w /\ next_snowflake w' = next_snowflake w
  /\ _about_to_be_deleted w' = _about_to_be_deleted w.


(** After an unstar: no starrer row of the user on the message is left,
    no entry has the id, the entry with the id has no mirror message. *)
Definition pair_gone (message_id starrer_id : Z) (w w' : World) : Prop :=
  forall s, In s (starrers w') -> unstar_target message_id starrer_id w s = false.

Definition entry_gone (eid : Z) (w' : World) : Prop :=
  forall e, In e (entries w') -> entry_id e ≠ eid.

Definition mirror_nulled (eid : Z) (w' : World) : Prop :=
  forall e, In e (entries w') -> entry_id e = eid -> bot_message_id e = None.

(** What [_unstar_message] has done once its checks have passed, case by
    case: [r] and [w'] are the result and the final world of a call made
    in [w]. *)
Definition unstar_outcome (g : Guild) (sb channel : Channel)
    (message_id starrer_id : Z) (w : World) (r : Res unit) (w' : World) : Prop :=
  match delete_starrer message_id starrer_id w with
  | (Ok (Some (eid, bot)), w1) =>
      let count := count_stars eid w1 in
      let w2 := if count =? 0
                then delete_entries (fk_cascade g) (has_entry_id eid) w1
                else w1 in
      pair_gone message_id starrer_id w w'
      /\ (count = 0 -> entry_gone eid w')
      /\ match bot with
         | None => r = Ok tt /\ w' = w2
         | Some b =>
             match get_message sb b w2 with
             | (Ok (Some bot_message), w3) =>
                 if count <? threshold (starboard w) then
                   b ∈ _about_to_be_deleted w'
                   /\ mirror_nulled eid w'
                   /\ match platform w !! msg_id bot_message with
                      | Some _ =>
                          r = Ok tt
                          /\ platform w' = delete (msg_id bot_message) (platform w)
                      | None => r = Raise HTTPException /\ platform w' = platform w
                      end
                 else
                   _about_to_be_deleted w' = _about_to_be_deleted w
                   /\ entries w' = entries w2
                   /\ match get_message channel message_id w3 with
                      | (Ok (Some msg), _) =>
                          match platform w !! msg_id bot_message with
                          | Some cur =>
                              r = Ok tt
                              /\ platform w'
                                 = <[msg_id bot_message :=
                                       with_content cur
                                         (fst (get_emoji_message msg count))
                                         (snd (get_emoji_message msg count))]>
                                     (platform w)
                          | None =>
                              r = Raise HTTPException /\ platform w' = platform w
                          end
                      | _ => r = Raise (Star MessageNotFound)
                             /\ platform w' = platform w
                      end
             | _ => r = Ok tt /\ w' = w2
             end
         end
  | _ => r = Raise (Star NotStarred) /\ w' = w
  end.

(** The state between the statement on the starrers and the handling of
    the mirror message: every entry but [t], the entry of the message, is
    settled. *)
Record pending (g : Guild) (w : World) (message_id : Z) (t : Entry) : Prop := {
  pending_wf : well_formed g w;
  pending_in : In t (entries w);
  pending_message_id : entry_message_id t = message_id;
  pending_others : forall e, In e (entries w) -> e ≠ t -> settled w e
}.

(** ** The listeners and the commands around the workflow *)

(** [clean_message_cache], the hourly task. *)
Definition clean_message_cache : M unit :=
  modify (set_message_cache (fun _ => ∅)).

(** [star_lock] and [star_unlock], as a moderator gives them in
    [channel] at the time [now]. *)
Definition star_lock (g : Guild) (now : Z) (channel : Channel) : M unit :=
  requires_starboard g ;;
  modify (set_locked true) ;;
  reply g now channel (UserText "Starboard is now locked.").

Definition star_unlock (g : Guild) (now : Z) (channel : Channel) : M unit :=
  requires_starboard g ;;
  modify (set_locked false) ;;
  reply g now channel (UserText "Starboard is now unlocked.").

(** [DELETE FROM starboard_entries WHERE bot_message_id=$1] *)
Definition delete_entry_by_bot_message_id (cascade : bool) (bot_id : Z) : M unit :=
  modify (delete_entries cascade (is_bot_message bot_id)).

(** [on_raw_message_delete]: a message of channel [channel_id] of the
    guild is gone. *)
Definition on_raw_message_delete (g : Guild) (message_id channel_id : Z) : M unit :=
  let* about := gets _about_to_be_deleted in
  if decide (message_id ∈ about)
  then modify (set_about_to_be_deleted (fun s => s ∖ {[ message_id ]}))
  else
    let* config := gets starboard in
    match starboard_channel g config with
    | None => ret tt
    | Some sb =>
        if negb (ch_id sb =? channel_id) then ret tt
        else delete_entry_by_bot_message_id (fk_cascade g) message_id
    end.

(** [bot_message_id=ANY($1::bigint[])] *)
Definition is_bot_message_any (ids : gset Z) (e : Entry) : bool :=
  match bot_message_id e with
  | Some b => bool_decide (b ∈ ids)
  | None => false
  end.

(** [on_raw_bulk_message_delete]: the messages [message_ids] of channel
    [channel_id] of the guild are gone at once. *)
Definition on_raw_bulk_message_delete (g : Guild) (message_ids : gset Z)
    (channel_id : Z) : M unit :=
  let* about := gets _about_to_be_deleted in
  if decide (message_ids ⊆ about)
  then modify (set_about_to_be_deleted (fun s => s ∖ message_ids))
  else
    let* config := gets starboard in
    match starboard_channel g config with
    | None => ret tt
    | Some sb =>
        if negb (ch_id sb =? channel_id) then ret tt
        else modify (delete_entries (fk_cascade g) (is_bot_message_any message_ids))
    end.

(** [DELETE FROM starboard_entries WHERE message_id=$1
     RETURNING bot_message_id], read with [fetchrow]: the mirror id of the
    first row deleted, [None] when no row was. *)
Definition delete_entry_returning (cascade : bool) (message_id : Z)
    : M (option (option Z)) :=
  fun w =>
    match List.find (has_message_id message_id) (entries w) with
    | None => (Ok None, w)
    | Some e =>
        (Ok (Some (bot_message_id e)),
         delete_entries cascade (has_message_id message_id) w)
    end.

(** What the listeners ask of the bot besides the guild: the kind of a
    channel ([isinstance(channel, (discord.Thread, discord.TextChannel))])
    and the member behind a user id.  Modelled from the spec:
    [bot.get_or_fetch_member] is not part of the sources; it gives the
    member, or [None] when the user is not one of the guild. *)
Record Member : Type := mkMember {
  member_id : Z;
  member_bot : bool
}.

Record Client : Type := mkClient {
  text_or_thread : Channel -> bool;
  get_or_fetch_member : Guild -> Z -> option Member
}.

(** [on_raw_reaction_clear]: every reaction of a message is removed at
    once.  [guild] is what [bot.get_guild] finds.  An entry without a
    mirror gives [get_message] the id [None], which no cached and no
    fetched message has. *)
Definition on_raw_reaction_clear (c : Client) (guild : option Guild)
    (channel_id message_id : Z) : M unit :=
  match guild with
  | None => ret tt
  | Some g =>
      match get_channel_or_thread g channel_id with
      | None => ret tt
      | Some channel =>
          if negb (text_or_thread c channel) then ret tt
          else
            let* config := gets starboard in
            match starboard_channel g config with
            | None => ret tt
            | Some sb =>
                let* record := delete_entry_returning (fk_cascade g) message_id in
                match record with
                | None => ret tt
                | Some None => ret tt
                | Some (Some b) =>
                    let* msg := get_message sb b in
                    match msg with
                    | None => ret tt
                    | Some m => delete_message m
                    end
                end
            end
      end
  end.

(** The payload of a reaction being added or removed; [payload_emoji] is
    [str(payload.emoji)]. *)
Record RawReactionActionEvent : Type := mkReaction {
  payload_emoji : string;
  payload_channel_id : Z;
  payload_message_id : Z;
  payload_user_id : Z;
  payload_member : option Member
}.

Inductive Fmt : Type := fmt_star | fmt_unstar.

(** U+2B50 WHITE MEDIUM STAR, in UTF-8 *)
Definition white_medium_star : string :=
  String (Ascii.ascii_of_nat 226)
    (String (Ascii.ascii_of_nat 173) (String (Ascii.ascii_of_nat 144) EmptyString)).

(** [try: ... except StarError: pass] *)
Definition swallow_star_error (m : M unit) : M unit :=
  fun w =>
    match m w with
    | (Raise (Star _), w') => (Ok tt, w')
    | other => other
    end.

(** [reaction_action]; [now] is the time [_star_message] reads. *)
Definition reaction_action (c : Client) (fmt : Fmt) (now : Z) (guild : option Guild)
    (payload : RawReactionActionEvent) : M unit :=
  if negb (String.eqb (payload_emoji payload) white_medium_star) then ret tt
  else
    match guild with
    | None => ret tt
    | Some g =>
        match get_channel_or_thread g (payload_channel_id payload) with
        | None => ret tt
        | Some channel =>
            if negb (text_or_thread c channel) then ret tt
            else
              let user :=
                match payload_member payload with
                | Some m => Some m
                | None => get_or_fetch_member c g (payload_user_id payload)
                end in
              match user with
              | None => ret tt
              | Some u =>
                  if member_bot u then ret tt
                  else
                    swallow_star_error
                      match fmt with
                      | fmt_star =>
                          star_message g now channel (payload_message_id payload)
                                       (payload_user_id payload) true
                      | fmt_unstar =>
                          unstar_message g channel (payload_message_id payload)
                                         (payload_user_id payload) true
                      end
              end
        end
    end.

Definition on_raw_reaction_add := fun c => reaction_action c fmt_star.
Definition on_raw_reaction_remove := fun c => reaction_action c fmt_unstar.

(** The units [star_age] accepts, and the interval it writes: [None] when
    it answers that the maximum is ten years and writes nothing. *)
Inductive AgeUnit : Type :=
| days | weeks | months | years | day | week | month | year.

(** [if units[-1] != 's': units = units + 's'] *)
Definition plural_unit (units : AgeUnit) : AgeUnit :=
  match units with
  | day => days
  | week => weeks
  | month => months
  | year => years
  | other => other
  end.

Definition is_years (units : AgeUnit) : bool :=
  match units with
  | years => true
  | _ => false
  end.

Definition star_age_interval (number : Z) (units : AgeUnit) : option (Z * AgeUnit) :=
  let units := plural_unit units in
  let number := Z.min (Z.max number 1) 35 in
  if is_years units && (10 <? number) then None
  else Some (number, units).

(** The world a first star leaves below the threshold, from the world
    [w1] in which the message has been fetched. *)
Definition first_starred (g : Guild) (channel : Channel) (message_id starrer_id : Z)
    (msg : Message) (w1 : World) : World :=
  set_starrers (fun l => l ++ [mkStarrer starrer_id (entry_seq w1)])
    (set_entry_seq (entry_seq w1 + 1)
       (set_entries
          (fun l => l ++ [mkEntry (entry_seq w1) None message_id (ch_id channel)
                                  (guild_id g) (msg_author msg)]) w1)).

(** The mirror message of a first star that meets the threshold, and the
    world that star leaves. *)
Definition first_mirror (g : Guild) (now : Z) (sb : Channel) (msg : Message)
    (w1 : World) : Message :=
  mkMessage (next_snowflake w1) (ch_id sb) (guild_me g)
            (StarText WHITE_MEDIUM_STAR None (msg_channel msg) (msg_id msg))
            0 MT_default now (Some (mkEmbed (msg_content msg) 16775396)).

Definition first_mirrored (g : Guild) (now : Z) (sb channel : Channel)
    (message_id starrer_id : Z) (msg : Message) (w1 : World) : World :=
  set_entries
    (List.map (update_where (has_message_id message_id) (Some (next_snowflake w1))))
    (set_next_snowflake (next_snowflake w1 + 1)
       (set_platform (insert (next_snowflake w1) (first_mirror g now sb msg w1))
          (first_starred g channel message_id starrer_id msg w1))).

(** ** More of the example guild *)

Module Scene.
Import Example.

(** the threshold at one, users 8 and 9 have starred message 100, which
    has been deleted since; its mirror message 101 is there *)
Definition lost : World :=
  mkWorld [mkEntry 1 (Some 101) 100 1 10 7] [mkStarrer 8 1; mkStarrer 9 1] 3
          (config 1 false) (<[101:=mirror]> ∅) 102 ∅ ∅.

(** every channel a text channel, no member looked up *)
Definition client : Client := mkClient (fun _ => true) (fun _ _ => None).

End Scene.

(** ** Spoilers: [is_url_spoiler] *)

(** A text is the sequence of its code points, as a Python [str] is. *)
Definition bar : Z := 124.
Definition newline : Z := 10.

(** The text after two bars, when it starts with them. *)
Definition after_bars (text : list Z) : option (list Z) :=
  match text with
  | a :: b :: rest => if (a =? bar) && (b =? bar) then Some rest else None
  | _ => None
  end.

(** [(.+?)\|\|] from the start of [text]: the shortest run of at least one
    character, none of them a newline, that two bars follow; with it the
    text after those bars. *)
Fixpoint spoiler_close (text : list Z) : option (list Z * list Z) :=
  match text with
  | [] => None
  | c :: text' =>
      if c =? newline then None
      else
        match after_bars text' with
        | Some rest => Some ([c], rest)
        | None =>
            match spoiler_close text' with
            | Some (group, rest) => Some (c :: group, rest)
            | None => None
            end
        end
  end.

(** [spoilers.findall(text)] for the pattern [\|\|(.+?)\|\|]: the groups
    of the matches, found from left to right, each search starting where
    the match before it ended.  [fuel] bounds the number of starting
    points tried; the length of the text is enough. *)
Fixpoint findall_spoilers (fuel : nat) (text : list Z) : list (list Z) :=
  match fuel with
  | O => []
  | S fuel' =>
      match text with
      | [] => []
      | _ :: text' =>
          match after_bars text with
          | Some inner =>
              match spoiler_close inner with
              | Some (group, rest) => group :: findall_spoilers fuel' rest
              | None => findall_spoilers fuel' text'
              end
          | None => findall_spoilers fuel' text'
          end
      end
  end.

Fixpoint starts_with (url text : list Z) : bool :=
  match url, text with
  | [], _ => true
  | a :: url', b :: text' => (a =? b) && starts_with url' text'
  | _ :: _, [] => false
  end.

(** [url in text] *)
Fixpoint contains (url text : list Z) : bool :=
  starts_with url text
  || match text with
     | [] => false
     | _ :: text' => contains url text'
     end.

Definition is_url_spoiler (text url : list Z) : bool :=
  existsb (contains url) (findall_spoilers (length text) text).

(** ** Basic facts *)

Lemma same_but_cache_refl w : same_but_cache w w.
Proof. repeat split. Qed.

Lemma get_message_frame channel message_id w r w' :
  get_message channel message_id w = (r, w') -> same_but_cache w w'.
Proof.
  unfold get_message. intros H.
  destruct (_message_cache w !! message_id).
  - inversion H; subst. apply same_but_cache_refl.
  - destruct (fetch_message channel message_id w); inversion H; subst;
      repeat split.
Qed.

Lemma star_message_direct depth g now channel message_id starrer_id w sb :
  star_gate g w channel sb ->
  _star_message (S depth) g now channel message_id starrer_id w =
  match get_message channel message_id w with
  | (Ok (Some msg), w1) =>
      if msg_author msg =? starrer_id then (Raise (Star SelfStar), w1)
      else if negb (starrable msg) then (Raise (Star NotStarrable), w1)
      else if msg_created_at msg <? now - max_age (starboard w)
      then (Raise (Star TooOld), w1)
      else star_commit g now sb channel message_id starrer_id msg w1
  | (Ok None, w1) => (Raise (Star MessageNotFound), w1)
  | (Raise x, w1) => (Raise x, w1)
  end.
Proof.
  intros [Hb Hl Hn Hd Hp]. cbn [_star_message]. unfold bind at 1, gets at 1.
  rewrite Hb, Hl, Hn. apply Z.eqb_neq in Hd. rewrite Hd, Hp. cbn [negb].
  unfold bind at 1. destruct (get_message channel message_id w) as [[[msg|]|x] w1];
    try reflexivity.
  destruct (msg_author msg =? starrer_id); [reflexivity|].
  unfold starrable. rewrite negb_involutive.
  destruct (_ || _); [reflexivity|].
  destruct (msg_created_at msg <? _); reflexivity.
Qed.

Lemma unstar_message_direct depth g channel message_id starrer_id w sb :
  unstar_gate g w channel sb ->
  _unstar_message (S depth) g channel message_id starrer_id w =
  if ch_send_messages sb
  then unstar_commit g sb channel message_id starrer_id w
  else (Raise (Star (NoPermission Edit)), w).
Proof.
  intros [Hb Hl Hd]. cbn [_unstar_message]. unfold bind at 1, gets at 1.
  rewrite Hb, Hl. apply Z.eqb_neq in Hd. rewrite Hd.
  destruct (ch_send_messages sb); reflexivity.
Qed.

(** ** Rejections of [_star_message] *)

(** C3, as amended: a call on a message written by the starrer is always
    rejected: with [SelfStar] once the earlier checks (starboard configured,
    not locked, NSFW, not on the starboard channel, permission, message
    fetched) have passed, whatever the threshold, the store being as
    before; on a locked starboard the lock check comes first and the error
    is [Locked]. *)
Theorem self_star_rejected depth g now channel message_id starrer_id w sb msg w1 :
  starboard_channel g (starboard w) = Some sb ->
  ch_nsfw channel && negb (ch_nsfw sb) = false ->
  ch_id channel ≠ ch_id sb ->
  ch_send_messages sb = true ->
  get_message channel message_id w = (Ok (Some msg), w1) ->
  msg_author msg = starrer_id ->
  _star_message (S depth) g now channel message_id starrer_id w
  = (if locked (starboard w) then (Raise (Star Locked), w)
     else (Raise (Star SelfStar), w1))
  /\ same_but_cache w w1.
Proof.
  intros Hb Hn Hd Hp Hm Ha.
  split; [|eapply get_message_frame; eassumption].
  destruct (locked (starboard w)) eqn:Hl.
  - cbn [_star_message]. unfold bind, gets. now rewrite Hb, Hl.
  - rewrite (star_message_direct _ _ _ _ _ _ _ sb), Hm by (split; assumption).
    apply Z.eqb_eq in Ha. now rewrite Ha.
Qed.

(** C7: a message created before [now - max_age] that passes the earlier
    checks is rejected with [TooOld]; neither the stars it has nor the
    threshold are looked at, and the store is as before. *)
Theorem too_old_rejected depth g now channel message_id starrer_id w sb msg w1 :
  star_gate g w channel sb ->
  get_message channel message_id w = (Ok (Some msg), w1) ->
  msg_author msg ≠ starrer_id ->
  starrable msg = true ->
  msg_created_at msg < now - max_age (starboard w) ->
  _star_message (S depth) g now channel message_id starrer_id w
  = (Raise (Star TooOld), w1)
  /\ same_but_cache w w1.
Proof.
  intros Hg Hm Ha Hs Ht.
  rewrite (star_message_direct _ _ _ _ _ _ _ _ Hg), Hm.
  apply Z.eqb_neq in Ha. apply Z.ltb_lt in Ht. rewrite Ha, Hs, Ht.
  split; [reflexivity|]. eapply get_message_frame; eassumption.
Qed.



(** ** [_unstar_message] *)

(** C10: after the config, lock and redirect checks, a call is rejected
    with the permission error when the bot may not send messages in the
    starboard channel; the check precedes the delete, and the world is
    left exactly as it was. *)
Theorem unstar_no_permission depth g channel message_id starrer_id w sb :
  unstar_gate g w channel sb ->
  ch_send_messages sb = false ->
  _unstar_message (S depth) g channel message_id starrer_id w
  = (Raise (Star (NoPermission Edit)), w).
Proof.
  intros Hg Hp. rewrite (unstar_message_direct _ _ _ _ _ _ _ Hg), Hp. reflexivity.
Qed.

Lemma get_message_none channel message_id w :
  _message_cache w !! message_id = None ->
  fetch_message channel message_id w = None ->
  get_message channel message_id w = (Ok None, w).
Proof. intros Hc Hf. unfold get_message. now rewrite Hc, Hf. Qed.

Lemma delete_starrer_world message_id starrer_id w eid bot w1 :
  delete_starrer message_id starrer_id w = (Ok (Some (eid, bot)), w1) ->
  w1 = set_starrers
         (List.filter (fun s => negb (unstar_target message_id starrer_id w s))) w.
Proof.
  unfold delete_starrer. destruct (List.find _ (starrers w)); intros H;
    inversion H; reflexivity.
Qed.

(** C9: the starrer is deleted, the count left is above zero and below the
    threshold, and the mirror message of the entry is neither cached nor
    fetched: the call returns, and the world differs from the one before
    in the deleted starrer rows only.  The entries (with the stale
    [bot_message_id]), the set of pending deletions and the platform are
    untouched. *)
Theorem unstar_stale_mirror depth g channel message_id starrer_id w sb eid b w1 :
  unstar_gate g w channel sb ->
  ch_send_messages sb = true ->
  delete_starrer message_id starrer_id w = (Ok (Some (eid, Some b)), w1) ->
  0 < count_stars eid w1 ->
  count_stars eid w1 < threshold (starboard w) ->
  _message_cache w !! b = None ->
  fetch_message sb b w = None ->
  _unstar_message (S depth) g channel message_id starrer_id w = (Ok tt, w1)
  /\ w1 = set_starrers
            (List.filter (fun s => negb (unstar_target message_id starrer_id w s))) w
  /\ entries w1 = entries w
  /\ _about_to_be_deleted w1 = _about_to_be_deleted w
  /\ platform w1 = platform w.
Proof.
  intros Hg Hp Hd Hc Hlt Hcache Hfetch.
  pose proof (delete_starrer_world _ _ _ _ _ _ Hd) as Hw1.
  rewrite (unstar_message_direct _ _ _ _ _ _ _ Hg), Hp.
  split; [|split; [exact Hw1|subst w1; repeat split]].
  unfold unstar_commit. unfold bind at 1. rewrite Hd.
  unfold unstar_retract. unfold bind at 1, gets at 1. unfold bind at 1.
  assert ((count_stars eid w1 =? 0) = false) as -> by (apply Z.eqb_neq; lia).
  cbv [ret]. unfold bind at 1.
  rewrite get_message_none; [reflexivity| |]; subst w1; assumption.
Qed.

Lemma delete_starrer_cases message_id starrer_id w :
  delete_starrer message_id starrer_id w = (Ok None, w)
  \/ exists eid bot,
       delete_starrer message_id starrer_id w
       = (Ok (Some (eid, bot)),
          set_starrers
            (List.filter (fun s => negb (unstar_target message_id starrer_id w s))) w).
Proof.
  unfold delete_starrer. destruct (List.find _ (starrers w)); eauto.
Qed.

Lemma delete_entries_frame cascade sel w :
  let w' := delete_entries cascade sel w in
  entries w' = List.filter (fun e => negb (sel e)) (entries w)
  /\ (forall s, In s (starrers w') -> In s (starrers w))
  /\ platform w' = platform w
  /\ _message_cache w' = _message_cache w
  /\ _about_to_be_deleted w' = _about_to_be_deleted w
  /\ starboard w' = starboard w.
Proof.
  unfold delete_entries. destruct cascade; cbn; repeat split; auto.
  intros s Hs. apply filter_In in Hs. tauto.
Qed.

Lemma get_message_total channel message_id w :
  exists o w', get_message channel message_id w = (Ok o, w').
Proof.
  unfold get_message. destruct (_message_cache w !! message_id); eauto.
  destruct (fetch_message channel message_id w); eauto.
Qed.

Lemma get_message_none_world channel message_id w w' :
  get_message channel message_id w = (Ok None, w') -> w' = w.
Proof.
  unfold get_message. destruct (_message_cache w !! message_id); [discriminate|].
  destruct (fetch_message channel message_id w); congruence.
Qed.

Lemma unstar_commit_outcome g sb channel message_id starrer_id w r w' :
  unstar_commit g sb channel message_id starrer_id w = (r, w') ->
  unstar_outcome g sb channel message_id starrer_id w r w'.
Proof.
  intros Hrun. unfold unstar_outcome. unfold unstar_commit, bind at 1 in Hrun.
  destruct (delete_starrer_cases message_id starrer_id w) as [Hd|(eid & bot & Hd)];
    rewrite Hd in *; [inversion Hrun; split; reflexivity|].
  set (w1 := set_starrers _ w) in *.
  assert (Hs1 : forall s, In s (starrers w1) ->
                          unstar_target message_id starrer_id w s = false).
  { intros s Hs. apply filter_In in Hs. destruct Hs as [_ Hs].
    now apply negb_true_iff in Hs. }
  unfold unstar_retract in Hrun.
  unfold bind at 1, gets at 1 in Hrun. unfold bind at 1 in Hrun.
  set (count := count_stars eid w1) in *.
  set (w2 := if count =? 0
             then delete_entries (fk_cascade g) (has_entry_id eid) w1 else w1).
  assert (Hw2 : (if count =? 0 then delete_entry_by_id (fk_cascade g) eid else ret tt) w1
                = (Ok tt, w2)).
  { unfold w2. destruct (count =? 0); reflexivity. }
  rewrite Hw2 in Hrun.
  assert (Hs2 : forall s, In s (starrers w2) -> In s (starrers w1)).
  { unfold w2. destruct (count =? 0); [|intros s Hs; exact Hs].
    destruct (delete_entries_frame (fk_cascade g) (has_entry_id eid) w1)
      as (_ & H & _). exact H. }
  assert (He2 : count = 0 -> forall e, In e (entries w2) -> entry_id e ≠ eid).
  { intros Hc e He. unfold w2 in He. rewrite Hc in He. cbn [Z.eqb] in He.
    rewrite (proj1 (delete_entries_frame _ _ _)) in He.
    apply filter_In in He. destruct He as [_ He].
    apply negb_true_iff, Z.eqb_neq in He. exact He. }
  assert (Hf2 : platform w2 = platform w
                /\ _about_to_be_deleted w2 = _about_to_be_deleted w
                /\ starboard w2 = starboard w).
  { unfold w2. destruct (count =? 0); [|repeat split].
    destruct (delete_entries_frame (fk_cascade g) (has_entry_id eid) w1)
      as (_ & _ & H1 & _ & H2 & H3). rewrite H1, H2, H3. repeat split. }
  destruct Hf2 as (Hpl2 & Hab2 & Hsb2).
  fold w2.
  destruct bot as [b|]; cycle 1.
  { inversion Hrun; subst r w'.
    split; [intros s Hs; auto|split; [exact He2|split; reflexivity]]. }
  unfold bind at 1 in Hrun.
  destruct (get_message_total sb b w2) as (o & w3 & Hgm). rewrite Hgm in *.
  destruct o as [bot_message|]; cycle 1.
  { apply get_message_none_world in Hgm. inversion Hrun; subst r w' w3.
    split; [intros s Hs; auto|split; [exact He2|split; reflexivity]]. }
  destruct (get_message_frame _ _ _ _ _ Hgm) as (He3 & Hs3 & _ & Hsb3 & Hpl3 & _ & Hab3).
  unfold bind at 1, gets at 1 in Hrun. rewrite Hsb3, Hsb2 in Hrun.
  destruct (count <? threshold (starboard w)) eqn:Hlt.
  - (* below the threshold: the mirror message is deleted *)
    unfold bind at 1, modify at 1 in Hrun.
    set (w4 := set_about_to_be_deleted _ w3) in *.
    unfold bind at 1 in Hrun.
    set (w5 := snd ((if negb (count =? 0) then null_bot_message_id eid else ret tt) w4)).
    assert (Hw5 : (if negb (count =? 0) then null_bot_message_id eid else ret tt) w4
                  = (Ok tt, w5)).
    { unfold w5. destruct (negb (count =? 0)); reflexivity. }
    rewrite Hw5 in Hrun.
    assert (Hs5 : starrers w5 = starrers w3 /\ platform w5 = platform w3
                  /\ _about_to_be_deleted w5 = {[ b ]} ∪ _about_to_be_deleted w3).
    { unfold w5. destruct (negb (count =? 0)); repeat split. }
    destruct Hs5 as (Hs5 & Hpl5 & Hab5).
    assert (Hn5 : forall e, In e (entries w5) -> entry_id e = eid ->
                            bot_message_id e = None).
    { intros e He Hid. unfold w5 in He.
      destruct (count =? 0) eqn:Hc; cbn in He.
      - apply Z.eqb_eq in Hc. rewrite He3 in He. now apply He2 in He.
      - apply in_map_iff in He. destruct He as (e0 & <- & _).
        unfold update_where, has_entry_id in *.
        destruct (entry_id e0 =? eid) eqn:H0; [reflexivity|].
        apply Z.eqb_neq in H0. contradiction. }
    assert (He5 : count = 0 -> forall e, In e (entries w5) -> entry_id e ≠ eid).
    { intros Hc e He. unfold w5 in He. rewrite Hc in He. cbn in He.
      rewrite He3 in He. now apply He2. }
    unfold delete_message in Hrun. rewrite Hpl5, Hpl3, Hpl2 in Hrun.
    destruct (platform w !! msg_id bot_message) eqn:Hpm;
      inversion Hrun; subst r w';
      (split;
       [intros s Hs; cbn in Hs; rewrite ?Hs5, ?Hs3 in Hs; auto
       |split;
        [exact He5
        |split;
         [cbn; rewrite Hab5; apply elem_of_union_l, elem_of_singleton; reflexivity
         |split;
          [exact Hn5
          |split; [reflexivity|cbn; rewrite ?Hpl5, ?Hpl3, ?Hpl2; reflexivity]]]]]).
  - (* at the threshold or above: the mirror message is edited *)
    unfold bind at 1 in Hrun.
    destruct (get_message_total channel message_id w3) as (o & w6 & Hgo).
    rewrite Hgo in *.
    destruct (get_message_frame _ _ _ _ _ Hgo)
      as (He6 & Hs6 & _ & _ & Hpl6 & _ & Hab6).
    destruct o as [msg|]; cycle 1.
    { inversion Hrun; subst r w'.
      split; [intros s Hs; rewrite Hs6, Hs3 in Hs; auto|].
      split; [intros Hc e He; rewrite He6, He3 in He; now apply He2|].
      split; [now rewrite Hab6, Hab3, Hab2|].
      split; [now rewrite He6, He3|].
      split; [reflexivity|now rewrite Hpl6, Hpl3, Hpl2]. }
    destruct (get_emoji_message msg count) as [content embed] eqn:Hem.
    unfold edit in Hrun. rewrite Hpl6, Hpl3, Hpl2 in Hrun.
    destruct (platform w !! msg_id bot_message) eqn:Hpm;
      inversion Hrun; subst r w';
      (split; [intros s Hs; cbn in Hs; rewrite Hs6, Hs3 in Hs; auto|];
       split; [intros Hc e He; cbn in He; rewrite He6, He3 in He; now apply He2|];
       split; [cbn; now rewrite Hab6, Hab3, Hab2|];
       split; [cbn; now rewrite He6, He3|];
       split; [reflexivity|cbn; now rewrite ?Hpl6, ?Hpl3, ?Hpl2]).
Qed.

(** C5, as amended: a call of [_unstar_message] that passes the config,
    lock and redirect checks and the permission check deletes the starrer
    rows of the user on the message, or fails with [NotStarred] when there
    is none, the world being as before.  With the count that is left: at
    zero the entry is deleted.  An entry without mirror message, or whose
    mirror message cannot be fetched: nothing else is done.  A mirror
    message that is fetched and a count below the threshold: its id is in
    the set of pending deletions, the entry (if it is still there) has no
    [bot_message_id], and the message is deleted from the platform.  A
    count at the threshold or above: the message is edited to the count,
    the call failing with [MessageNotFound] before the edit when the
    starred message cannot be fetched. *)
Theorem unstar_commit_spec depth g channel message_id starrer_id w sb :
  unstar_gate g w channel sb ->
  ch_send_messages sb = true ->
  unstar_outcome g sb channel message_id starrer_id w
    (fst (_unstar_message (S depth) g channel message_id starrer_id w))
    (snd (_unstar_message (S depth) g channel message_id starrer_id w)).
Proof.
  intros Hg Hp. rewrite (unstar_message_direct _ _ _ _ _ _ _ Hg), Hp.
  apply unstar_commit_outcome. apply surjective_pairing.
Qed.

(** ** The redirect from the starboard channel *)

Lemma star_redirect_step depth g now sb message_id starrer_id w :
  starboard_channel g (starboard w) = Some sb ->
  _star_message (S depth) g now sb message_id starrer_id w =
  if locked (starboard w) then (Raise (Star Locked), w)
  else match List.find (is_bot_message message_id) (entries w) with
       | None => (Raise (Star NotFound), w)
       | Some e =>
           match get_channel_or_thread g (entry_channel_id e) with
           | None => (Raise (Star OriginChannelNotFound), w)
           | Some ch => _star_message depth g now ch (entry_message_id e) starrer_id w
           end
       end.
Proof.
  intros Hb. cbn [_star_message]. unfold bind at 1, gets at 1. rewrite Hb.
  destruct (locked (starboard w)); [reflexivity|].
  rewrite andb_negb_r, Z.eqb_refl. unfold bind, select_origin, gets.
  destruct (List.find _ (entries w)) as [e|]; [|reflexivity].
  destruct (get_channel_or_thread g (entry_channel_id e)); reflexivity.
Qed.

Lemma unstar_redirect_step depth g sb message_id starrer_id w :
  starboard_channel g (starboard w) = Some sb ->
  _unstar_message (S depth) g sb message_id starrer_id w =
  if locked (starboard w) then (Raise (Star Locked), w)
  else match List.find (is_bot_message message_id) (entries w) with
       | None => (Raise (Star NotFound), w)
       | Some e =>
           match get_channel_or_thread g (entry_channel_id e) with
           | None => (Raise (Star OriginChannelNotFound), w)
           | Some ch => _unstar_message depth g ch (entry_message_id e) starrer_id w
           end
       end.
Proof.
  intros Hb. cbn [_unstar_message]. unfold bind at 1, gets at 1. rewrite Hb.
  destruct (locked (starboard w)); [reflexivity|].
  rewrite Z.eqb_refl. unfold bind, select_origin, gets.
  destruct (List.find _ (entries w)) as [e|]; [|reflexivity].
  destruct (get_channel_or_thread g (entry_channel_id e)); reflexivity.
Qed.

(** A call that is not on the starboard channel makes no nested call. *)
Lemma star_depth_irrelevant depth g now channel message_id starrer_id w sb :
  starboard_channel g (starboard w) = Some sb ->
  ch_id channel ≠ ch_id sb ->
  _star_message (S depth) g now channel message_id starrer_id w
  = _star_message 1 g now channel message_id starrer_id w.
Proof.
  intros Hb Hd. apply Z.eqb_neq in Hd. cbn [_star_message].
  unfold bind, gets. rewrite Hb. cbv beta iota. rewrite Hd. reflexivity.
Qed.

Lemma unstar_depth_irrelevant depth g channel message_id starrer_id w sb :
  starboard_channel g (starboard w) = Some sb ->
  ch_id channel ≠ ch_id sb ->
  _unstar_message (S depth) g channel message_id starrer_id w
  = _unstar_message 1 g channel message_id starrer_id w.
Proof.
  intros Hb Hd. apply Z.eqb_neq in Hd. cbn [_unstar_message].
  unfold bind, gets. rewrite Hb. cbv beta iota. rewrite Hd. reflexivity.
Qed.

Lemma star_locked depth g now channel message_id starrer_id w sb :
  starboard_channel g (starboard w) = Some sb ->
  locked (starboard w) = true ->
  _star_message (S depth) g now channel message_id starrer_id w
  = (Raise (Star Locked), w).
Proof.
  intros Hb Hl. cbn [_star_message]. unfold bind, gets. now rewrite Hb, Hl.
Qed.

Lemma unstar_locked depth g channel message_id starrer_id w sb :
  starboard_channel g (starboard w) = Some sb ->
  locked (starboard w) = true ->
  _unstar_message (S depth) g channel message_id starrer_id w
  = (Raise (Star Locked), w).
Proof.
  intros Hb Hl. cbn [_unstar_message]. unfold bind, gets. now rewrite Hb, Hl.
Qed.

(** The public operations: the policy first, then the workflow. *)
Lemma star_message_policy g now channel message_id starrer_id verify w :
  star_message g now channel message_id starrer_id verify w
  = if policy_stops g verify starrer_id channel then (Ok tt, w)
    else _star_message (recursion_limit g) g now channel message_id starrer_id w.
Proof.
  unfold star_message, policy_stops.
  destruct verify, (config_cog g), (is_plonked g starrer_id channel),
    (is_command_blocked g (ch_id channel)); reflexivity.
Qed.

Lemma unstar_message_policy g channel message_id starrer_id verify w :
  unstar_message g channel message_id starrer_id verify w
  = if policy_stops g verify starrer_id channel then (Ok tt, w)
    else _unstar_message (recursion_limit g) g channel message_id starrer_id w.
Proof.
  unfold unstar_message, policy_stops.
  destruct verify, (config_cog g), (is_plonked g starrer_id channel),
    (is_command_blocked g (ch_id channel)); reflexivity.
Qed.

(** C4, as amended: [star_message] and [unstar_message] on the starboard
    channel with the id of a mirror message, with or without [verify].
    The moderation policy is asked about the channel of the call, the
    starboard channel: when it stops the call, the call ends silently and
    changes nothing.  Otherwise the call fails with [Locked] on a locked
    starboard, with [NotFound] when no entry has that [bot_message_id],
    and with [OriginChannelNotFound] when the channel of the entry does
    not resolve.  Otherwise it gives the result and the final world of
    [_star_message] (or [_unstar_message]) on the channel and the message
    of the entry, and so does the public operation there unless the
    policy stops that one.  When that channel is not the starboard channel
    the redirect makes exactly one nested call: the call on the origin
    runs at a depth of one, and at a depth of one the call on the
    starboard channel ends in [RecursionError]. *)
Theorem redirect_to_origin n g now sb message_id starrer_id verify w :
  starboard_channel g (starboard w) = Some sb ->
  recursion_limit g = S (S n) ->
  if policy_stops g verify starrer_id sb then
    star_message g now sb message_id starrer_id verify w = (Ok tt, w)
    /\ unstar_message g sb message_id starrer_id verify w = (Ok tt, w)
  else if locked (starboard w) then
    star_message g now sb message_id starrer_id verify w = (Raise (Star Locked), w)
    /\ unstar_message g sb message_id starrer_id verify w = (Raise (Star Locked), w)
  else
    match List.find (is_bot_message message_id) (entries w) with
    | None =>
        star_message g now sb message_id starrer_id verify w
        = (Raise (Star NotFound), w)
        /\ unstar_message g sb message_id starrer_id verify w
           = (Raise (Star NotFound), w)
    | Some e =>
        match get_channel_or_thread g (entry_channel_id e) with
        | None =>
            star_message g now sb message_id starrer_id verify w
            = (Raise (Star OriginChannelNotFound), w)
            /\ unstar_message g sb message_id starrer_id verify w
               = (Raise (Star OriginChannelNotFound), w)
        | Some ch =>
            let nested := if ch_id ch =? ch_id sb then S n else 1%nat in
            let direct := if ch_id ch =? ch_id sb then S (S n) else 1%nat in
            (star_message g now sb message_id starrer_id verify w
             = _star_message nested g now ch (entry_message_id e) starrer_id w
             /\ unstar_message g sb message_id starrer_id verify w
                = _unstar_message nested g ch (entry_message_id e) starrer_id w)
            /\ (star_message g now ch (entry_message_id e) starrer_id verify w
                = (if policy_stops g verify starrer_id ch then (Ok tt, w)
                   else _star_message direct g now ch (entry_message_id e)
                          starrer_id w)
                /\ unstar_message g ch (entry_message_id e) starrer_id verify w
                   = (if policy_stops g verify starrer_id ch then (Ok tt, w)
                      else _unstar_message direct g ch (entry_message_id e)
                             starrer_id w))
            /\ (_star_message 1 g now sb message_id starrer_id w
                = (Raise RecursionError, w)
                /\ _unstar_message 1 g sb message_id starrer_id w
                   = (Raise RecursionError, w))
        end
    end.
Proof.
  intros Hb Hr.
  rewrite !star_message_policy, !unstar_message_policy.
  destruct (policy_stops g verify starrer_id sb); [split; reflexivity|].
  rewrite Hr, (star_redirect_step (S n)), (unstar_redirect_step (S n)) by assumption.
  destruct (locked (starboard w)) eqn:Hl; [split; reflexivity|].
  destruct (List.find _ (entries w)) as [e|] eqn:Hf; [|split; reflexivity].
  destruct (get_channel_or_thread g (entry_channel_id e)) as [ch|] eqn:Hc;
    [|split; reflexivity].
  cbv zeta. rewrite star_message_policy, unstar_message_policy, Hr.
  rewrite (star_redirect_step 0 g now sb), (unstar_redirect_step 0 g sb), Hl, Hf, Hc
    by assumption.
  destruct (ch_id ch =? ch_id sb) eqn:Hd.
  - repeat split; reflexivity.
  - apply Z.eqb_neq in Hd.
    rewrite (star_depth_irrelevant n g now ch _ _ w sb Hb Hd),
      (star_depth_irrelevant (S n) g now ch _ _ w sb Hb Hd),
      (unstar_depth_irrelevant n g ch _ _ w sb Hb Hd),
      (unstar_depth_irrelevant (S n) g ch _ _ w sb Hb Hd).
    repeat split; reflexivity.
Qed.

(** ** Counting starrer rows *)

Lemma count_rows_nonneg eid rows : 0 <= count_rows eid rows.
Proof. unfold count_rows. lia. Qed.

Lemma count_rows_app eid rows s :
  count_rows eid (rows ++ [s])
  = count_rows eid rows + (if stars_of eid s then 1 else 0).
Proof.
  unfold count_rows. rewrite List.filter_app, length_app. cbn [List.filter].
  destruct (stars_of eid s); cbn [length]; lia.
Qed.

Lemma count_rows_filter_le eid keep rows :
  count_rows eid (List.filter keep rows) <= count_rows eid rows.
Proof.
  unfold count_rows. induction rows as [|s rows IH]; [reflexivity|].
  cbn [List.filter]. destruct (keep s), (stars_of eid s) eqn:Hs;
    cbn [List.filter length]; rewrite ?Hs; cbn [length]; lia.
Qed.

Lemma count_rows_filter_same eid keep rows :
  (forall s, In s rows -> stars_of eid s = true -> keep s = true) ->
  count_rows eid (List.filter keep rows) = count_rows eid rows.
Proof.
  unfold count_rows. induction rows as [|s rows IH]; intros H; [reflexivity|].
  cbn [List.filter].
  assert (IH' : Z.of_nat (length (List.filter (stars_of eid) (List.filter keep rows)))
                = Z.of_nat (length (List.filter (stars_of eid) rows))).
  { apply IH. intros s' Hs'. apply H. now right. }
  destruct (stars_of eid s) eqn:Hs.
  - rewrite (H s (or_introl eq_refl) Hs). cbn [List.filter]. rewrite Hs.
    cbn [length]. lia.
  - destruct (keep s); cbn [List.filter]; rewrite ?Hs; exact IH'.
Qed.

Lemma count_rows_none eid rows :
  (forall s, In s rows -> starrer_entry_id s ≠ eid) -> count_rows eid rows = 0.
Proof.
  unfold count_rows. induction rows as [|s rows IH]; intros H; [reflexivity|].
  cbn [List.filter]. unfold stars_of at 1.
  assert (Hs : (starrer_entry_id s =? eid) = false).
  { apply Z.eqb_neq, H. now left. }
  rewrite Hs. apply IH. intros s' Hs'. apply H. now right.
Qed.

(** ** [well_formed] is kept by every step of the workflow *)

Section WellFormed.
Variable g : Guild.

Lemma wf_add_starrer w author eid :
  well_formed g w -> eid < entry_seq w ->
  well_formed g (set_starrers (fun l => l ++ [mkStarrer author eid]) w).
Proof.
  intros [H1 H2 H3 H4 H5 H6 H7 H8 H9] Hlt. split; cbn; auto.
  intros s Hs. apply in_app_or in Hs. destruct Hs as [Hs|[<-|[]]]; auto.
Qed.

Lemma wf_draw w :
  well_formed g w -> well_formed g (set_entry_seq (entry_seq w + 1) w).
Proof.
  intros [H1 H2 H3 H4 H5 H6 H7 H8 H9]. split; cbn; auto.
  - intros e He. apply H3 in He. lia.
  - intros s Hs. apply H4 in Hs. lia.
Qed.

Lemma wf_filter_starrers w keep :
  well_formed g w -> well_formed g (set_starrers (List.filter keep) w).
Proof.
  intros [H1 H2 H3 H4 H5 H6 H7 H8 H9]. split; cbn; auto.
  intros s Hs. apply filter_In in Hs. apply H4, Hs.
Qed.

Lemma wf_about w f :
  well_formed g w -> well_formed g (set_about_to_be_deleted f w).
Proof. intros [H1 H2 H3 H4 H5 H6 H7 H8 H9]. split; cbn; auto. Qed.

Lemma wf_cache_insert w k m :
  well_formed g w -> msg_id m = k ->
  well_formed g (set_message_cache (insert k m) w).
Proof.
  intros [H1 H2 H3 H4 H5 H6 H7 H8 H9] Hk. split; cbn; auto.
  intros k' m' Hm. destruct (decide (k = k')) as [<-|Hne].
  - rewrite lookup_insert_eq in Hm. congruence.
  - rewrite lookup_insert_ne in Hm by assumption. eauto.
Qed.

Lemma wf_get_message w channel message_id r w' :
  well_formed g w -> get_message channel message_id w = (r, w') ->
  well_formed g w'.
Proof.
  intros Hwf. unfold get_message.
  destruct (_message_cache w !! message_id); [congruence|].
  unfold fetch_message.
  destruct (platform w !! message_id) as [m|] eqn:Hm; [|congruence].
  destruct (msg_channel m =? ch_id channel); [|congruence].
  intros H. inversion H; subst. apply wf_cache_insert; [assumption|].
  apply (wf_platform g w Hwf _ _ Hm).
Qed.

Lemma wf_add_entry w message_id channel guild author :
  well_formed g w ->
  (forall e, In e (entries w) -> entry_message_id e ≠ message_id) ->
  (forall sb, starboard_channel g (starboard w) = Some sb -> channel ≠ ch_id sb) ->
  well_formed g
    (set_entry_seq (entry_seq w + 1)
       (set_entries
          (fun l => l ++ [mkEntry (entry_seq w) None message_id channel guild author])
          w)).
Proof.
  intros [H1 H2 H3 H4 H5 H6 H7 H8 H9] Hnew Hch. split; cbn; auto.
  - intros e1 e2 He1 He2 Heq.
    apply in_app_or in He1, He2.
    destruct He1 as [He1|[<-|[]]], He2 as [He2|[<-|[]]]; auto.
    + exfalso. apply (Hnew e1 He1). exact Heq.
    + exfalso. apply (Hnew e2 He2). symmetry. exact Heq.
  - intros e1 e2 He1 He2 Heq.
    apply in_app_or in He1, He2.
    destruct He1 as [He1|[<-|[]]], He2 as [He2|[<-|[]]]; auto.
    + exfalso. apply H3 in He1. cbn in Heq. lia.
    + exfalso. apply H3 in He2. cbn in Heq. lia.
  - intros e He. apply in_app_or in He.
    destruct He as [He|[<-|[]]]; [apply H3 in He|cbn]; lia.
  - intros s Hs. apply H4 in Hs. lia.
  - intros e1 e2 b He1 He2 Hb1 Hb2.
    apply in_app_or in He1, He2.
    destruct He1 as [He1|[<-|[]]], He2 as [He2|[<-|[]]]; eauto; discriminate.
  - intros sb e b Hsb He Hb. apply in_app_or in He.
    destruct He as [He|[<-|[]]]; [eauto|discriminate].
  - intros sb e Hsb He. apply in_app_or in He.
    destruct He as [He|[<-|[]]]; [eauto|]. cbn. auto.
Qed.

Lemma in_update_where sel b l e' :
  In e' (List.map (update_where sel b) l) ->
  exists e, In e l /\ e' = update_where sel b e.
Proof. intros H. apply in_map_iff in H. destruct H as (e & <- & He). eauto. Qed.

Lemma update_where_message_id sel b e :
  entry_message_id (update_where sel b e) = entry_message_id e.
Proof. unfold update_where. destruct (sel e); reflexivity. Qed.

Lemma update_where_entry_id sel b e :
  entry_id (update_where sel b e) = entry_id e.
Proof. unfold update_where. destruct (sel e); reflexivity. Qed.

Lemma update_where_channel sel b e :
  entry_channel_id (update_where sel b e) = entry_channel_id e.
Proof. unfold update_where. destruct (sel e); reflexivity. Qed.

(** Clearing the mirror message of the entries with an id. *)
Lemma wf_null w eid :
  well_formed g w ->
  well_formed g (set_entries (List.map (update_where (has_entry_id eid) None)) w).
Proof.
  intros [H1 H2 H3 H4 H5 H6 H7 H8 H9]. split; cbn; auto.
  - intros e1' e2' He1 He2 Heq.
    apply in_update_where in He1, He2.
    destruct He1 as (e1 & He1 & ->), He2 as (e2 & He2 & ->).
    rewrite !update_where_message_id in Heq. now rewrite (H1 e1 e2).
  - intros e1' e2' He1 He2 Heq.
    apply in_update_where in He1, He2.
    destruct He1 as (e1 & He1 & ->), He2 as (e2 & He2 & ->).
    rewrite !update_where_entry_id in Heq. now rewrite (H2 e1 e2).
  - intros e' He. apply in_update_where in He. destruct He as (e & He & ->).
    rewrite update_where_entry_id. auto.
  - intros e1' e2' b He1 He2 Hb1 Hb2.
    apply in_update_where in He1, He2.
    destruct He1 as (e1 & He1 & ->), He2 as (e2 & He2 & ->).
    unfold update_where in *.
    destruct (has_entry_id eid e1), (has_entry_id eid e2); try discriminate.
    eauto.
  - intros sb e' b Hsb He Hb. apply in_update_where in He.
    destruct He as (e & He & ->). unfold update_where in Hb.
    destruct (has_entry_id eid e); [discriminate|eauto].
  - intros sb e' Hsb He. apply in_update_where in He.
    destruct He as (e & He & ->). rewrite update_where_channel. eauto.
Qed.

(** Deleting entries, with or without their starrers. *)
Lemma wf_delete_entries w cascade sel :
  well_formed g w -> well_formed g (delete_entries cascade sel w).
Proof.
  intros [H1 H2 H3 H4 H5 H6 H7 H8 H9].
  assert (Hin : forall e, In e (List.filter (fun e => negb (sel e)) (entries w)) ->
                          In e (entries w)).
  { intros e He. apply filter_In in He. tauto. }
  unfold delete_entries. destruct cascade; split; cbn; eauto.
  intros s Hs. apply filter_In in Hs. apply H4, Hs.
Qed.

(** Deleting a message that is the mirror message of no entry. *)
Lemma wf_delete_message w b :
  well_formed g w ->
  (forall e, In e (entries w) -> bot_message_id e ≠ Some b) ->
  well_formed g (set_platform (delete b) w).
Proof.
  intros [H1 H2 H3 H4 H5 H6 H7 H8 H9] Hb. split; cbn; auto.
  - intros sb e b' Hsb He Hb'. destruct (H6 sb e b' Hsb He Hb') as (m & Hm & Hc).
    exists m. split; [|exact Hc]. rewrite lookup_delete_ne; [exact Hm|].
    intros <-. exact (Hb e He Hb').
  - intros k m Hm. destruct (decide (b = k)) as [<-|Hne].
    + rewrite lookup_delete_eq in Hm. discriminate.
    + rewrite lookup_delete_ne in Hm by assumption. eauto.
Qed.

(** Editing a message that exists. *)
Lemma wf_edit w b cur content embed :
  well_formed g w -> platform w !! b = Some cur ->
  well_formed g (set_platform (insert b (with_content cur content embed)) w).
Proof.
  intros [H1 H2 H3 H4 H5 H6 H7 H8 H9] Hcur. split; cbn; auto.
  - intros sb e b' Hsb He Hb'. destruct (H6 sb e b' Hsb He Hb') as (m & Hm & Hc).
    destruct (decide (b = b')) as [<-|Hne].
    + exists (with_content cur content embed). rewrite lookup_insert_eq.
      split; [reflexivity|]. cbn. congruence.
    + exists m. rewrite lookup_insert_ne by assumption. auto.
  - intros k m Hm. destruct (decide (b = k)) as [<-|Hne].
    + rewrite lookup_insert_eq in Hm. inversion Hm; subst m. cbn. eauto.
    + rewrite lookup_insert_ne in Hm by assumption. eauto.
Qed.

(** A new message on the platform. *)
Lemma wf_new_message w m :
  well_formed g w -> msg_id m = next_snowflake w ->
  well_formed g
    (set_next_snowflake (next_snowflake w + 1)
       (set_platform (insert (next_snowflake w) m) w)).
Proof.
  intros [H1 H2 H3 H4 H5 H6 H7 H8 H9] Hid. split; cbn; auto.
  - intros sb e b Hsb He Hb. destruct (H6 sb e b Hsb He Hb) as (m' & Hm & Hc).
    exists m'. split; [|exact Hc]. rewrite lookup_insert_ne; [exact Hm|].
    intros <-. apply H8 in Hm. lia.
  - intros k m' Hm. destruct (decide (next_snowflake w = k)) as [<-|Hne].
    + rewrite lookup_insert_eq in Hm. inversion Hm; subst m'. split; [assumption|lia].
    + rewrite lookup_insert_ne in Hm by assumption. apply H8 in Hm. split; [tauto|lia].
Qed.

(** Recording a mirror message that exists in the starboard channel and
    is the mirror message of no entry yet. *)
Lemma wf_update w sb m message_id :
  well_formed g w ->
  starboard_channel g (starboard w) = Some sb ->
  platform w !! msg_id m = Some m -> msg_channel m = ch_id sb ->
  (forall e, In e (entries w) -> bot_message_id e ≠ Some (msg_id m)) ->
  well_formed g
    (set_entries
       (List.map (update_where (has_message_id message_id) (Some (msg_id m)))) w).
Proof.
  intros [H1 H2 H3 H4 H5 H6 H7 H8 H9] Hsb Hm Hc Hfresh. split; cbn; auto.
  - intros e1' e2' He1 He2 Heq.
    apply in_update_where in He1, He2.
    destruct He1 as (e1 & He1 & ->), He2 as (e2 & He2 & ->).
    rewrite !update_where_message_id in Heq. now rewrite (H1 e1 e2).
  - intros e1' e2' He1 He2 Heq.
    apply in_update_where in He1, He2.
    destruct He1 as (e1 & He1 & ->), He2 as (e2 & He2 & ->).
    rewrite !update_where_entry_id in Heq. now rewrite (H2 e1 e2).
  - intros e' He. apply in_update_where in He. destruct He as (e & He & ->).
    rewrite update_where_entry_id. auto.
  - intros e1' e2' b He1 He2 Hb1 Hb2.
    apply in_update_where in He1, He2.
    destruct He1 as (e1 & He1 & ->), He2 as (e2 & He2 & ->).
    unfold update_where, has_message_id in *.
    destruct (entry_message_id e1 =? message_id) eqn:E1,
             (entry_message_id e2 =? message_id) eqn:E2.
    + apply Z.eqb_eq in E1, E2. rewrite (H1 e1 e2); auto. congruence.
    + cbn in Hb1. inversion Hb1; subst b. exfalso. exact (Hfresh e2 He2 Hb2).
    + cbn in Hb2. inversion Hb2; subst b. exfalso. exact (Hfresh e1 He1 Hb1).
    + eauto.
  - intros sb' e' b Hsb' He Hb. apply in_update_where in He.
    destruct He as (e & He & ->). unfold update_where in Hb.
    destruct (has_message_id message_id e); [|eauto].
    cbn in Hb. inversion Hb; subst b. exists m. split; [assumption|congruence].
  - intros sb' e' Hsb' He. apply in_update_where in He.
    destruct He as (e & He & ->). rewrite update_where_channel. eauto.
Qed.

End WellFormed.

(** ** [mirror_iff] is kept by a star *)

Section Star.
Variable g : Guild.

Lemma entry_cases w e t :
  well_formed g w -> In e (entries w) -> In t (entries w) -> e = t \/ e ≠ t.
Proof.
  intros Hwf He Ht. destruct (Z.eq_dec (entry_id e) (entry_id t)) as [Heq|Hne].
  - left. now apply (wf_entry_id g w Hwf).
  - right. congruence.
Qed.

Lemma find_message_id message_id l e :
  List.find (has_message_id message_id) l = Some e ->
  In e l /\ entry_message_id e = message_id.
Proof.
  intros H. apply find_some in H. destruct H as [Hin H].
  split; [exact Hin|]. now apply Z.eqb_eq in H.
Qed.

Lemma find_message_id_none message_id l :
  List.find (has_message_id message_id) l = None ->
  forall e, In e l -> entry_message_id e ≠ message_id.
Proof.
  intros H e He. apply (find_none _ _ H) in He. now apply Z.eqb_neq in He.
Qed.

Lemma pending_find w message_id t :
  pending g w message_id t ->
  List.find (has_message_id message_id) (entries w) = Some t.
Proof.
  intros [Hwf Hin Hm _].
  destruct (List.find (has_message_id message_id) (entries w)) as [e|] eqn:Hf.
  - apply find_message_id in Hf. destruct Hf as [He Hme].
    f_equal. apply (wf_message_id g w Hwf); congruence.
  - exfalso. exact (find_message_id_none _ _ Hf t Hin Hm).
Qed.

Lemma insert_cases message_id channel guild author starrer_id w :
  insert_entry_and_starrer message_id channel guild author starrer_id w
  = (None, set_entry_seq (entry_seq w + 1) w)
  \/ (exists e0,
        List.find (has_message_id message_id) (entries w) = Some e0
        /\ insert_entry_and_starrer message_id channel guild author starrer_id w
           = (Some (entry_id e0),
              set_starrers (fun l => l ++ [mkStarrer starrer_id (entry_id e0)])
                (set_entry_seq (entry_seq w + 1) w)))
  \/ (List.find (has_message_id message_id) (entries w) = None
      /\ insert_entry_and_starrer message_id channel guild author starrer_id w
         = (Some (entry_seq w),
            set_starrers (fun l => l ++ [mkStarrer starrer_id (entry_seq w)])
              (set_entry_seq (entry_seq w + 1)
                 (set_entries
                    (fun l => l ++ [mkEntry (entry_seq w) None message_id channel
                                            guild author]) w)))).
Proof.
  unfold insert_entry_and_starrer.
  destruct (List.find (has_message_id message_id) (entries w)) as [e0|].
  - destruct (existsb _ _); [now left|]. right. left. eauto.
  - destruct (existsb _ _); [now left|]. right. right. eauto.
Qed.

(** After the insert the entry of the message is the one entry that may be
    unsettled, and only by having too few a mirror message. *)
Lemma insert_pending message_id channel author starrer_id w sb eid w2 :
  well_formed g w -> mirror_iff w ->
  starboard_channel g (starboard w) = Some sb -> channel ≠ ch_id sb ->
  insert_entry_and_starrer message_id channel (guild_id g) author starrer_id w
  = (Some eid, w2) ->
  exists t, pending g w2 message_id t /\ entry_id t = eid
            /\ starboard w2 = starboard w
            /\ (is_Some (bot_message_id t) ->
                threshold (starboard w2) <= count_stars eid w2).
Proof.
  intros Hwf Hiff Hsb Hch Hins.
  destruct (insert_cases message_id channel (guild_id g) author starrer_id w)
    as [H|[(e0 & Hf & H)|(Hf & H)]]; rewrite H in Hins; inversion Hins; subst eid w2;
    clear Hins H.
  - (* the entry exists *)
    apply find_message_id in Hf. destruct Hf as [He0 Hm0].
    exists e0. split; [split|split; [reflexivity|split; [reflexivity|]]].
    + apply wf_add_starrer; [now apply wf_draw|].
      pose proof (wf_entry_seq g w Hwf e0 He0). cbn. lia.
    + exact He0.
    + exact Hm0.
    + intros e He Hne. cbn in He. pose proof (Hiff e He) as Hs.
      unfold settled, count_stars in *. cbn. rewrite count_rows_app.
      unfold stars_of. cbn.
      assert (Hid : (entry_id e0 =? entry_id e) = false).
      { apply Z.eqb_neq. intros Heq. apply Hne.
        apply (wf_entry_id g w Hwf); auto. }
      rewrite Hid, Z.add_0_r. exact Hs.
    + intros Hb. apply (Hiff e0 He0) in Hb. unfold count_stars in *. cbn.
      rewrite count_rows_app. destruct (stars_of _ _); lia.
  - (* the entry is new *)
    pose proof (find_message_id_none _ _ Hf) as Hnone.
    exists (mkEntry (entry_seq w) None message_id channel (guild_id g) author).
    split; [split|split; [reflexivity|split; [reflexivity|]]].
    + apply wf_add_starrer; [|cbn; lia].
      apply wf_add_entry; [assumption..|].
      intros sb' Hsb'. congruence.
    + cbn. apply in_or_app. right. now left.
    + reflexivity.
    + intros e He Hne. cbn in He. apply in_app_or in He.
      destruct He as [He|[<-|[]]]; [|congruence].
      pose proof (Hiff e He) as Hs.
      unfold settled, count_stars in *. cbn. rewrite count_rows_app.
      unfold stars_of. cbn.
      assert (Hid : (entry_seq w =? entry_id e) = false).
      { apply Z.eqb_neq. apply (wf_entry_seq g w Hwf) in He. lia. }
      rewrite Hid, Z.add_0_r. exact Hs.
    + cbn. intros [b Hb]. discriminate.
Qed.

(** A mirror message recorded in a well-formed world is fetched. *)
Lemma get_message_live w sb t b :
  well_formed g w -> starboard_channel g (starboard w) = Some sb ->
  In t (entries w) -> bot_message_id t = Some b ->
  exists m cur w', get_message sb b w = (Ok (Some m), w')
                   /\ msg_id m = b /\ platform w !! b = Some cur.
Proof.
  intros Hwf Hsb Ht Hb.
  destruct (wf_live g w Hwf sb t b Hsb Ht Hb) as (cur & Hcur & Hc).
  unfold get_message. destruct (_message_cache w !! b) as [m|] eqn:Hm.
  - exists m, cur, w. split; [reflexivity|]. split; [|exact Hcur].
    apply (wf_cache g w Hwf _ _ Hm).
  - unfold fetch_message. rewrite Hcur, Hc, Z.eqb_refl.
    exists cur, cur, (set_message_cache (insert b cur) w).
    split; [reflexivity|]. split; [|reflexivity].
    apply (wf_platform g w Hwf _ _ Hcur).
Qed.

Lemma settled_frame w w' e :
  starboard w' = starboard w -> starrers w' = starrers w ->
  settled w e -> settled w' e.
Proof. unfold settled, count_stars. now intros -> ->. Qed.

Lemma star_publish_inv now sb message_id msg t w r w' :
  pending g w message_id t ->
  starboard_channel g (starboard w) = Some sb ->
  (is_Some (bot_message_id t) ->
   threshold (starboard w) <= count_stars (entry_id t) w) ->
  star_publish g now sb message_id msg (entry_id t) w = (r, w') ->
  well_formed g w' /\ mirror_iff w' /\ starboard w' = starboard w.
Proof.
  intros Hp Hsb Hup Hrun. pose proof (pending_find _ _ _ Hp) as Hfind.
  destruct Hp as [Hwf Ht Hm Hothers].
  unfold star_publish, bind at 1, gets at 1 in Hrun.
  unfold bind at 1, gets at 1 in Hrun.
  destruct (count_stars (entry_id t) w <? threshold (starboard w)) eqn:Hlt.
  - (* below the threshold *)
    inversion Hrun; subst r w'. split; [assumption|]. split; [|reflexivity].
    intros e He.
    destruct (entry_cases w e t Hwf He Ht) as [->|Hne]; [|exact (Hothers e He Hne)].
    apply Z.ltb_lt in Hlt. split; [intros Hb; apply Hup in Hb|]; lia.
  - apply Z.ltb_ge in Hlt.
    destruct (get_emoji_message msg (count_stars (entry_id t) w))
      as [content embed].
    unfold bind at 1, select_bot_message_id at 1 in Hrun. rewrite Hfind in Hrun.
    destruct (bot_message_id t) as [b|] eqn:Hb.
    + (* the mirror message is edited *)
      destruct (get_message_live w sb t b Hwf Hsb Ht Hb)
        as (m & cur & w3 & Hgm & Hid & Hcur).
      unfold bind at 1 in Hrun. rewrite Hgm in Hrun.
      pose proof (wf_get_message g _ _ _ _ _ Hwf Hgm) as Hwf3.
      destruct (get_message_frame _ _ _ _ _ Hgm)
        as (He3 & Hs3 & _ & Hsb3 & Hpl3 & _).
      unfold edit in Hrun. rewrite Hid, Hpl3, Hcur in Hrun.
      inversion Hrun; subst r w'.
      split; [apply wf_edit; [assumption|congruence]|].
      split; [|exact Hsb3].
      intros e He. cbn in He. rewrite He3 in He.
      apply (settled_frame w); [exact Hsb3|exact Hs3|].
      destruct (entry_cases w e t Hwf He Ht) as [->|Hne];
        [|exact (Hothers e He Hne)].
      unfold settled. rewrite Hb. split; [intros _; exact Hlt|eauto].
    + (* the mirror message is sent *)
      unfold bind at 1, send at 1 in Hrun.
      unfold update_bot_message_id, modify in Hrun. cbn [msg_id] in Hrun.
      inversion Hrun; subst r w'. clear Hrun.
      set (m := mkMessage (next_snowflake w) (ch_id sb) (guild_me g) content 0
                          MT_default now (Some embed)).
      set (w3 := set_next_snowflake _ _).
      assert (Hwf3 : well_formed g w3) by (now apply wf_new_message).
      split; [|split; [|reflexivity]].
      * apply (wf_update g w3 sb m); auto.
        -- cbn. apply lookup_insert_eq.
        -- intros e He Hbe. cbn in He.
           destruct (wf_live g w Hwf sb e _ Hsb He Hbe) as (m' & Hm' & _).
           apply (wf_platform g w Hwf) in Hm'. cbn in Hm'. lia.
      * intros e' He'. cbn in He'. apply in_map_iff in He'.
        destruct He' as (e & <- & He).
        unfold settled. rewrite update_where_entry_id.
        unfold update_where, has_message_id.
        destruct (entry_message_id e =? message_id) eqn:Hme.
        -- apply Z.eqb_eq in Hme.
           assert (e = t) as -> by (apply (wf_message_id g w Hwf); congruence).
           cbn. split; [intros _; exact Hlt|eauto].
        -- apply Hothers; [assumption|]. intros ->.
           apply Z.eqb_neq in Hme. contradiction.
Qed.

Lemma star_commit_inv now sb channel message_id starrer_id msg w r w' :
  well_formed g w -> mirror_iff w ->
  starboard_channel g (starboard w) = Some sb -> ch_id channel ≠ ch_id sb ->
  star_commit g now sb channel message_id starrer_id msg w = (r, w') ->
  well_formed g w' /\ mirror_iff w' /\ starboard w' = starboard w.
Proof.
  intros Hwf Hiff Hsb Hch Hrun. unfold star_commit, bind at 1 in Hrun.
  destruct (insert_entry_and_starrer message_id (ch_id channel) (guild_id g)
              (msg_author msg) starrer_id w) as [[eid|] w2] eqn:Hins.
  - destruct (insert_pending _ _ _ _ _ _ _ _ Hwf Hiff Hsb Hch Hins)
      as (t & Hp & <- & Hcfg & Hup).
    rewrite <- Hcfg in Hsb.
    destruct (star_publish_inv _ _ _ _ _ _ _ _ Hp Hsb Hup Hrun) as (H1 & H2 & H3).
    split; [assumption|]. split; [assumption|congruence].
  - destruct (insert_cases message_id (ch_id channel) (guild_id g) (msg_author msg)
                starrer_id w) as [H|[(e0 & _ & H)|(_ & H)]];
      rewrite H in Hins; inversion Hins; subst w2.
    inversion Hrun; subst. split; [now apply wf_draw|]. split; [exact Hiff|reflexivity].
Qed.

Lemma star_message_inv depth now channel message_id starrer_id w r w' :
  well_formed g w -> mirror_iff w ->
  _star_message depth g now channel message_id starrer_id w = (r, w') ->
  well_formed g w' /\ mirror_iff w' /\ starboard w' = starboard w.
Proof.
  revert channel message_id. induction depth as [|depth IH];
    intros channel message_id Hwf Hiff Hrun.
  { inversion Hrun; subst. auto. }
  cbn [_star_message] in Hrun. unfold bind at 1, gets at 1 in Hrun.
  destruct (starboard_channel g (starboard w)) as [sb|] eqn:Hsb;
    [|inversion Hrun; subst; auto].
  destruct (locked (starboard w)); [inversion Hrun; subst; auto|].
  destruct (ch_nsfw channel && negb (ch_nsfw sb)); [inversion Hrun; subst; auto|].
  destruct (ch_id channel =? ch_id sb) eqn:Hd.
  - unfold bind at 1, select_origin, gets in Hrun.
    destruct (List.find (is_bot_message message_id) (entries w)) as [e|];
      [|inversion Hrun; subst; auto].
    destruct (get_channel_or_thread g (entry_channel_id e)) as [ch|];
      [|inversion Hrun; subst; auto].
    eapply IH; eassumption.
  - destruct (negb (ch_send_messages sb)); [inversion Hrun; subst; auto|].
    unfold bind at 1 in Hrun.
    destruct (get_message_total channel message_id w) as (o & w1 & Hgm).
    rewrite Hgm in Hrun.
    pose proof (wf_get_message g _ _ _ _ _ Hwf Hgm) as Hwf1.
    destruct (get_message_frame _ _ _ _ _ Hgm)
      as (He1 & Hs1 & _ & Hsb1 & _).
    assert (Hiff1 : mirror_iff w1).
    { intros e He. rewrite He1 in He. apply (settled_frame w); auto. }
    destruct o as [msg|]; [|inversion Hrun; subst; auto].
    destruct (msg_author msg =? starrer_id); [inversion Hrun; subst; auto|].
    destruct (_ || _); [inversion Hrun; subst; auto|].
    destruct (msg_created_at msg <? _); [inversion Hrun; subst; auto|].
    apply Z.eqb_neq in Hd. rewrite <- Hsb1 in Hsb.
    destruct (star_commit_inv _ _ _ _ _ _ _ _ _ Hwf1 Hiff1 Hsb Hd Hrun)
      as (H1 & H2 & H3).
    split; [assumption|]. split; [assumption|congruence].
Qed.

End Star.

(** ** [mirror_iff] is kept by an unstar *)

Section Unstar.
Variable g : Guild.

Lemma mirror_iff_frame w w' :
  entries w' = entries w -> starrers w' = starrers w ->
  starboard w' = starboard w -> mirror_iff w -> mirror_iff w'.
Proof.
  intros He Hs Hc H e Hin. rewrite He in Hin.
  apply (settled_frame w); auto.
Qed.

Lemma existsb_find {A} (f : A -> bool) l :
  existsb f l = true -> exists x, List.find f l = Some x.
Proof.
  intros H. destruct (List.find f l) as [x|] eqn:Hf; [eauto|].
  apply existsb_exists in H. destruct H as (x & Hx & Hfx).
  rewrite (find_none _ _ Hf x Hx) in Hfx. discriminate.
Qed.

(** The rows an unstar deletes are rows of the entry of the message. *)
Lemma unstar_target_entry w message_id starrer_id s t :
  well_formed g w -> In t (entries w) -> entry_message_id t = message_id ->
  unstar_target message_id starrer_id w s = true ->
  starrer_entry_id s = entry_id t.
Proof.
  intros Hwf Ht Hm H. unfold unstar_target in H.
  apply andb_true_iff in H. destruct H as [_ H].
  apply existsb_exists in H. destruct H as (e & He & H).
  apply andb_true_iff in H. destruct H as [H1 H2].
  apply Z.eqb_eq in H1, H2.
  assert (e = t) as <- by (apply (wf_message_id g w Hwf); congruence).
  congruence.
Qed.

Lemma delete_pending message_id starrer_id w eid bot w1 :
  well_formed g w -> mirror_iff w ->
  delete_starrer message_id starrer_id w = (Ok (Some (eid, bot)), w1) ->
  exists t, pending g w1 message_id t /\ entry_id t = eid
            /\ bot_message_id t = bot
            /\ starboard w1 = starboard w
            /\ (threshold (starboard w1) <= count_stars eid w1 ->
                is_Some (bot_message_id t)).
Proof.
  intros Hwf Hiff Hd. unfold delete_starrer in Hd.
  destruct (List.find (unstar_target message_id starrer_id w) (starrers w))
    as [s0|] eqn:Hs0; [|discriminate].
  apply find_some in Hs0. destruct Hs0 as [_ Hs0].
  pose proof Hs0 as Hex. unfold unstar_target in Hex.
  apply andb_true_iff in Hex. destruct Hex as [_ Hex].
  apply existsb_find in Hex. destruct Hex as (t & Hft).
  rewrite Hft in Hd. inversion Hd; subst eid bot w1. clear Hd.
  apply find_some in Hft. destruct Hft as [Ht Hft].
  apply andb_true_iff in Hft. destruct Hft as [Hm Hid].
  apply Z.eqb_eq in Hm, Hid.
  exists t. split; [split|split; [exact Hid|split; [reflexivity|split; [reflexivity|]]]].
  - now apply wf_filter_starrers.
  - exact Ht.
  - exact Hm.
  - intros e He Hne. cbn in He. pose proof (Hiff e He) as Hs.
    unfold settled, count_stars in *. cbn.
    rewrite count_rows_filter_same; [exact Hs|].
    intros s Hs' Hst. apply negb_true_iff.
    destruct (unstar_target message_id starrer_id w s) eqn:Htg; [|reflexivity].
    exfalso. apply Hne.
    apply (unstar_target_entry w _ _ s t Hwf Ht Hm) in Htg.
    apply Z.eqb_eq in Hst. apply (wf_entry_id g w Hwf); congruence.
  - cbn. intros Hle. apply (Hiff t Ht). rewrite <- Hid in Hle.
    unfold count_stars in *. cbn in Hle.
    pose proof (count_rows_filter_le (entry_id t)
                  (fun s => negb (unstar_target message_id starrer_id w s))
                  (starrers w)).
    lia.
Qed.

(** Fetching a message that is on the platform in the channel. *)
Lemma get_message_present w channel b cur :
  well_formed g w -> platform w !! b = Some cur -> msg_channel cur = ch_id channel ->
  exists m w', get_message channel b w = (Ok (Some m), w') /\ msg_id m = b.
Proof.
  intros Hwf Hcur Hc.
  unfold get_message. destruct (_message_cache w !! b) as [m|] eqn:Hm.
  - exists m, w. split; [reflexivity|]. apply (wf_cache g w Hwf _ _ Hm).
  - unfold fetch_message. rewrite Hcur, Hc, Z.eqb_refl.
    exists cur, (set_message_cache (insert b cur) w).
    split; [reflexivity|]. apply (wf_platform g w Hwf _ _ Hcur).
Qed.

(** The entry deleted at a count of zero: the world that is left. *)
Lemma delete_entry_settled w message_id t cascade :
  pending g w message_id t ->
  let w2 := delete_entries cascade (has_entry_id (entry_id t)) w in
  well_formed g w2 /\ mirror_iff w2
  /\ (forall e, In e (entries w2) -> In e (entries w) /\ e ≠ t).
Proof.
  intros [Hwf Ht Hm Hothers] w2.
  destruct (delete_entries_frame cascade (has_entry_id (entry_id t)) w)
    as (He2 & Hs2 & _ & _ & _ & Hc2). fold w2 in He2, Hs2, Hc2.
  assert (Hin : forall e, In e (entries w2) -> In e (entries w) /\ e ≠ t).
  { intros e He. rewrite He2 in He. apply filter_In in He. destruct He as [He Hn].
    split; [exact He|]. intros ->. unfold has_entry_id in Hn.
    rewrite Z.eqb_refl in Hn. discriminate. }
  split; [now apply wf_delete_entries|]. split; [|exact Hin].
  intros e He. destruct (Hin e He) as [He' Hne].
  pose proof (Hothers e He' Hne) as Hs. unfold settled, count_stars in *.
  rewrite Hc2.
  replace (count_rows (entry_id e) (starrers w2))
    with (count_rows (entry_id e) (starrers w)); [exact Hs|].
  unfold w2, delete_entries. destruct cascade; [|reflexivity]. cbn.
  symmetry. apply count_rows_filter_same.
  intros s Hs' Hst. apply negb_true_iff.
  destruct (existsb _ _) eqn:Hex; [|reflexivity]. exfalso.
  apply existsb_exists in Hex. destruct Hex as (e0 & He0 & Hst0).
  apply filter_In in He0. destruct He0 as [He0 Hid0].
  unfold has_entry_id, stars_of in *. apply Z.eqb_eq in Hid0, Hst, Hst0.
  apply Hne. apply (wf_entry_id g w Hwf); congruence.
Qed.

Lemma unstar_retract_inv sb channel message_id t w r w' :
  pending g w message_id t ->
  starboard_channel g (starboard w) = Some sb ->
  (threshold (starboard w) <= count_stars (entry_id t) w ->
   is_Some (bot_message_id t)) ->
  unstar_retract g sb channel message_id (entry_id t) (bot_message_id t) w = (r, w') ->
  well_formed g w' /\ mirror_iff w' /\ starboard w' = starboard w.
Proof.
  intros Hp Hsb Hup Hrun. pose proof Hp as [Hwf Ht Hm Hothers].
  unfold unstar_retract, bind at 1, gets at 1 in Hrun. unfold bind at 1 in Hrun.
  set (count := count_stars (entry_id t) w) in *.
  destruct (count =? 0) eqn:Hc0.
  - (* the last star is gone: the entry is deleted *)
    unfold delete_entry_by_id, modify in Hrun.
    destruct (delete_entry_settled w message_id t (fk_cascade g) Hp)
      as (Hwf2 & Hiff2 & Hin2).
    destruct (delete_entries_frame (fk_cascade g) (has_entry_id (entry_id t)) w)
      as (_ & _ & Hpl2 & _ & _ & Hc2).
    set (w2 := delete_entries (fk_cascade g) (has_entry_id (entry_id t)) w) in *.
    destruct (bot_message_id t) as [b|] eqn:Hb;
      [|inversion Hrun; subst r w'; auto].
    destruct (wf_live g w Hwf sb t b Hsb Ht Hb) as (cur & Hcur & Hch).
    rewrite <- Hpl2 in Hcur.
    destruct (get_message_present w2 sb b cur Hwf2 Hcur Hch) as (bm & w3 & Hgm & Hbm).
    unfold bind at 1 in Hrun. rewrite Hgm in Hrun.
    pose proof (wf_get_message g _ _ _ _ _ Hwf2 Hgm) as Hwf3.
    destruct (get_message_frame _ _ _ _ _ Hgm)
      as (He3 & Hs3 & _ & Hc3 & Hpl3 & _).
    assert (Hiff3 : mirror_iff w3) by (now apply (mirror_iff_frame w2)).
    unfold bind at 1, gets at 1 in Hrun. rewrite Hc3, Hc2 in Hrun.
    destruct (count <? threshold (starboard w)).
    + unfold bind at 1 in Hrun. unfold bind at 1 in Hrun.
      cbn [negb ret] in Hrun. unfold delete_message in Hrun.
      cbn [platform set_about_to_be_deleted] in Hrun.
      rewrite Hbm, Hpl3, Hcur in Hrun. inversion Hrun; subst r w'.
      split; [|split; [|cbn; congruence]].
      * apply wf_delete_message; [now apply wf_about|].
        intros e He Hbe. cbn in He. rewrite He3 in He.
        destruct (Hin2 e He) as [He' Hne]. apply Hne.
        apply (wf_mirror g w Hwf e t b); auto.
      * eapply mirror_iff_frame; [| | |exact Hiff3]; reflexivity.
    + unfold bind at 1 in Hrun.
      destruct (get_message_total channel message_id w3) as (o & w6 & Hgo).
      rewrite Hgo in Hrun.
      pose proof (wf_get_message g _ _ _ _ _ Hwf3 Hgo) as Hwf6.
      destruct (get_message_frame _ _ _ _ _ Hgo)
        as (He6 & Hs6 & _ & Hc6 & Hpl6 & _).
      assert (Hiff6 : mirror_iff w6) by (now apply (mirror_iff_frame w3)).
      destruct o as [msg|];
        [|inversion Hrun; subst r w'; split; [|split]; auto; congruence].
      destruct (get_emoji_message msg count) as [content embed].
      unfold edit in Hrun. rewrite Hbm, Hpl6, Hpl3, Hcur in Hrun.
      inversion Hrun; subst r w'.
      split; [apply wf_edit; [assumption|congruence]|].
      split; [|cbn; congruence].
      eapply mirror_iff_frame; [| | |exact Hiff6]; reflexivity.
  - (* stars are left: the entry stays *)
    apply Z.eqb_neq in Hc0. cbn [ret] in Hrun.
    assert (Hrest : forall w2, entries w2 = entries w -> starrers w2 = starrers w ->
                      starboard w2 = starboard w ->
                      forall e, In e (entries w2) -> e ≠ t -> settled w2 e).
    { intros w2 He2 Hs2 Hc2 e He Hne. rewrite He2 in He.
      apply (settled_frame w); auto. }
    destruct (bot_message_id t) as [b|] eqn:Hb.
    2:{ inversion Hrun; subst r w'. split; [assumption|]. split; [|reflexivity].
        intros e He. destruct (entry_cases g w e t Hwf He Ht) as [->|Hne];
          [|exact (Hothers e He Hne)].
        unfold settled. rewrite Hb. split; [intros [x Hx]; discriminate|].
        intros Hle. apply Hup in Hle. destruct Hle; discriminate. }
    destruct (get_message_live g w sb t b Hwf Hsb Ht Hb)
      as (bm & cur & w3 & Hgm & Hbm & Hcur).
    unfold bind at 1 in Hrun. rewrite Hgm in Hrun.
    pose proof (wf_get_message g _ _ _ _ _ Hwf Hgm) as Hwf3.
    destruct (get_message_frame _ _ _ _ _ Hgm)
      as (He3 & Hs3 & _ & Hc3 & Hpl3 & _).
    unfold bind at 1, gets at 1 in Hrun. rewrite Hc3 in Hrun.
    destruct (count <? threshold (starboard w)) eqn:Hlt.
    + (* below the threshold: the mirror message goes *)
      apply Z.ltb_lt in Hlt.
      unfold bind at 1, modify at 1 in Hrun. unfold bind at 1 in Hrun.
      cbn [negb] in Hrun. unfold null_bot_message_id, modify in Hrun.
      unfold delete_message in Hrun.
      cbn [platform set_about_to_be_deleted set_entries] in Hrun.
      rewrite Hbm, Hpl3, Hcur in Hrun. inversion Hrun; subst r w'. clear Hrun.
      split; [|split; [|cbn; congruence]].
      * apply wf_delete_message; [apply wf_null; now apply wf_about|].
        intros e' He' Hbe. cbn in He'. apply in_map_iff in He'.
        destruct He' as (e & <- & He). rewrite He3 in He.
        unfold update_where, has_entry_id in Hbe.
        destruct (entry_id e =? entry_id t) eqn:Hid; [discriminate|].
        apply Z.eqb_neq in Hid. apply Hid. f_equal.
        apply (wf_mirror g w Hwf e t b); auto.
      * intros e' He'. cbn in He'. apply in_map_iff in He'.
        destruct He' as (e & <- & He). rewrite He3 in He.
        unfold settled. rewrite update_where_entry_id.
        unfold count_stars. cbn [starrers set_platform set_entries
                                 set_about_to_be_deleted starboard].
        rewrite Hs3, Hc3. fold (count_stars (entry_id e) w).
        unfold update_where, has_entry_id.
        destruct (entry_id e =? entry_id t) eqn:Hid.
        -- apply Z.eqb_eq in Hid. rewrite Hid. fold count. cbn.
           split; [intros [x Hx]; discriminate|lia].
        -- apply Z.eqb_neq in Hid. apply (Hothers e He). congruence.
    + (* at the threshold or above: the mirror message is edited *)
      apply Z.ltb_ge in Hlt.
      assert (Hiff3 : mirror_iff w3).
      { intros e He. rewrite He3 in He. apply (settled_frame w); auto.
        destruct (entry_cases g w e t Hwf He Ht) as [->|Hne];
          [|exact (Hothers e He Hne)].
        unfold settled. rewrite Hb. split; [intros _; exact Hlt|eauto]. }
      unfold bind at 1 in Hrun.
      destruct (get_message_total channel message_id w3) as (o & w6 & Hgo).
      rewrite Hgo in Hrun.
      pose proof (wf_get_message g _ _ _ _ _ Hwf3 Hgo) as Hwf6.
      destruct (get_message_frame _ _ _ _ _ Hgo)
        as (He6 & Hs6 & _ & Hc6 & Hpl6 & _).
      assert (Hiff6 : mirror_iff w6) by (now apply (mirror_iff_frame w3)).
      destruct o as [msg|];
        [|inversion Hrun; subst r w'; split; [|split]; auto; congruence].
      destruct (get_emoji_message msg count) as [content embed].
      unfold edit in Hrun. rewrite Hbm, Hpl6, Hpl3, Hcur in Hrun.
      inversion Hrun; subst r w'.
      split; [apply wf_edit; [assumption|congruence]|].
      split; [|cbn; congruence].
      eapply mirror_iff_frame; [| | |exact Hiff6]; reflexivity.
Qed.

Lemma unstar_message_inv depth channel message_id starrer_id w r w' :
  well_formed g w -> mirror_iff w ->
  _unstar_message depth g channel message_id starrer_id w = (r, w') ->
  well_formed g w' /\ mirror_iff w' /\ starboard w' = starboard w.
Proof.
  revert channel message_id. induction depth as [|depth IH];
    intros channel message_id Hwf Hiff Hrun.
  { inversion Hrun; subst. auto. }
  cbn [_unstar_message] in Hrun. unfold bind at 1, gets at 1 in Hrun.
  destruct (starboard_channel g (starboard w)) as [sb|] eqn:Hsb;
    [|inversion Hrun; subst; auto].
  destruct (locked (starboard w)); [inversion Hrun; subst; auto|].
  destruct (ch_id channel =? ch_id sb) eqn:Hd.
  - unfold bind at 1, select_origin, gets in Hrun.
    destruct (List.find (is_bot_message message_id) (entries w)) as [e|];
      [|inversion Hrun; subst; auto].
    destruct (get_channel_or_thread g (entry_channel_id e)) as [ch|];
      [|inversion Hrun; subst; auto].
    eapply IH; eassumption.
  - destruct (negb (ch_send_messages sb)); [inversion Hrun; subst; auto|].
    unfold unstar_commit, bind at 1 in Hrun.
    destruct (delete_starrer_cases message_id starrer_id w)
      as [Hd0|(eid & bot & Hd0)]; rewrite Hd0 in Hrun;
      [inversion Hrun; subst; auto|].
    destruct (delete_pending _ _ _ _ _ _ Hwf Hiff Hd0)
      as (t & Hp & <- & <- & Hcfg & Hup).
    rewrite <- Hcfg in Hsb.
    destruct (unstar_retract_inv _ _ _ _ _ _ _ Hp Hsb Hup Hrun) as (H1 & H2 & H3).
    split; [assumption|]. split; [assumption|congruence].
Qed.

End Unstar.

(** ** The worlds a guild reaches *)

Section Reachable.
Variable g : Guild.

Lemma fresh_start_inv w : fresh_start w -> well_formed g w /\ mirror_iff w.
Proof.
  intros [He Hs Hp Hc]. split.
  - split; rewrite ?He, ?Hs; try assumption.
    + intros e1 e2 H. contradiction.
    + intros e1 e2 H. contradiction.
    + intros e H. contradiction.
    + intros s H. contradiction.
    + intros e1 e2 b H. contradiction.
    + intros sb e b _ H. contradiction.
    + intros sb e _ H. contradiction.
  - intros e H. rewrite He in H. contradiction.
Qed.

Lemma apply_event_inv w ev :
  keeps_threshold ev = true -> well_formed g w -> mirror_iff w ->
  well_formed g (apply_event g w ev) /\ mirror_iff (apply_event g w ev).
Proof.
  intros Hk Hwf Hiff. destruct ev as [now ch m u v|ch m u v|ch a c n t now|m|now' ch' s];
    [| | | |discriminate]; unfold apply_event.
  - unfold star_message.
    destruct (v && config_cog g && is_plonked g u ch); [auto|].
    destruct (v && config_cog g && is_command_blocked g (ch_id ch)); [auto|].
    destruct (_star_message (recursion_limit g) g now ch m u w) as [r w'] eqn:Hrun.
    destruct (star_message_inv g _ _ _ _ _ _ _ _ Hwf Hiff Hrun) as (H1 & H2 & _).
    auto.
  - unfold unstar_message.
    destruct (v && config_cog g && is_plonked g u ch); [auto|].
    destruct (v && config_cog g && is_command_blocked g (ch_id ch)); [auto|].
    destruct (_unstar_message (recursion_limit g) g ch m u w) as [r w'] eqn:Hrun.
    destruct (unstar_message_inv g _ _ _ _ _ _ _ Hwf Hiff Hrun) as (H1 & H2 & _).
    auto.
  - cbn. split; [now apply wf_new_message|].
    eapply mirror_iff_frame; [| | |exact Hiff]; reflexivity.
  - cbn. destruct (existsb (is_bot_message m) (entries w)) eqn:Hex; [auto|].
    split.
    + apply wf_delete_message; [assumption|]. intros e He Hb.
      assert (existsb (is_bot_message m) (entries w) = true) as Hex'.
      { apply existsb_exists. exists e. split; [assumption|].
        unfold is_bot_message. rewrite Hb. apply Z.eqb_refl. }
      congruence.
    + eapply mirror_iff_frame; [| | |exact Hiff]; reflexivity.
Qed.

Lemma run_events_inv evs w :
  forallb keeps_threshold evs = true -> well_formed g w -> mirror_iff w ->
  well_formed g (run_events g evs w) /\ mirror_iff (run_events g evs w).
Proof.
  revert w. induction evs as [|ev evs IH]; intros w Hk Hwf Hiff; [auto|].
  cbn in Hk. apply andb_true_iff in Hk. destruct Hk as [Hk Hks].
  destruct (apply_event_inv w ev Hk Hwf Hiff) as [Hwf' Hiff'].
  cbn. now apply IH.
Qed.

(** No entry of such a world records the starboard channel as its
    channel: the redirect never leads to a second redirect.  (The channel
    an entry records is the channel of the call that made it, which need
    not be the channel its message lives in: the message cache is keyed by
    the id alone.) *)
Lemma reachable_off_board evs w0 sb e :
  fresh_start w0 -> forallb keeps_threshold evs = true ->
  starboard_channel g (starboard (run_events g evs w0)) = Some sb ->
  In e (entries (run_events g evs w0)) ->
  entry_channel_id e ≠ ch_id sb.
Proof.
  intros H0 Hk. destruct (fresh_start_inv w0 H0) as [Hwf Hiff].
  destruct (run_events_inv evs w0 Hk Hwf Hiff) as [Hwf' _].
  apply (wf_off_board g _ Hwf').
Qed.

End Reachable.


(** ** The theorems at work on the example guild *)

Section Witnesses.
Import Example.

Ltac run := vm_compute; reflexivity.

(** The example worlds are what the calls produce. *)
Lemma starred_once_run :
  star_message guild 2000 general 100 8 false (fresh 2 false) = (Ok tt, starred_once).
Proof. run. Qed.

Lemma starred_twice_run :
  star_message guild 2000 general 100 9 false starred_once = (Ok tt, starred_twice).
Proof. run. Qed.

(** C3 as stated fails: user 7 stars their own message 100 while the
    starboard is locked, and the error is [Locked], not [SelfStar]. *)
Lemma self_star_on_locked_board :
  platform (fresh 2 true) !! 100 = Some hello
  /\ msg_author hello = 7
  /\ locked (starboard (fresh 2 true)) = true
  /\ fst (star_message guild 2000 general 100 7 false (fresh 2 true))
     = Raise (Star Locked)
  /\ fst (star_message guild 2000 general 100 7 false (fresh 2 true))
     ≠ Raise (Star SelfStar).
Proof.
  assert (H : fst (star_message guild 2000 general 100 7 false (fresh 2 true))
              = Raise (Star Locked)) by run.
  repeat split; try run. rewrite H. discriminate.
Qed.

Lemma self_star_rejected_witness :
  fst (_star_message 1 guild 2000 general 100 7 (fresh 2 false))
  = Raise (Star SelfStar)
  /\ fst (_star_message 1 guild 2000 general 100 7 (fresh 2 true))
     = Raise (Star Locked).
Proof.
  split.
  - rewrite (proj1 (self_star_rejected 0 guild 2000 general 100 7 (fresh 2 false)
               board hello (set_message_cache (insert 100 hello) (fresh 2 false))
               ltac:(run) ltac:(run) ltac:(discriminate) ltac:(run) ltac:(run)
               ltac:(run))).
    reflexivity.
  - rewrite (proj1 (self_star_rejected 0 guild 2000 general 100 7 (fresh 2 true)
               board hello (set_message_cache (insert 100 hello) (fresh 2 true))
               ltac:(run) ltac:(run) ltac:(discriminate) ltac:(run) ltac:(run)
               ltac:(run))).
    reflexivity.
Defined.

Lemma example_star_gate w :
  starboard w = config 2 false -> star_gate guild w general board.
Proof. intros H. split; rewrite ?H; try run. discriminate. Qed.

Lemma example_unstar_gate g b w :
  guild_channels g !! 50 = Some b -> ch_id b = 50 ->
  starboard w = config 2 false -> unstar_gate g w general b.
Proof.
  intros Hb Hi H. split; unfold starboard_channel; rewrite ?H; try assumption;
    try reflexivity. rewrite Hi. discriminate.
Qed.

Lemma too_old_rejected_witness :
  _star_message 1 guild 1000000 general 100 5 starred_twice
  = (Raise (Star TooOld), starred_twice).
Proof.
  apply (too_old_rejected 0 guild 1000000 general 100 5 starred_twice
           board hello starred_twice
           (example_star_gate starred_twice eq_refl) ltac:(run)
           ltac:(discriminate) ltac:(run) ltac:(run)).
Defined.


Lemma unstar_no_permission_witness :
  _unstar_message 1 muted_guild general 100 8 starred_once
  = (Raise (Star (NoPermission Edit)), starred_once).
Proof.
  apply (unstar_no_permission 0 muted_guild general 100 8 starred_once
           muted_board
           (example_unstar_gate muted_guild muted_board starred_once
              ltac:(run) eq_refl eq_refl)
           eq_refl).
Defined.

Lemma unstar_stale_mirror_witness :
  _unstar_message 1 guild general 100 9 stale
  = (Ok tt, set_starrers (fun _ => [mkStarrer 8 1]) stale).
Proof.
  apply (unstar_stale_mirror 0 guild general 100 9 stale board 1 101
           (set_starrers (fun _ => [mkStarrer 8 1]) stale)
           (example_unstar_gate guild board stale ltac:(run) eq_refl eq_refl)
           eq_refl ltac:(run) ltac:(run) ltac:(run) ltac:(run) ltac:(run)).
Defined.

(** C5 as stated fails: the call passes the config, lock and redirect
    checks, the entry of message 100 has the mirror message 101 and the
    count that is left is one, below the threshold of two; the mirror
    message cannot be fetched, and neither is its id put into the set of
    pending deletions nor is the [bot_message_id] of the entry cleared. *)
Lemma unstar_leaves_stale_mirror :
  unstar_gate guild stale general board
  /\ entries stale = [mkEntry 1 (Some 101) 100 1 10 7]
  /\ threshold (starboard stale) = 2
  /\ _unstar_message 1 guild general 100 9 stale
     = (Ok tt, set_starrers (fun _ => [mkStarrer 8 1]) stale)
  /\ count_stars 1 (set_starrers (fun _ => [mkStarrer 8 1]) stale) = 1
  /\ (101 ∉ _about_to_be_deleted (set_starrers (fun _ => [mkStarrer 8 1]) stale))
  /\ entries (set_starrers (fun _ => [mkStarrer 8 1]) stale)
     = [mkEntry 1 (Some 101) 100 1 10 7].
Proof.
  split; [apply (example_unstar_gate guild board); run|].
  repeat split; try run. apply not_elem_of_empty.
Qed.

(** user 9 takes the star back in [starred_twice]: the mirror message
    101 is deleted and the entry stays without it *)
Lemma unstar_commit_spec_witness :
  fst (_unstar_message 1 guild general 100 9 starred_twice) = Ok tt
  /\ (101 ∈ _about_to_be_deleted
              (snd (_unstar_message 1 guild general 100 9 starred_twice)))
  /\ mirror_nulled 1 (snd (_unstar_message 1 guild general 100 9 starred_twice))
  /\ platform (snd (_unstar_message 1 guild general 100 9 starred_twice))
     = delete 101 (platform starred_twice).
Proof.
  pose proof (unstar_commit_spec 0 guild general 100 9 starred_twice board
                (example_unstar_gate guild board starred_twice
                   ltac:(run) eq_refl eq_refl) eq_refl) as H.
  unfold unstar_outcome in H.
  replace (delete_starrer 100 9 starred_twice)
    with (Ok (Some (1, Some 101)), set_starrers (fun _ => [mkStarrer 8 1]) starred_twice)
    in H by run.
  cbv beta iota zeta in H.
  replace (count_stars 1 (set_starrers (fun _ => [mkStarrer 8 1]) starred_twice))
    with 1 in H by run.
  cbv beta iota zeta in H. cbn [Z.eqb] in H.
  replace (get_message board 101 (set_starrers (fun _ => [mkStarrer 8 1]) starred_twice))
    with (Ok (Some mirror),
          set_message_cache (insert 101 mirror)
            (set_starrers (fun _ => [mkStarrer 8 1]) starred_twice))
    in H by run.
  cbv beta iota zeta in H.
  replace (1 <? threshold (starboard starred_twice)) with true in H by run.
  replace (platform starred_twice !! msg_id mirror) with (Some mirror) in H by run.
  cbv beta iota zeta in H.
  destruct H as (_ & _ & H1 & H2 & H3 & H4).
  repeat split; assumption.
Defined.

(** the redirect at work: a star and an unstar on the mirror message 101,
    as reactions give them *)
Lemma redirect_to_origin_witness :
  (star_message guild 2000 board 101 5 true starred_twice
   = _star_message 1 guild 2000 general 100 5 starred_twice
   /\ star_message guild 2000 general 100 5 true starred_twice
      = _star_message 1 guild 2000 general 100 5 starred_twice)
  /\ (unstar_message guild board 101 9 true starred_twice
      = _unstar_message 1 guild general 100 9 starred_twice
      /\ unstar_message guild general 100 9 true starred_twice
         = _unstar_message 1 guild general 100 9 starred_twice)
  /\ _star_message 1 guild 2000 board 101 5 starred_twice
     = (Raise RecursionError, starred_twice).
Proof.
  pose proof (redirect_to_origin 998 guild 2000 board 101 5 true starred_twice
                ltac:(run) eq_refl) as H1.
  pose proof (redirect_to_origin 998 guild 2000 board 101 9 true starred_twice
                ltac:(run) eq_refl) as H2.
  replace (policy_stops guild true 5 board) with false in H1 by run.
  replace (policy_stops guild true 9 board) with false in H2 by run.
  replace (locked (starboard starred_twice)) with false in * by run.
  replace (List.find (is_bot_message 101) (entries starred_twice))
    with (Some (mkEntry 1 (Some 101) 100 1 10 7)) in * by run.
  replace (get_channel_or_thread guild (entry_channel_id (mkEntry 1 (Some 101) 100 1 10 7)))
    with (Some general) in * by run.
  cbv beta iota zeta in H1, H2.
  replace (ch_id general =? ch_id board) with false in * by run.
  replace (policy_stops guild true 5 general) with false in H1 by run.
  replace (policy_stops guild true 9 general) with false in H2 by run.
  cbv beta iota zeta in H1, H2.
  destruct H1 as ((H1 & _) & (H1' & _) & (H3 & _)).
  destruct H2 as ((_ & H2) & (_ & H2') & _).
  repeat split; assumption.
Defined.

(** C4 as stated fails.  Message 100 has its entry and its mirror message
    101.  Under a policy that blocks the star command in the starboard
    channel, a star and an unstar with [verify] on the mirror message end
    silently and change nothing, while the same star and unstar on
    message 100 in the general channel are carried out.  And once the
    general channel is gone, the star on the mirror message fails with
    [OriginChannelNotFound] instead of reaching the origin. *)
Lemma redirect_differs_from_origin :
  List.find (is_bot_message 101) (entries starred_twice)
  = Some (mkEntry 1 (Some 101) 100 1 10 7)
  /\ starboard_channel policed_guild (starboard starred_twice) = Some board
  /\ get_channel_or_thread policed_guild 1 = Some general
  /\ star_message policed_guild 2000 board 101 5 true starred_twice
     = (Ok tt, starred_twice)
  /\ fst (star_message policed_guild 2000 general 100 5 true starred_twice) = Ok tt
  /\ starrers (snd (star_message policed_guild 2000 general 100 5 true starred_twice))
     = [mkStarrer 8 1; mkStarrer 9 1; mkStarrer 5 1]
  /\ star_message policed_guild 2000 board 101 5 true starred_twice
     ≠ star_message policed_guild 2000 general 100 5 true starred_twice
  /\ unstar_message policed_guild board 101 9 true starred_twice
     = (Ok tt, starred_twice)
  /\ starrers (snd (unstar_message policed_guild general 100 9 true starred_twice))
     = [mkStarrer 8 1]
  /\ unstar_message policed_guild board 101 9 true starred_twice
     ≠ unstar_message policed_guild general 100 9 true starred_twice
  /\ get_channel_or_thread shrunk_guild 1 = None
  /\ star_message shrunk_guild 2000 board 101 5 false starred_twice
     = (Raise (Star OriginChannelNotFound), starred_twice)
  /\ unstar_message shrunk_guild board 101 9 false starred_twice
     = (Raise (Star OriginChannelNotFound), starred_twice).
Proof.
  assert (Hs : star_message policed_guild 2000 board 101 5 true starred_twice
               = (Ok tt, starred_twice)) by run.
  assert (Hs' : starrers (snd (star_message policed_guild 2000 general 100 5 true
                                 starred_twice))
                = [mkStarrer 8 1; mkStarrer 9 1; mkStarrer 5 1]) by run.
  assert (Hu : unstar_message policed_guild board 101 9 true starred_twice
               = (Ok tt, starred_twice)) by run.
  assert (Hu' : starrers (snd (unstar_message policed_guild general 100 9 true
                                 starred_twice))
                = [mkStarrer 8 1]) by run.
  repeat split; try assumption; try run.
  - rewrite Hs. intros H. rewrite <- H in Hs'. discriminate.
  - rewrite Hu. intros H. rewrite <- H in Hu'. discriminate.
Qed.

Lemma example_fresh_start limit lock : fresh_start (fresh limit lock).
Proof.
  split; try reflexivity.
  - intros k m H. cbn in H. destruct (decide (100 = k)) as [<-|Hne].
    + rewrite lookup_insert_eq in H. inversion H; subst m.
      split; [reflexivity|cbn; lia].
    + rewrite lookup_insert_ne, lookup_empty in H by assumption. discriminate.
  - intros k m H. cbn in H. rewrite lookup_empty in H. discriminate.
Qed.



End Witnesses.

(** ** Binary64 arithmetic: the clamp of the gradient *)

Lemma digits2_bounds p :
  2 ^ (Zpos (digits2_pos p) - 1) <= Zpos p < 2 ^ Zpos (digits2_pos p).
Proof.
  induction p as [p IH|p IH|]; cbn [digits2_pos].
  - rewrite Pos2Z.inj_succ, (Pos2Z.inj_xI p).
    replace (Z.succ (Zpos (digits2_pos p)) - 1) with (Z.succ (Zpos (digits2_pos p) - 1))
      by lia.
    rewrite !Z.pow_succ_r by lia.
    generalize dependent (2 ^ (Zpos (digits2_pos p) - 1)).
    generalize (2 ^ Zpos (digits2_pos p)). lia.
  - rewrite Pos2Z.inj_succ, (Pos2Z.inj_xO p).
    replace (Z.succ (Zpos (digits2_pos p)) - 1) with (Z.succ (Zpos (digits2_pos p) - 1))
      by lia.
    rewrite !Z.pow_succ_r by lia.
    generalize dependent (2 ^ (Zpos (digits2_pos p) - 1)).
    generalize (2 ^ Zpos (digits2_pos p)). lia.
  - cbn. lia.
Qed.

Lemma digits2_upper p d : 0 <= d -> Zpos p < 2 ^ d -> Zpos (digits2_pos p) <= d.
Proof.
  intros Hd Hp. destruct (Z_le_gt_dec (Zpos (digits2_pos p)) d) as [H|H]; [exact H|].
  exfalso. pose proof (digits2_bounds p) as [Hl _].
  assert (2 ^ d <= 2 ^ (Zpos (digits2_pos p) - 1)) by (apply Z.pow_le_mono_r; lia).
  lia.
Qed.

Lemma digits2_lower p d : 2 ^ d <= Zpos p -> d < Zpos (digits2_pos p).
Proof.
  intros Hp. destruct (Z_lt_le_dec d (Zpos (digits2_pos p))) as [H|H]; [exact H|].
  exfalso. pose proof (digits2_bounds p) as [_ Hu].
  assert (2 ^ Zpos (digits2_pos p) <= 2 ^ d) by (apply Z.pow_le_mono_r; lia).
  lia.
Qed.

Lemma shr_1_m mrs : 0 <= shr_m mrs -> shr_m (shr_1 mrs) = shr_m mrs / 2.
Proof.
  destruct mrs as [m r s]. cbn [shr_m]. intros Hm.
  destruct m as [|[p|p|]|p]; cbn [shr_1 shr_m]; try reflexivity; try lia.
  - rewrite (Pos2Z.inj_xI p). apply (Z.div_unique _ _ _ 1); lia.
  - rewrite (Pos2Z.inj_xO p). apply (Z.div_unique _ _ _ 0); lia.
Qed.

Lemma iter_shr_m k : forall mrs,
  0 <= shr_m mrs -> shr_m (SpecFloat.iter_pos shr_1 k mrs) = shr_m mrs / 2 ^ Zpos k.
Proof.
  assert (Hnn : forall m j, 0 <= m -> 0 <= m / 2 ^ Zpos j).
  { intros m j Hm. apply Z.div_pos; [exact Hm|]. apply Z.pow_pos_nonneg; lia. }
  assert (H1 : forall mrs, 0 <= shr_m mrs -> 0 <= shr_m (shr_1 mrs)).
  { intros mrs Hm. rewrite shr_1_m by exact Hm. apply Z.div_pos; lia. }
  induction k as [k IH|k IH|]; intros mrs Hm; cbn [SpecFloat.iter_pos].
  - assert (Ha : 0 <= shr_m (SpecFloat.iter_pos shr_1 k (shr_1 mrs))).
    { rewrite IH by auto. apply Hnn. auto. }
    rewrite (IH _ Ha), (IH _ (H1 _ Hm)), shr_1_m by exact Hm.
    assert (Hp : 0 < 2 ^ Zpos k) by (apply Z.pow_pos_nonneg; lia).
    rewrite !Z.div_div by lia.
    f_equal. rewrite (Pos2Z.inj_xI k).
    replace (2 * Zpos k + 1) with (Z.succ (Zpos k + Zpos k)) by lia.
    rewrite Z.pow_succ_r, Z.pow_add_r by lia. lia.
  - assert (Ha : 0 <= shr_m (SpecFloat.iter_pos shr_1 k mrs)).
    { rewrite IH by auto. apply Hnn. auto. }
    rewrite (IH _ Ha), (IH _ Hm).
    assert (Hp : 0 < 2 ^ Zpos k) by (apply Z.pow_pos_nonneg; lia).
    rewrite !Z.div_div by lia.
    f_equal. rewrite (Pos2Z.inj_xO k).
    replace (2 * Zpos k) with (Zpos k + Zpos k) by lia.
    rewrite Z.pow_add_r by lia. lia.
  - now apply shr_1_m.
Qed.

Lemma shr_spec mrs e n :
  0 <= shr_m mrs ->
  snd (shr mrs e n) = e + Z.max n 0
  /\ shr_m (fst (shr mrs e n)) = shr_m mrs / 2 ^ Z.max n 0.
Proof.
  intros Hm. destruct n as [|k|k]; cbn [shr fst snd].
  - cbn. split; [lia|]. now rewrite Z.div_1_r.
  - rewrite Z.max_l by lia. split; [reflexivity|]. now apply iter_shr_m.
  - rewrite Z.max_r by lia. cbn. split; [lia|]. now rewrite Z.div_1_r.
Qed.

Lemma shr_record_of_loc_m m l : shr_m (shr_record_of_loc m l) = m.
Proof. destruct l as [|[]]; reflexivity. Qed.

Lemma round_nearest_even_bounds m l :
  m <= round_nearest_even m l <= m + 1.
Proof.
  unfold round_nearest_even. destruct l as [|[]]; try lia.
  destruct (Z.even m); lia.
Qed.

(** Rounding a positive mantissa at an exponent well inside the range:
    a finite positive number comes out, its exponent not below the one
    put in. *)
Lemma round_aux_finite p ex lx :
  -1022 <= ex ->
  ex + Z.max (Zpos (digits2_pos p) - 53) 0 + 1 <= 971 ->
  exists m e,
    binary_round_aux prec emax false (Zpos p) ex lx = S754_finite false m e
    /\ ex <= e <= ex + Z.max (Zpos (digits2_pos p) - 53) 0 + 1.
Proof.
  intros Hlo Hhi. pose proof (digits2_bounds p) as Hp.
  set (dx := Zpos (digits2_pos p)) in *.
  assert (Hdx : 1 <= dx) by (unfold dx; lia).
  unfold binary_round_aux, shr_fexp.
  assert (Hf : forall d e, 1 <= d -> -1022 <= e ->
                           fexp prec emax (d + e) - e = d - 53).
  { intros d e Hd He. unfold fexp, emin, prec, emax. lia. }
  cbn [Zdigits2]. fold dx. rewrite Hf by assumption.
  pose proof (shr_spec (shr_record_of_loc (Zpos p) lx) ex (dx - 53)) as Hs1.
  rewrite shr_record_of_loc_m in Hs1. specialize (Hs1 ltac:(lia)).
  destruct (shr (shr_record_of_loc (Zpos p) lx) ex (dx - 53)) as [mrs1 e1].
  cbn [fst snd] in Hs1. destruct Hs1 as [He1 Hm1].
  (* the mantissa after the first shift *)
  assert (Hb1 : 1 <= shr_m mrs1 < 2 ^ 53).
  { rewrite Hm1. destruct (Z_le_gt_dec dx 53) as [Hle|Hgt].
    - rewrite Z.max_r by lia. rewrite Z.div_1_r. split; [lia|].
      assert (2 ^ dx <= 2 ^ 53) by (apply Z.pow_le_mono_r; lia). lia.
    - rewrite Z.max_l by lia.
      assert (H2 : 0 < 2 ^ (dx - 53)) by (apply Z.pow_pos_nonneg; lia).
      assert (Hsplit : 2 ^ dx = 2 ^ 53 * 2 ^ (dx - 53)).
      { rewrite <- Z.pow_add_r by lia. f_equal. lia. }
      assert (Hsplit' : 2 ^ (dx - 1) = 2 ^ 52 * 2 ^ (dx - 53)).
      { rewrite <- Z.pow_add_r by lia. f_equal. lia. }
      split.
      + apply Z.div_le_lower_bound; [lia|]. nia.
      + apply Z.div_lt_upper_bound; [lia|]. nia. }
  set (mr := round_nearest_even (shr_m mrs1) (loc_of_shr_record mrs1)).
  pose proof (round_nearest_even_bounds (shr_m mrs1) (loc_of_shr_record mrs1)) as Hr.
  fold mr in Hr.
  assert (Hmr : 1 <= mr <= 2 ^ 53) by lia.
  destruct mr as [|pr|pr] eqn:Hpr; [lia| |lia].
  cbn [Zdigits2].
  pose proof (digits2_bounds pr) as Hdr.
  assert (Hdr' : Zpos (digits2_pos pr) <= 54).
  { apply digits2_upper; [lia|]. change (2 ^ 54) with (2 * 2 ^ 53). lia. }
  rewrite Hf by lia.
  pose proof (shr_spec (shr_record_of_loc (Zpos pr) loc_Exact) e1
                (Zpos (digits2_pos pr) - 53)) as Hs2.
  rewrite shr_record_of_loc_m in Hs2. specialize (Hs2 ltac:(lia)).
  destruct (shr (shr_record_of_loc (Zpos pr) loc_Exact) e1
                (Zpos (digits2_pos pr) - 53)) as [mrs2 e2].
  cbn [fst snd] in Hs2. destruct Hs2 as [He2 Hm2].
  assert (Hb2 : 1 <= shr_m mrs2).
  { rewrite Hm2. destruct (Z_le_gt_dec (Zpos (digits2_pos pr)) 53) as [Hle|Hgt].
    - rewrite Z.max_r by lia. rewrite Z.div_1_r. lia.
    - assert (Zpos (digits2_pos pr) = 54) as Heq by lia.
      rewrite Heq in *. change (Z.max (54 - 53) 0) with 1.
      change (54 - 1) with 53 in Hdr.
      apply Z.div_le_lower_bound; [reflexivity|].
      assert (2 <= 2 ^ 53) by (change (2 ^ 53) with 9007199254740992; lia). lia. }
  destruct (shr_m mrs2) as [|m2|m2]; [lia| |lia].
  assert (He : (e2 <=? emax - prec) = true).
  { apply Z.leb_le. unfold emax, prec. lia. }
  rewrite He. exists m2, e2. split; [reflexivity|]. fold dx. lia.
Qed.

Lemma iter_xO_mul p k : Zpos (Pos.iter xO p k) = Zpos p * 2 ^ Zpos k.
Proof.
  induction k as [|k IH] using Pos.peano_ind.
  - cbn [Pos.iter]. rewrite (Pos2Z.inj_xO p). change (2 ^ 1) with 2. lia.
  - rewrite Pos.iter_succ, (Pos2Z.inj_xO (Pos.iter xO p k)), IH, Pos2Z.inj_succ.
    rewrite Z.pow_succ_r by lia. lia.
Qed.

(** The float of a stored count of at least 32: finite, positive, 53
    digits of mantissa, exponent between -47 and 971. *)
Lemma float_of_int_finite n :
  32 <= n -> n < 2 ^ 63 ->
  exists m e,
    Prim2SF (float_of_int n) = S754_finite false m e
    /\ -47 <= e <= 11 /\ Zpos (digits2_pos m) = 53.
Proof.
  intros Hlo Hhi. unfold float_of_int.
  assert (Hphi : Uint63.to_Z (Uint63.of_Z n) = n).
  { rewrite Uint63.of_Z_spec. apply Z.mod_small.
    change Uint63.wB with (2 ^ 63). lia. }
  pose proof (Prim2SF_valid (PrimFloat.of_uint63 (Uint63.of_Z n))) as Hv.
  rewrite of_uint63_spec, Hphi in Hv |- *.
  destruct n as [|p|p]; [lia| |lia].
  cbn [binary_normalize] in Hv |- *.
  assert (Hex : exists m e,
             binary_round prec emax false p 0 = S754_finite false m e
             /\ -47 <= e <= 11).
  { unfold binary_round, shl_align.
    pose proof (digits2_bounds p) as Hp.
    assert (Hd6 : 5 < Zpos (digits2_pos p)).
    { apply digits2_lower. change (2 ^ 5) with 32. lia. }
    assert (Hd63 : Zpos (digits2_pos p) <= 63) by (apply digits2_upper; lia).
    cbn [Zdigits2]. rewrite Z.add_0_r.
    replace (fexp prec emax (Zpos (digits2_pos p)) - 0)
      with (Zpos (digits2_pos p) - 53) by (unfold fexp, emin, prec, emax; lia).
    destruct (Zpos (digits2_pos p) - 53) as [|k|k] eqn:Hk.
    - destruct (round_aux_finite p 0 loc_Exact) as (m & e & Hr & He); [lia|lia|].
      exists m, e. split; [exact Hr|lia].
    - destruct (round_aux_finite p 0 loc_Exact) as (m & e & Hr & He); [lia|lia|].
      exists m, e. split; [exact Hr|lia].
    - replace (fexp prec emax (Zpos (digits2_pos p)))
        with (Zpos (digits2_pos p) - 53) by (unfold fexp, emin, prec, emax; lia).
      assert (Hz : Zpos (digits2_pos (Pos.iter xO p k)) <= 53).
      { apply digits2_upper; [lia|]. rewrite iter_xO_mul.
        assert (H53 : 2 ^ 53 = 2 ^ Zpos (digits2_pos p) * 2 ^ Zpos k).
        { rewrite <- Z.pow_add_r by lia. f_equal. lia. }
        assert (0 < 2 ^ Zpos k) by (apply Z.pow_pos_nonneg; lia).
        rewrite H53. nia. }
      destruct (round_aux_finite (Pos.iter xO p k) (Zpos (digits2_pos p) - 53) loc_Exact)
        as (m & e & Hr & He); [lia|lia|].
      exists m, e. split; [exact Hr|lia]. }
  destruct Hex as (m & e & Hr & He). rewrite Hr in Hv |- *.
  exists m, e. split; [reflexivity|]. split; [exact He|].
  cbn [valid_binary] in Hv. unfold bounded, canonical_mantissa in Hv.
  apply andb_true_iff in Hv. destruct Hv as [Hc _].
  apply Z.eqb_eq in Hc. unfold fexp, emin, prec, emax in Hc. lia.
Qed.

(** Past 31 stars the quotient by thirteen lies above one. *)
Lemma above_one_from_32 n :
  32 <= n -> n < 2 ^ 63 -> (1 <? float_of_int n / 13)%float = true.
Proof.
  intros Hlo Hhi.
  destruct (float_of_int_finite n Hlo Hhi) as (m1 & e1 & Hx & He1 & Hd1).
  rewrite FloatAxioms.ltb_spec, FloatAxioms.div_spec, Hx.
  replace (Prim2SF 13) with (S754_finite false 7318349394477056 (-49))
    by (vm_compute; reflexivity).
  replace (Prim2SF 1) with (S754_finite false 4503599627370496 (-52))
    by (vm_compute; reflexivity).
  unfold SF64div, SFdiv, SFdiv_core_binary. cbn [xorb Zdigits2].
  rewrite Hd1.
  change (Zpos (digits2_pos 7318349394477056)) with 53.
  replace (Z.min (fexp prec emax (53 + e1 - (53 + -49))) (e1 - -49)) with (e1 - 4)
    by (unfold fexp, emin, prec, emax; lia).
  replace (e1 - -49 - (e1 - 4)) with 53 by lia.
  cbv beta iota zeta.
  rewrite Z.shiftl_mul_pow2 by lia.
  pose proof (digits2_bounds m1) as Hm1. rewrite Hd1 in Hm1.
  change (53 - 1) with 52 in Hm1.
  pose proof (Z.div_eucl_eq (Zpos m1 * 2 ^ 53) 7318349394477056 ltac:(lia)) as Hq.
  pose proof (Z.mod_pos_bound (Zpos m1 * 2 ^ 53) 7318349394477056 ltac:(lia)) as Hr.
  unfold Z.modulo in Hr.
  destruct (Z.div_eucl (Zpos m1 * 2 ^ 53) 7318349394477056) as [q r].
  assert (H52 : 2 ^ 52 = 4503599627370496) by reflexivity.
  assert (H53 : 2 ^ 53 = 9007199254740992) by reflexivity.
  rewrite H52, H53 in *.
  assert (Hq1 : 1 <= q) by nia.
  assert (Hq2 : q < 2 ^ 106).
  { change (2 ^ 106) with (9007199254740992 * 9007199254740992). nia. }
  destruct q as [|pq|pq]; [lia| |lia].
  destruct (round_aux_finite pq (e1 - 4)
              (match r with
               | 0 => loc_Exact
               | _ => loc_Inexact (Z.compare (2 * r) 7318349394477056)
               end)) as (mq & eq & Hres & Heq).
  - lia.
  - assert (Zpos (digits2_pos pq) <= 106) by (apply digits2_upper; lia). lia.
  - match goal with
    | |- SFltb _ ?t = true => replace t with (S754_finite false mq eq)
    end.
    + unfold SFltb, SFcompare.
      replace (Z.compare (-52) eq) with Lt by (symmetry; apply Z.compare_lt_iff; lia).
      reflexivity.
    + rewrite <- Hres. destruct r; reflexivity.
Qed.

(** The colour, channel by channel in integers: the point at
    [min stars 13] thirteenths of the way from (255, 253, 247) to
    (255, 194, 12), each channel cut to an integer. *)
Lemma gradient_colour_formula stars :
  0 <= stars -> stars < 2 ^ 63 ->
  star_gradient_colour stars
  = 255 * 65536
    + (253 * (13 - Z.min stars 13) + 194 * Z.min stars 13) / 13 * 256
    + (247 * (13 - Z.min stars 13) + 12 * Z.min stars 13) / 13.
Proof.
  intros Hlo Hhi. destruct (Z_lt_le_dec stars 32) as [Hs|Hs].
  - replace stars with (Z.of_nat (Z.to_nat stars)) by lia.
    assert (Hn : (Z.to_nat stars < 32)%nat) by lia.
    generalize dependent (Z.to_nat stars). intros n Hn.
    do 32 (destruct n as [|n]; [vm_compute; reflexivity|]). lia.
  - rewrite Z.min_r by lia. unfold star_gradient_colour.
    rewrite (above_one_from_32 stars Hs Hhi). vm_compute. reflexivity.
Qed.

(** ** Rendering *)

(** C6: for a count that is not negative, the emoji is the white star
    below 5, the glowing star from 5 and below 10, the dizzy symbol from
    10 and below 25, the sparkles from 25 on; the colour has red 255 and
    green and blue at [min stars 13] thirteenths of the way from 253 to
    194 and from 247 to 12, each cut to an integer: 0xfffdf7 without a
    star, 0xffc20c from thirteen stars on.  (The count is below [2^53],
    where the binary64 quotient [stars / 13] is the one the code
    computes.) *)
Theorem render_tiers_and_gradient stars :
  0 <= stars -> stars < 2 ^ 53 ->
  star_emoji stars
  = (if stars <? 5 then WHITE_MEDIUM_STAR
     else if stars <? 10 then GLOWING_STAR
     else if stars <? 25 then DIZZY_SYMBOL
     else SPARKLES)
  /\ star_gradient_colour stars
     = Z.shiftl 255 16
       + Z.shiftl ((253 * (13 - Z.min stars 13) + 194 * Z.min stars 13) / 13) 8
       + (247 * (13 - Z.min stars 13) + 12 * Z.min stars 13) / 13
  /\ star_gradient_colour 0 = Z.shiftl 255 16 + Z.shiftl 253 8 + 247
  /\ star_gradient_colour (Z.max stars 13) = Z.shiftl 255 16 + Z.shiftl 194 8 + 12.
Proof.
  intros Hlo Hhi.
  assert (H63 : 2 ^ 53 < 2 ^ 63) by reflexivity.
  split; [|split; [|split]].
  - unfold star_emoji.
    destruct (Z.ltb_spec stars 5), (Z.leb_spec 0 stars), (Z.ltb_spec stars 10),
      (Z.leb_spec 5 stars), (Z.ltb_spec stars 25), (Z.leb_spec 10 stars);
      cbn [andb]; try reflexivity; lia.
  - rewrite gradient_colour_formula by lia.
    rewrite !Z.shiftl_mul_pow2 by lia. reflexivity.
  - vm_compute. reflexivity.
  - rewrite gradient_colour_formula by lia.
    rewrite Z.min_r by lia. reflexivity.
Qed.

(** X1: the emoji of a count, tier by tier; a negative count falls through
    to the last branch and gets the sparkles. *)
Theorem star_emoji_tiers stars :
  (star_emoji stars = WHITE_MEDIUM_STAR <-> 0 <= stars < 5)
  /\ (star_emoji stars = GLOWING_STAR <-> 5 <= stars < 10)
  /\ (star_emoji stars = DIZZY_SYMBOL <-> 10 <= stars < 25)
  /\ (star_emoji stars = SPARKLES <-> stars < 0 \/ 25 <= stars).
Proof.
  unfold star_emoji.
  destruct (Z.ltb_spec stars 5), (Z.leb_spec 0 stars), (Z.ltb_spec stars 10),
    (Z.leb_spec 5 stars), (Z.ltb_spec stars 25), (Z.leb_spec 10 stars);
    cbn [andb]; repeat split; intros; try discriminate; try lia.
Qed.

(** X2: the colour of a count is the point at [min stars 13] thirteenths
    of the way from (255, 253, 247) to (255, 194, 12), each channel cut to
    an integer; from thirteen stars on it is 0xffc20c. *)
Theorem gradient_colour_interpolates stars :
  0 <= stars -> stars < 2 ^ 53 ->
  star_gradient_colour stars
  = 255 * 65536
    + (253 * (13 - Z.min stars 13) + 194 * Z.min stars 13) / 13 * 256
    + (247 * (13 - Z.min stars 13) + 12 * Z.min stars 13) / 13.
Proof.
  intros Hlo Hhi. apply gradient_colour_formula; [exact Hlo|].
  apply (Z.lt_trans _ _ _ Hhi). reflexivity.
Qed.

(** X3: more stars never give a lighter colour, and every colour lies
    between 0xffc20c and 0xfffdf7. *)
Theorem gradient_colour_fades a b :
  0 <= a -> a <= b -> b < 2 ^ 53 ->
  16761356 <= star_gradient_colour b
  /\ star_gradient_colour b <= star_gradient_colour a
  /\ star_gradient_colour a <= 16776695.
Proof.
  intros Ha Hab Hb.
  assert (Hb' : b < 2 ^ 63) by (apply (Z.lt_trans _ _ _ Hb); reflexivity).
  rewrite !gradient_colour_formula by lia.
  set (sa := Z.min a 13). set (sb := Z.min b 13).
  assert (Hsa : 0 <= sa <= 13) by (unfold sa; lia).
  assert (Hsb : sa <= sb <= 13) by (unfold sa, sb; lia).
  assert (G1 : (253 * (13 - sb) + 194 * sb) / 13 <= (253 * (13 - sa) + 194 * sa) / 13)
    by (apply Z.div_le_mono; lia).
  assert (G2 : (253 * (13 - sa) + 194 * sa) / 13 <= 3289 / 13)
    by (apply Z.div_le_mono; lia).
  assert (G3 : 2522 / 13 <= (253 * (13 - sb) + 194 * sb) / 13)
    by (apply Z.div_le_mono; lia).
  assert (B1 : (247 * (13 - sb) + 12 * sb) / 13 <= (247 * (13 - sa) + 12 * sa) / 13)
    by (apply Z.div_le_mono; lia).
  assert (B2 : (247 * (13 - sa) + 12 * sa) / 13 <= 3211 / 13)
    by (apply Z.div_le_mono; lia).
  assert (B3 : 156 / 13 <= (247 * (13 - sb) + 12 * sb) / 13)
    by (apply Z.div_le_mono; lia).
  change (3289 / 13) with 253 in G2. change (2522 / 13) with 194 in G3.
  change (3211 / 13) with 247 in B2. change (156 / 13) with 12 in B3.
  lia.
Qed.

(** ** The message cache *)

(** X4: a message that has been fetched once is served from the cache,
    whatever the channel asked and whatever has become of it on the
    platform, until [clean_message_cache] runs; after that a message that
    is gone is not found any more. *)
Theorem cache_outlives_message channel message_id w msg w1 channel' :
  get_message channel message_id w = (Ok (Some msg), w1) ->
  let w2 := set_platform (delete message_id) w1 in
  get_message channel' message_id w2 = (Ok (Some msg), w2)
  /\ get_message channel' message_id (snd (clean_message_cache w2))
     = (Ok None, snd (clean_message_cache w2)).
Proof.
  intros Hget w2. split.
  - unfold get_message in *.
    destruct (_message_cache w !! message_id) as [m|] eqn:Hc.
    + injection Hget as <- <-. subst w2. cbn. now rewrite Hc.
    + destruct (fetch_message channel message_id w) as [m|]; [|discriminate].
      injection Hget as <- <-. subst w2. cbn. now rewrite lookup_insert_eq.
  - apply get_message_none.
    + cbn. apply lookup_empty.
    + unfold fetch_message. subst w2. cbn. now rewrite lookup_delete_eq.
Qed.

(** ** The commands of the moderators *)

(** X5: on a guild without its starboard [star_limit] is refused with
    the error that the starboard channel is not found, and nothing is
    written.  On a guild with its starboard, whatever number is given, the
    threshold that is stored lies between 1 and 100 (a number below 1
    becomes 1, one above 100 becomes 100), whether or not the answer can
    be sent.  The rest of the configuration, both tables, the serial and
    the pending set are left alone: no entry gains or loses its mirror id.
    The answer, which names the number stored, is the one message added;
    when the bot may not write in the channel of the command the command
    ends in the HTTP error, the threshold stored all the same. *)
Theorem star_limit_clamps g now channel stars w :
  let r := star_limit g now channel stars w in
  let limit := if stars <? 1 then 1 else if 100 <? stars then 100 else stars in
  match starboard_channel g (starboard w) with
  | None => r = (Raise (Star NoStarboard), w)
  | Some _ =>
      threshold (starboard (snd r)) = limit
      /\ 1 <= threshold (starboard (snd r)) <= 100
      /\ channel_id (starboard (snd r)) = channel_id (starboard w)
      /\ locked (starboard (snd r)) = locked (starboard w)
      /\ max_age (starboard (snd r)) = max_age (starboard w)
      /\ entries (snd r) = entries w /\ starrers (snd r) = starrers w
      /\ entry_seq (snd r) = entry_seq w
      /\ _about_to_be_deleted (snd r) = _about_to_be_deleted w
      /\ (if ch_send_messages channel
          then fst r = Ok tt
               /\ platform (snd r)
                  = <[next_snowflake w :=
                        mkMessage (next_snowflake w) (ch_id channel) (guild_me g)
                                  (LimitText limit) 0 MT_default now None]>
                      (platform w)
          else fst r = Raise HTTPException /\ platform (snd r) = platform w)
  end.
Proof.
  intros r limit. subst r.
  unfold star_limit, requires_starboard, bind, gets, modify, reply.
  destruct (starboard_channel g (starboard w)) as [sb|]; [|reflexivity].
  assert (Hlimit : Z.min (Z.max stars 1) 100 = limit).
  { subst limit. destruct (Z.ltb_spec stars 1), (Z.ltb_spec 100 stars); lia. }
  rewrite Hlimit.
  assert (Hbounds : 1 <= limit <= 100) by (rewrite <- Hlimit; lia).
  destruct (ch_send_messages channel); cbn; repeat split; lia.
Qed.

(** X6: the interval [star_age] writes has between 1 and 35 units, in the
    plural, and at most 10 when the unit is years: a number below 1
    becomes 1, one above 35 becomes 35, and more than ten years is
    refused, and only that. *)
Theorem star_age_bounds number units :
  match star_age_interval number units with
  | Some (n, u) =>
      n = (if number <? 1 then 1 else if 35 <? number then 35 else number)
      /\ u = plural_unit units
      /\ 1 <= n <= (if is_years u then 10 else 35)
  | None => plural_unit units = years /\ 10 < number
  end.
Proof.
  unfold star_age_interval.
  destruct (is_years (plural_unit units)) eqn:Hy; cbn [andb].
  - destruct (Z.ltb_spec 10 (Z.min (Z.max number 1) 35)).
    + split; [|lia]. destruct units; try discriminate; reflexivity.
    + rewrite Hy.
      destruct (Z.ltb_spec number 1), (Z.ltb_spec 35 number); repeat split; lia.
  - rewrite Hy.
    destruct (Z.ltb_spec number 1), (Z.ltb_spec 35 number); repeat split; lia.
Qed.

(** ** What a rejected call leaves behind *)

Lemma insert_none_world message_id channel guild author starrer_id w w' :
  insert_entry_and_starrer message_id channel guild author starrer_id w = (None, w') ->
  w' = set_entry_seq (entry_seq w + 1) w.
Proof.
  unfold insert_entry_and_starrer.
  destruct (List.find (has_message_id message_id) (entries w)) as [e|].
  - destruct (existsb _ _); intros H; inversion H; reflexivity.
  - destruct (existsb _ _); intros H; inversion H; reflexivity.
Qed.

Lemma rejected_before_insert w w' (e : StarError) :
  same_but_cache w w' -> e ≠ AlreadyStarred ->
  entries w' = entries w /\ starrers w' = starrers w
  /\ starboard w' = starboard w /\ platform w' = platform w
  /\ next_snowflake w' = next_snowflake w
  /\ _about_to_be_deleted w' = _about_to_be_deleted w
  /\ entry_seq w' = match e with
                    | AlreadyStarred => entry_seq w + 1
                    | _ => entry_seq w
                    end.
Proof.
  intros (H1 & H2 & H3 & H4 & H5 & H6 & H7) He.
  repeat split; try assumption.
  destruct e; try assumption. contradiction.
Qed.

Lemma star_publish_raises g now sb message_id msg eid w x w' :
  star_publish g now sb message_id msg eid w = (Raise x, w') ->
  x = TypeError \/ x = HTTPException.
Proof.
  unfold star_publish, bind at 1, gets at 1. unfold bind at 1, gets at 1.
  destruct (count_stars eid w <? threshold (starboard w)); [discriminate|].
  destruct (get_emoji_message msg (count_stars eid w)) as [content embed].
  unfold bind at 1, select_bot_message_id at 1.
  destruct (List.find (has_message_id message_id) (entries w)) as [e|];
    [|intros H; inversion H; auto].
  destruct (bot_message_id e) as [b|].
  - unfold bind at 1.
    destruct (get_message_total sb b w) as (o & w1 & ->).
    destruct o as [m|].
    + unfold edit. destruct (platform w1 !! msg_id m); intros H; inversion H; auto.
    + discriminate.
  - discriminate.
Qed.

(** X7: a star that is rejected with a [StarError] has added, changed and
    removed no row and no message: both tables, the configuration, the
    platform and the pending set are as they were.  The message cache may
    have gained the message that was fetched, and the serial of entry ids
    has gone one further exactly when the error is that the user has
    starred the message already, the one rejection that comes from the
    insert itself. *)
Theorem star_rejection_keeps_world depth g now channel message_id starrer_id w e w' :
  _star_message depth g now channel message_id starrer_id w = (Raise (Star e), w') ->
  entries w' = entries w /\ starrers w' = starrers w
  /\ starboard w' = starboard w /\ platform w' = platform w
  /\ next_snowflake w' = next_snowflake w
  /\ _about_to_be_deleted w' = _about_to_be_deleted w
  /\ entry_seq w' = match e with
                    | AlreadyStarred => entry_seq w + 1
                    | _ => entry_seq w
                    end.
Proof.
  revert channel message_id. induction depth as [|depth IH];
    intros channel message_id Hrun; [discriminate|].
  cbn [_star_message] in Hrun. unfold bind at 1, gets at 1 in Hrun.
  assert (Hearly : forall e0, e0 ≠ AlreadyStarred ->
            (Raise (Star e0), w) = (Raise (Star e) : Res unit, w') ->
            entries w' = entries w /\ starrers w' = starrers w
            /\ starboard w' = starboard w /\ platform w' = platform w
            /\ next_snowflake w' = next_snowflake w
            /\ _about_to_be_deleted w' = _about_to_be_deleted w
            /\ entry_seq w' = match e with
                              | AlreadyStarred => entry_seq w + 1
                              | _ => entry_seq w
                              end).
  { intros e0 He0 H. inversion H; subst.
    apply rejected_before_insert; [apply same_but_cache_refl|assumption]. }
  destruct (starboard_channel g (starboard w)) as [sb|];
    [|now apply (Hearly NoStarboard)].
  destruct (locked (starboard w)); [now apply (Hearly Locked)|].
  destruct (ch_nsfw channel && negb (ch_nsfw sb));
    [now apply (Hearly NsfwMismatch)|].
  destruct (ch_id channel =? ch_id sb).
  - unfold bind at 1, select_origin, gets in Hrun.
    destruct (List.find (is_bot_message message_id) (entries w)) as [t|];
      [|now apply (Hearly NotFound)].
    destruct (get_channel_or_thread g (entry_channel_id t)) as [ch|];
      [|now apply (Hearly OriginChannelNotFound)].
    eapply IH; eassumption.
  - destruct (negb (ch_send_messages sb));
      [now apply (Hearly (NoPermission Post))|].
    clear Hearly. unfold bind at 1 in Hrun.
    destruct (get_message_total channel message_id w) as (o & w1 & Hgm).
    rewrite Hgm in Hrun. pose proof (get_message_frame _ _ _ _ _ Hgm) as Hframe.
    assert (Hfetched : forall e0, e0 ≠ AlreadyStarred ->
              (Raise (Star e0), w1) = (Raise (Star e) : Res unit, w') ->
              entries w' = entries w /\ starrers w' = starrers w
              /\ starboard w' = starboard w /\ platform w' = platform w
              /\ next_snowflake w' = next_snowflake w
              /\ _about_to_be_deleted w' = _about_to_be_deleted w
              /\ entry_seq w' = match e with
                                | AlreadyStarred => entry_seq w + 1
                                | _ => entry_seq w
                                end).
    { intros e0 He0 H. inversion H; subst.
      apply rejected_before_insert; assumption. }
    destruct o as [msg|]; [|now apply (Hfetched MessageNotFound)].
    destruct (msg_author msg =? starrer_id); [now apply (Hfetched SelfStar)|].
    destruct (_ || _); [now apply (Hfetched NotStarrable)|].
    destruct (msg_created_at msg <? _); [now apply (Hfetched TooOld)|].
    unfold star_commit, bind at 1 in Hrun.
    destruct (insert_entry_and_starrer message_id (ch_id channel) (guild_id g)
                (msg_author msg) starrer_id w1) as [[eid|] w2] eqn:Hins.
    + apply star_publish_raises in Hrun. destruct Hrun; discriminate.
    + apply insert_none_world in Hins. inversion Hrun; subst.
      destruct Hframe as (H1 & H2 & H3 & H4 & H5 & H6 & H7).
      cbn. rewrite H3. repeat split; assumption.
Qed.

Lemma filter_length_lt {A} (f : A -> bool) l x :
  In x l -> f x = false -> (length (List.filter f l) < length l)%nat.
Proof.
  induction l as [|a l IH]; intros Hin Hf; [contradiction|].
  pose proof (filter_length_le f l) as Hle. cbn.
  destruct Hin as [->|Hin].
  - rewrite Hf. lia.
  - destruct (f a); cbn; [apply IH in Hin; auto; lia|lia].
Qed.

Lemma delete_entries_starrers_le cascade sel w :
  (length (starrers (delete_entries cascade sel w)) <= length (starrers w))%nat.
Proof.
  unfold delete_entries. destruct cascade; cbn; [apply filter_length_le|lia].
Qed.

Lemma unstar_retract_rejected g sb channel message_id eid bot w e w' :
  unstar_retract g sb channel message_id eid bot w = (Raise (Star e), w') ->
  e = MessageNotFound /\ (length (starrers w') <= length (starrers w))%nat.
Proof.
  unfold unstar_retract, bind at 1, gets at 1. unfold bind at 1.
  set (w2 := snd ((if count_stars eid w =? 0
                   then delete_entry_by_id (fk_cascade g) eid else ret tt) w)).
  assert (Hstep : (if count_stars eid w =? 0
                   then delete_entry_by_id (fk_cascade g) eid else ret tt) w
                  = (Ok tt, w2)).
  { subst w2. destruct (count_stars eid w =? 0); reflexivity. }
  assert (Hle : (length (starrers w2) <= length (starrers w))%nat).
  { subst w2. destruct (count_stars eid w =? 0); cbn; [|lia].
    apply delete_entries_starrers_le. }
  rewrite Hstep. destruct bot as [b|]; [|discriminate].
  unfold bind at 1.
  destruct (get_message_total sb b w2) as (o & w3 & Hg3). rewrite Hg3.
  destruct (get_message_frame _ _ _ _ _ Hg3) as (_ & Hs3 & _ & Hc3 & _).
  destruct o as [bot_message|]; [|discriminate].
  unfold bind at 1, gets at 1.
  destruct (count_stars eid w <? threshold (starboard w3)).
  - unfold bind at 1, modify at 1. unfold bind at 1.
    destruct (negb (count_stars eid w =? 0)); cbn [null_bot_message_id modify ret];
      unfold delete_message; cbn;
      match goal with |- context [platform ?p !! ?k] => destruct (platform p !! k) end;
      discriminate.
  - unfold bind at 1.
    destruct (get_message_total channel message_id w3) as (o & w4 & Hg4). rewrite Hg4.
    destruct (get_message_frame _ _ _ _ _ Hg4) as (_ & Hs4 & _).
    destruct o as [msg|].
    + destruct (get_emoji_message msg (count_stars eid w)) as [content embed].
      unfold edit. destruct (platform w4 !! msg_id bot_message); discriminate.
    + intros H. inversion H; subst. split; [reflexivity|]. rewrite Hs4, Hs3. exact Hle.
Qed.

(** X8: an unstar that is rejected with a [StarError] has changed nothing
    at all, with one exception: when the message that was starred cannot
    be found any more for the update of its mirror, the star has been
    removed before the error is raised. *)
Theorem unstar_rejection depth g channel message_id starrer_id w e w' :
  _unstar_message depth g channel message_id starrer_id w = (Raise (Star e), w') ->
  match e with
  | MessageNotFound => (length (starrers w') < length (starrers w))%nat
  | _ => w' = w
  end.
Proof.
  revert channel message_id. induction depth as [|depth IH];
    intros channel message_id Hrun; [discriminate|].
  cbn [_unstar_message] in Hrun. unfold bind at 1, gets at 1 in Hrun.
  destruct (starboard_channel g (starboard w)) as [sb|];
    [|inversion Hrun; reflexivity].
  destruct (locked (starboard w)); [inversion Hrun; reflexivity|].
  destruct (ch_id channel =? ch_id sb).
  - unfold bind at 1, select_origin, gets in Hrun.
    destruct (List.find (is_bot_message message_id) (entries w)) as [t|];
      [|inversion Hrun; reflexivity].
    destruct (get_channel_or_thread g (entry_channel_id t)) as [ch|];
      [|inversion Hrun; reflexivity].
    eapply IH; eassumption.
  - destruct (negb (ch_send_messages sb)); [inversion Hrun; reflexivity|].
    unfold unstar_commit, bind at 1 in Hrun.
    unfold delete_starrer at 1 in Hrun.
    destruct (List.find (unstar_target message_id starrer_id w) (starrers w))
      as [s|] eqn:Hfind; [|inversion Hrun; reflexivity].
    apply unstar_retract_rejected in Hrun. destruct Hrun as [-> Hle].
    cbn in Hle. apply find_some in Hfind. destruct Hfind as [Hin Ht].
    assert (Hf : negb (unstar_target message_id starrer_id w s) = false)
      by now rewrite Ht.
    pose proof (filter_length_lt
                  (fun s' => negb (unstar_target message_id starrer_id w s'))
                  (starrers w) s Hin Hf) as Hlt.
    lia.
Qed.

(** ** Locking *)

Lemma star_lock_config g now channel w sb :
  starboard_channel g (starboard w) = Some sb ->
  starboard (snd (star_lock g now channel w)) = starboard (set_locked true w)
  /\ entries (snd (star_lock g now channel w)) = entries w
  /\ starrers (snd (star_lock g now channel w)) = starrers w
  /\ _about_to_be_deleted (snd (star_lock g now channel w)) = _about_to_be_deleted w.
Proof.
  intros Hsb. unfold star_lock, requires_starboard, bind, gets, modify, reply.
  rewrite Hsb. destruct (ch_send_messages channel); repeat split.
Qed.

Lemma star_unlock_config g now channel w sb :
  starboard_channel g (starboard w) = Some sb ->
  starboard (snd (star_unlock g now channel w)) = starboard (set_locked false w)
  /\ entries (snd (star_unlock g now channel w)) = entries w
  /\ starrers (snd (star_unlock g now channel w)) = starrers w
  /\ _about_to_be_deleted (snd (star_unlock g now channel w)) = _about_to_be_deleted w.
Proof.
  intros Hsb. unfold star_unlock, requires_starboard, bind, gets, modify, reply.
  rewrite Hsb. destruct (ch_send_messages channel); repeat split.
Qed.

(** X9: once [star_lock] has run on a guild that has its starboard,
    whether or not its reply could be sent, no star and no unstar changes
    anything: a call that the moderation policy does not end beforehand
    is rejected with the message that the starboard is locked. *)
Theorem locked_board_is_frozen g n now ctx_channel now' channel message_id starrer_id
    verify w sb :
  recursion_limit g = S n ->
  starboard_channel g (starboard w) = Some sb ->
  let w1 := snd (star_lock g now ctx_channel w) in
  star_message g now' channel message_id starrer_id false w1 = (Raise (Star Locked), w1)
  /\ unstar_message g channel message_id starrer_id false w1 = (Raise (Star Locked), w1)
  /\ snd (star_message g now' channel message_id starrer_id verify w1) = w1
  /\ snd (unstar_message g channel message_id starrer_id verify w1) = w1.
Proof.
  intros Hn Hsb w1.
  destruct (star_lock_config g now ctx_channel w sb Hsb) as (Hc & _). fold w1 in Hc.
  assert (Hsb' : starboard_channel g (starboard w1) = Some sb) by (rewrite Hc; exact Hsb).
  assert (Hl : locked (starboard w1) = true) by (rewrite Hc; reflexivity).
  pose proof (star_locked n g now' channel message_id starrer_id w1 sb Hsb' Hl) as Hs.
  pose proof (unstar_locked n g channel message_id starrer_id w1 sb Hsb' Hl) as Hu.
  unfold star_message, unstar_message. rewrite Hn. cbn [andb].
  repeat split; try assumption.
  - destruct (verify && config_cog g && is_plonked g starrer_id channel); [reflexivity|].
    destruct (verify && config_cog g && is_command_blocked g (ch_id channel));
      [reflexivity|]. now rewrite Hs.
  - destruct (verify && config_cog g && is_plonked g starrer_id channel); [reflexivity|].
    destruct (verify && config_cog g && is_command_blocked g (ch_id channel));
      [reflexivity|]. now rewrite Hu.
Qed.

(** X10: [star_unlock] undoes [star_lock].  On a starboard that was not
    locked, the world after the two commands one after the other is the
    world in which nothing but their two answers has happened: the
    configuration, both tables, the serial, the message cache and the
    pending set are as they were, and the platform holds the answers that
    could be sent and is otherwise as it was. *)
Theorem lock_unlock_round_trip g now channel now' channel' w sb :
  locked (starboard w) = false ->
  starboard_channel g (starboard w) = Some sb ->
  let w2 := snd (star_unlock g now' channel' (snd (star_lock g now channel w))) in
  w2 = snd (reply g now' channel' (UserText "Starboard is now unlocked.")
              (snd (reply g now channel (UserText "Starboard is now locked.") w)))
  /\ starboard w2 = starboard w
  /\ entries w2 = entries w /\ starrers w2 = starrers w
  /\ entry_seq w2 = entry_seq w
  /\ _message_cache w2 = _message_cache w
  /\ _about_to_be_deleted w2 = _about_to_be_deleted w.
Proof.
  intros Hl Hsb w2.
  assert (Hw : w2 = snd (reply g now' channel' (UserText "Starboard is now unlocked.")
                       (snd (reply g now channel (UserText "Starboard is now locked.")
                               w)))).
  { subst w2. destruct w as [es ss q [c t l a] pl n mc ab]. cbn in Hl. subst l.
    unfold star_unlock, star_lock, requires_starboard, bind, gets, modify, reply.
    cbn [starboard] in *. rewrite Hsb.
    assert (Hsb' : starboard_channel g (mkConfig c t true a) = Some sb) by exact Hsb.
    destruct (ch_send_messages channel); cbn; rewrite Hsb';
      destruct (ch_send_messages channel'); reflexivity. }
  split; [exact Hw|]. rewrite Hw. unfold reply.
  destruct (ch_send_messages channel), (ch_send_messages channel'); repeat split.
Qed.

(** ** The first star of a message *)

Section FirstStar.
Variable g : Guild.

Lemma find_app_none {A} (f : A -> bool) l x :
  (forall y, In y l -> f y = false) -> f x = true ->
  List.find f (l ++ [x]) = Some x.
Proof.
  intros Hl Hx. induction l as [|a l IH]; cbn.
  - now rewrite Hx.
  - rewrite (Hl a) by (left; reflexivity). apply IH. intros y Hy. apply Hl. now right.
Qed.

Lemma filter_app_last {A} (f : A -> bool) l x :
  (forall y, In y l -> f y = true) -> f x = false ->
  List.filter f (l ++ [x]) = l.
Proof.
  intros Hl Hx. rewrite List.filter_app. cbn. rewrite Hx, app_nil_r.
  induction l as [|a l IH]; [reflexivity|]. cbn.
  rewrite (Hl a) by (left; reflexivity). f_equal. apply IH.
  intros y Hy. apply Hl. now right.
Qed.

Lemma filter_all {A} (f : A -> bool) l :
  (forall y, In y l -> f y = true) -> List.filter f l = l.
Proof.
  intros Hl. induction l as [|a l IH]; [reflexivity|]. cbn.
  rewrite (Hl a) by (left; reflexivity). f_equal. apply IH.
  intros y Hy. apply Hl. now right.
Qed.

Lemma first_star_run depth now channel message_id starrer_id w sb msg w1 :
  well_formed g w -> star_gate g w channel sb ->
  get_message channel message_id w = (Ok (Some msg), w1) ->
  msg_author msg ≠ starrer_id -> starrable msg = true ->
  now - max_age (starboard w) <= msg_created_at msg ->
  List.find (has_message_id message_id) (entries w) = None ->
  1 < threshold (starboard w) ->
  _star_message (S depth) g now channel message_id starrer_id w
  = (Ok tt, first_starred g channel message_id starrer_id msg w1).
Proof.
  intros Hwf Hgate Hgm Hauthor Hst Hage Hfind Hthr.
  rewrite (star_message_direct depth g now channel message_id starrer_id w sb Hgate).
  rewrite Hgm.
  apply Z.eqb_neq in Hauthor. rewrite Hauthor, Hst. cbn [negb].
  apply Z.ltb_ge in Hage. rewrite Hage.
  destruct (get_message_frame _ _ _ _ _ Hgm) as (He1 & Hs1 & Hq1 & Hc1 & _).
  pose proof (wf_get_message g _ _ _ _ _ Hwf Hgm) as Hwf1.
  assert (Hnone : forall s, In s (starrers w1) -> starrer_entry_id s ≠ entry_seq w1).
  { intros s Hs. pose proof (wf_starrer_seq g w1 Hwf1 s Hs). lia. }
  unfold star_commit, bind at 1, insert_entry_and_starrer.
  rewrite He1, Hfind.
  assert (Hex : existsb (is_starrer starrer_id (entry_seq w1))
                  (starrers
                     (set_entry_seq (entry_seq w1 + 1)
                        (set_entries
                           (fun l => l ++ [mkEntry (entry_seq w1) None message_id
                                             (ch_id channel) (guild_id g)
                                             (msg_author msg)]) w1))) = false).
  { cbn. apply not_true_is_false. intros Hex. apply existsb_exists in Hex.
    destruct Hex as (s & Hs & Hx). unfold is_starrer in Hx.
    apply andb_true_iff in Hx. destruct Hx as [_ Hx]. apply Z.eqb_eq in Hx.
    exact (Hnone s Hs Hx). }
  rewrite Hex.
  unfold star_publish, bind at 1, gets at 1. unfold bind at 1, gets at 1.
  assert (Hcount : count_stars (entry_seq w1) (first_starred g channel message_id starrer_id msg w1) = 1).
  { unfold count_stars, first_starred. cbn. rewrite count_rows_app.
    rewrite (count_rows_none _ _ Hnone). unfold stars_of. cbn.
    now rewrite Z.eqb_refl. }
  fold (first_starred g channel message_id starrer_id msg w1).
  rewrite Hcount.
  change (starboard (first_starred g channel message_id starrer_id msg w1))
    with (starboard w1).
  rewrite Hc1. apply Z.ltb_lt in Hthr. now rewrite Hthr.
Qed.


Lemma world_ext (a b : World) :
  entries a = entries b -> starrers a = starrers b -> entry_seq a = entry_seq b ->
  starboard a = starboard b -> platform a = platform b ->
  next_snowflake a = next_snowflake b -> _message_cache a = _message_cache b ->
  _about_to_be_deleted a = _about_to_be_deleted b -> a = b.
Proof. destruct a, b. cbn. intros. subst. reflexivity. Qed.

Lemma first_star_undone depth channel message_id starrer_id w1 sb msg :
  well_formed g w1 -> unstar_gate g w1 channel sb -> ch_send_messages sb = true ->
  List.find (has_message_id message_id) (entries w1) = None ->
  _unstar_message (S depth) g channel message_id starrer_id
    (first_starred g channel message_id starrer_id msg w1)
  = (Ok tt, set_entry_seq (entry_seq w1 + 1) w1).
Proof.
  intros Hwf [Hsb Hl Hd] Hperm Hfind.
  set (w2 := first_starred g channel message_id starrer_id msg w1).
  set (entry := mkEntry (entry_seq w1) None message_id (ch_id channel)
                        (guild_id g) (msg_author msg)).
  set (row := mkStarrer starrer_id (entry_seq w1)).
  assert (Hgate : unstar_gate g w2 channel sb) by (split; assumption).
  rewrite (unstar_message_direct depth g channel message_id starrer_id w2 sb Hgate).
  rewrite Hperm.
  assert (Hrows : forall s, In s (starrers w1) -> starrer_entry_id s ≠ entry_seq w1).
  { intros s Hs. pose proof (wf_starrer_seq g w1 Hwf s Hs). lia. }
  assert (Hids : forall e, In e (entries w1) -> entry_id e ≠ entry_seq w1).
  { intros e He. pose proof (wf_entry_seq g w1 Hwf e He). lia. }
  pose proof (find_message_id_none _ _ Hfind) as Hmsg.
  (* the rows the statement on the starrers targets *)
  assert (Hold : forall s, In s (starrers w1) ->
                           unstar_target message_id starrer_id w2 s = false).
  { intros s Hs. unfold unstar_target. apply andb_false_iff. right.
    apply not_true_is_false. intros Hex. apply existsb_exists in Hex.
    destruct Hex as (e & He & Hx). apply andb_true_iff in Hx. destruct Hx as [Hx1 Hx2].
    cbn in He. apply in_app_iff in He. destruct He as [He|[<-|[]]].
    - apply Z.eqb_eq in Hx1. exact (Hmsg e He Hx1).
    - cbn in Hx2. apply Z.eqb_eq in Hx2. exact (Hrows s Hs (eq_sym Hx2)). }
  assert (Hnew : unstar_target message_id starrer_id w2 row = true).
  { unfold unstar_target. cbn. rewrite Z.eqb_refl. cbn.
    rewrite existsb_app. apply orb_true_iff. right. cbn.
    unfold has_message_id. cbn. now rewrite !Z.eqb_refl. }
  assert (Hentry : List.find (fun e => has_message_id message_id e
                                       && (entry_id e =? starrer_entry_id row))
                     (entries w2) = Some entry).
  { cbn. apply find_app_none.
    - intros e He. apply andb_false_iff. left. apply Z.eqb_neq. exact (Hmsg e He).
    - unfold has_message_id. cbn. now rewrite !Z.eqb_refl. }
  unfold unstar_commit, bind at 1, delete_starrer.
  change (starrers w2) with (starrers w1 ++ [row]).
  rewrite (find_app_none _ _ _ Hold Hnew), Hentry.
  cbn [entry bot_message_id starrer_entry_id row].
  set (w3 := set_starrers
               (List.filter
                  (fun s' => negb (unstar_target message_id starrer_id w2 s'))) w2).
  assert (Hs3 : starrers w3 = starrers w1).
  { subst w3. cbn. apply filter_app_last.
    - intros s Hs. now rewrite (Hold s Hs).
    - fold row. now rewrite Hnew. }
  assert (He3 : entries w3 = entries w1 ++ [entry]) by reflexivity.
  unfold unstar_retract, bind at 1, gets at 1.
  unfold count_stars at 1. rewrite Hs3, (count_rows_none _ _ Hrows).
  cbn [Z.eqb]. unfold bind, delete_entry_by_id, modify, ret.
  f_equal. unfold delete_entries.
  assert (Hgone : List.filter (fun e => negb (has_entry_id (entry_seq w1) e)) (entries w3)
                  = entries w1).
  { rewrite He3. apply filter_app_last.
    - intros e He. unfold has_entry_id. apply negb_true_iff, Z.eqb_neq. exact (Hids e He).
    - unfold has_entry_id. cbn. now rewrite Z.eqb_refl. }
  destruct (fk_cascade g); apply world_ext; cbn; try reflexivity; try assumption.
  match goal with |- List.filter ?f ?l = _ => change l with (starrers w3) end.
  rewrite Hs3. apply filter_all. intros s Hs.
  apply negb_true_iff, not_true_is_false.
  intros Hex. apply existsb_exists in Hex. destruct Hex as (e & He & Hx).
  apply filter_In in He. destruct He as [_ He]. unfold has_entry_id in He.
  apply Z.eqb_eq in He. unfold stars_of in Hx. apply Z.eqb_eq in Hx.
  apply (Hrows s Hs). congruence.
Qed.

End FirstStar.

(** X11: the first star of a message, on a starboard that asks for more
    than one: the call succeeds, the message gets an entry with the next
    entry id and no mirror message, the starrer is recorded, and nothing
    is posted. *)
Theorem first_star_below_threshold depth g now channel message_id starrer_id w sb msg w1 :
  well_formed g w -> star_gate g w channel sb ->
  get_message channel message_id w = (Ok (Some msg), w1) ->
  msg_author msg ≠ starrer_id -> starrable msg = true ->
  now - max_age (starboard w) <= msg_created_at msg ->
  List.find (has_message_id message_id) (entries w) = None ->
  1 < threshold (starboard w) ->
  exists w',
    _star_message (S depth) g now channel message_id starrer_id w = (Ok tt, w')
    /\ entries w'
       = entries w ++ [mkEntry (entry_seq w) None message_id (ch_id channel)
                               (guild_id g) (msg_author msg)]
    /\ starrers w' = starrers w ++ [mkStarrer starrer_id (entry_seq w)]
    /\ entry_seq w' = entry_seq w + 1
    /\ platform w' = platform w
    /\ _about_to_be_deleted w' = _about_to_be_deleted w.
Proof.
  intros Hwf Hgate Hgm Ha Hst Hage Hfind Hthr.
  exists (first_starred g channel message_id starrer_id msg w1).
  destruct (get_message_frame _ _ _ _ _ Hgm) as (He1 & Hs1 & Hq1 & _ & Hp1 & _ & Hd1).
  split; [now apply (first_star_run g depth now channel message_id starrer_id w sb)|].
  cbn. rewrite He1, Hs1, Hq1, Hp1, Hd1. repeat split.
Qed.

(** X12: a first star taken back.  On a starboard that asks for more than
    one star, the star of a message that had no entry followed by the
    unstar of the same user leaves both tables as they were: the entry is
    gone again, only its id is used up (and the message is cached). *)
Theorem star_then_unstar depth depth' g now channel message_id starrer_id w sb msg w1 :
  well_formed g w -> star_gate g w channel sb ->
  get_message channel message_id w = (Ok (Some msg), w1) ->
  msg_author msg ≠ starrer_id -> starrable msg = true ->
  now - max_age (starboard w) <= msg_created_at msg ->
  List.find (has_message_id message_id) (entries w) = None ->
  1 < threshold (starboard w) ->
  _unstar_message (S depth') g channel message_id starrer_id
    (snd (_star_message (S depth) g now channel message_id starrer_id w))
  = (Ok tt, set_entry_seq (entry_seq w + 1) w1)
  /\ entries w1 = entries w /\ starrers w1 = starrers w
  /\ platform w1 = platform w.
Proof.
  intros Hwf Hgate Hgm Ha Hst Hage Hfind Hthr.
  rewrite (first_star_run g depth now channel message_id starrer_id w sb msg w1)
    by assumption.
  destruct (get_message_frame _ _ _ _ _ Hgm) as (He1 & Hs1 & Hq1 & Hc1 & Hp1 & _).
  pose proof (wf_get_message g _ _ _ _ _ Hwf Hgm) as Hwf1.
  destruct Hgate as [Hsb Hl Hn Hd Hperm].
  cbn [snd]. rewrite <- Hq1. split; [|auto].
  apply (first_star_undone g depth' channel message_id starrer_id w1 sb msg);
    try assumption.
  - split; try assumption; now rewrite Hc1.
  - now rewrite He1.
Qed.

Lemma map_update_where_none sel b l :
  (forall e, In e l -> sel e = false) -> List.map (update_where sel b) l = l.
Proof.
  intros Hl. induction l as [|a l IH]; [reflexivity|]. cbn.
  unfold update_where at 1. rewrite (Hl a) by (left; reflexivity). f_equal.
  apply IH. intros e He. apply Hl. now right.
Qed.

Section FirstMirror.
Variable g : Guild.

Lemma first_star_mirror_run depth now channel message_id starrer_id w sb msg w1 :
  well_formed g w -> star_gate g w channel sb ->
  get_message channel message_id w = (Ok (Some msg), w1) ->
  msg_author msg ≠ starrer_id -> starrable msg = true ->
  now - max_age (starboard w) <= msg_created_at msg ->
  List.find (has_message_id message_id) (entries w) = None ->
  threshold (starboard w) <= 1 ->
  _star_message (S depth) g now channel message_id starrer_id w
  = (Ok tt, first_mirrored g now sb channel message_id starrer_id msg w1).
Proof.
  intros Hwf Hgate Hgm Hauthor Hst Hage Hfind Hthr.
  rewrite (star_message_direct depth g now channel message_id starrer_id w sb Hgate).
  rewrite Hgm.
  apply Z.eqb_neq in Hauthor. rewrite Hauthor, Hst. cbn [negb].
  apply Z.ltb_ge in Hage. rewrite Hage.
  destruct (get_message_frame _ _ _ _ _ Hgm) as (He1 & Hs1 & Hq1 & Hc1 & Hp1 & Hn1 & Hd1).
  pose proof (wf_get_message g _ _ _ _ _ Hwf Hgm) as Hwf1.
  assert (Hnone : forall s, In s (starrers w1) -> starrer_entry_id s ≠ entry_seq w1).
  { intros s Hs. pose proof (wf_starrer_seq g w1 Hwf1 s Hs). lia. }
  pose proof (find_message_id_none _ _ Hfind) as Hmsg.
  unfold star_commit, bind at 1, insert_entry_and_starrer.
  rewrite He1, Hfind.
  assert (Hex : existsb (is_starrer starrer_id (entry_seq w1))
                  (starrers
                     (set_entry_seq (entry_seq w1 + 1)
                        (set_entries
                           (fun l => l ++ [mkEntry (entry_seq w1) None message_id
                                             (ch_id channel) (guild_id g)
                                             (msg_author msg)]) w1))) = false).
  { cbn. apply not_true_is_false. intros Hex. apply existsb_exists in Hex.
    destruct Hex as (s & Hs & Hx). unfold is_starrer in Hx.
    apply andb_true_iff in Hx. destruct Hx as [_ Hx]. apply Z.eqb_eq in Hx.
    exact (Hnone s Hs Hx). }
  rewrite Hex.
  fold (first_starred g channel message_id starrer_id msg w1).
  unfold first_mirrored, first_mirror.
  set (w2 := first_starred g channel message_id starrer_id msg w1).
  set (entry := mkEntry (entry_seq w1) None message_id (ch_id channel)
                        (guild_id g) (msg_author msg)).
  assert (Hcount : count_stars (entry_seq w1) w2 = 1).
  { unfold count_stars, w2, first_starred. cbn. rewrite count_rows_app.
    rewrite (count_rows_none _ _ Hnone). unfold stars_of. cbn.
    now rewrite Z.eqb_refl. }
  unfold star_publish, bind at 1, gets at 1. unfold bind at 1, gets at 1.
  rewrite Hcount.
  change (starboard w2) with (starboard w1). rewrite Hc1.
  assert (Hlt : (1 <? threshold (starboard w)) = false) by (apply Z.ltb_ge; lia).
  rewrite Hlt.
  replace (get_emoji_message msg 1)
    with (StarText WHITE_MEDIUM_STAR None (msg_channel msg) (msg_id msg),
          mkEmbed (msg_content msg) 16775396)
    by (unfold get_emoji_message; f_equal; f_equal; vm_compute; reflexivity).
  unfold bind at 1, select_bot_message_id at 1.
  assert (Hentry : List.find (has_message_id message_id) (entries w2) = Some entry).
  { unfold w2, first_starred. cbn. rewrite <- He1 in Hmsg. apply find_app_none.
    - intros e He. apply Z.eqb_neq. exact (Hmsg e He).
    - unfold has_message_id. cbn. apply Z.eqb_refl. }
  rewrite Hentry. cbn [entry bot_message_id].
  reflexivity.
Qed.

End FirstMirror.

(** X13: the first star of a message on a starboard whose threshold is
    one: the mirror message is posted in the starboard channel under the
    next id of the platform, with the white star, no count, and the
    lightest colour but one; the new entry records that id. *)
Theorem first_star_posts_mirror depth g now channel message_id starrer_id w sb msg w1 :
  well_formed g w -> star_gate g w channel sb ->
  get_message channel message_id w = (Ok (Some msg), w1) ->
  msg_author msg ≠ starrer_id -> starrable msg = true ->
  now - max_age (starboard w) <= msg_created_at msg ->
  List.find (has_message_id message_id) (entries w) = None ->
  threshold (starboard w) <= 1 ->
  exists w',
    _star_message (S depth) g now channel message_id starrer_id w = (Ok tt, w')
    /\ entries w'
       = entries w ++ [mkEntry (entry_seq w) (Some (next_snowflake w)) message_id
                               (ch_id channel) (guild_id g) (msg_author msg)]
    /\ starrers w' = starrers w ++ [mkStarrer starrer_id (entry_seq w)]
    /\ platform w'
       = <[next_snowflake w :=
             mkMessage (next_snowflake w) (ch_id sb) (guild_me g)
               (StarText WHITE_MEDIUM_STAR None (msg_channel msg) (msg_id msg))
               0 MT_default now (Some (mkEmbed (msg_content msg) 16775396))]>
           (platform w)
    /\ next_snowflake w' = next_snowflake w + 1
    /\ _about_to_be_deleted w' = _about_to_be_deleted w.
Proof.
  intros Hwf Hgate Hgm Hauthor Hst Hage Hfind Hthr.
  exists (first_mirrored g now sb channel message_id starrer_id msg w1).
  split; [now apply first_star_mirror_run|].
  destruct (get_message_frame _ _ _ _ _ Hgm) as (He1 & Hs1 & Hq1 & Hc1 & Hp1 & Hn1 & Hd1).
  pose proof (find_message_id_none _ _ Hfind) as Hmsg.
  unfold first_mirrored, first_mirror, first_starred. cbn.
  rewrite List.map_app. cbn.
  rewrite map_update_where_none
    by (rewrite <- He1 in Hmsg; intros e He; apply Z.eqb_neq; exact (Hmsg e He)).
  unfold update_where, has_message_id. cbn. rewrite Z.eqb_refl.
  unfold with_bot_message_id. cbn.
  rewrite He1, Hs1, Hq1, Hp1, Hn1, Hd1. repeat split.
Qed.

(** ** The listeners *)

Section Listeners.
Variable g : Guild.

Lemma delete_entries_mirror_iff w cascade sel :
  well_formed g w -> mirror_iff w -> mirror_iff (delete_entries cascade sel w).
Proof.
  intros Hwf Hiff e He.
  destruct (delete_entries_frame cascade sel w) as (He2 & _ & _ & _ & _ & Hc2).
  cbn zeta in He2, Hc2. rewrite He2 in He. apply filter_In in He.
  destruct He as [He Hsel]. apply negb_true_iff in Hsel.
  pose proof (Hiff e He) as Hs. unfold settled, count_stars in *. rewrite Hc2.
  replace (count_rows (entry_id e) (starrers (delete_entries cascade sel w)))
    with (count_rows (entry_id e) (starrers w)); [exact Hs|].
  unfold delete_entries. destruct cascade; [|reflexivity]. cbn.
  symmetry. apply count_rows_filter_same.
  intros s Hs' Hst. apply negb_true_iff.
  destruct (existsb _ _) eqn:Hex; [|reflexivity]. exfalso.
  apply existsb_exists in Hex. destruct Hex as (e0 & He0 & Hst0).
  apply filter_In in He0. destruct He0 as [He0 Hsel0].
  unfold stars_of in *. apply Z.eqb_eq in Hst, Hst0.
  assert (e0 = e) by (apply (wf_entry_id g w Hwf); congruence).
  subst e0. congruence.
Qed.

Lemma own_delete_event b channel_id w :
  b ∈ _about_to_be_deleted w ->
  on_raw_message_delete g b channel_id w
  = (Ok tt, set_about_to_be_deleted (fun s => s ∖ {[ b ]}) w).
Proof.
  intros Hb. unfold on_raw_message_delete, bind at 1, gets at 1.
  destruct (decide (b ∈ _about_to_be_deleted w)); [reflexivity|contradiction].
Qed.

Lemma foreign_delete_event b channel_id w sb :
  b ∉ _about_to_be_deleted w ->
  starboard_channel g (starboard w) = Some sb ->
  on_raw_message_delete g b channel_id w
  = (Ok tt, if ch_id sb =? channel_id
            then delete_entries (fk_cascade g) (is_bot_message b) w
            else w).
Proof.
  intros Hb Hsb. unfold on_raw_message_delete, bind at 1, gets at 1.
  destruct (decide (b ∈ _about_to_be_deleted w)); [contradiction|].
  unfold bind, gets. rewrite Hsb.
  destruct (ch_id sb =? channel_id); reflexivity.
Qed.

Lemma delete_entries_ext cascade sel sel' w :
  (forall e, sel e = sel' e) ->
  delete_entries cascade sel w = delete_entries cascade sel' w.
Proof.
  intros H. unfold delete_entries. rewrite (List.filter_ext sel sel' H).
  assert (Hn : List.filter (fun e => negb (sel e)) (entries w)
               = List.filter (fun e => negb (sel' e)) (entries w)).
  { apply List.filter_ext. intros e. now rewrite H. }
  destruct cascade; apply world_ext; cbn; try reflexivity; exact Hn.
Qed.

End Listeners.

(** X14: the removal of a mirror message by the cog itself does not cost
    the entry.  When an unstar leaves a count below the threshold and
    above zero and deletes the mirror message, the deletion event that
    follows finds the id in the pending set: it takes the id out and
    leaves every table as the unstar left it, the entry without a mirror
    id. *)
Theorem own_removal_keeps_entry depth g channel message_id starrer_id w sb eid b w1
    bot_message w3 channel_id :
  unstar_gate g w channel sb ->
  ch_send_messages sb = true ->
  delete_starrer message_id starrer_id w = (Ok (Some (eid, Some b)), w1) ->
  0 < count_stars eid w1 ->
  count_stars eid w1 < threshold (starboard w) ->
  get_message sb b w1 = (Ok (Some bot_message), w3) ->
  let w' := snd (_unstar_message (S depth) g channel message_id starrer_id w) in
  on_raw_message_delete g b channel_id w'
  = (Ok tt, set_about_to_be_deleted (fun s => s ∖ {[ b ]}) w')
  /\ mirror_nulled eid w'.
Proof.
  intros Hgate Hperm Hdel Hpos Hlt Hget w'.
  pose proof (unstar_commit_outcome g sb channel message_id starrer_id w
                (fst (unstar_commit g sb channel message_id starrer_id w))
                (snd (unstar_commit g sb channel message_id starrer_id w))
                (surjective_pairing _)) as Hout.
  assert (Hw' : w' = snd (unstar_commit g sb channel message_id starrer_id w)).
  { unfold w'.
    rewrite (unstar_message_direct depth g channel message_id starrer_id w sb Hgate).
    now rewrite Hperm. }
  rewrite <- Hw' in Hout. unfold unstar_outcome in Hout. rewrite Hdel in Hout.
  destruct Hout as (_ & _ & Hout).
  assert (Hz : (count_stars eid w1 =? 0) = false) by (apply Z.eqb_neq; lia).
  rewrite Hz, Hget in Hout. apply Z.ltb_lt in Hlt. rewrite Hlt in Hout.
  destruct Hout as (Hin & Hnull & _).
  split; [now apply own_delete_event|exact Hnull].
Qed.

(** X15: a mirror message deleted by somebody else is repaired by the
    deletion event.  From a world that keeps the invariants, with the id
    not pending, the deletion of a message followed by
    [on_raw_message_delete] gives a world that keeps them again: an entry
    whose mirror message it was is dropped. *)
Theorem external_deletion_repaired g w sb b m :
  well_formed g w -> mirror_iff w ->
  starboard_channel g (starboard w) = Some sb ->
  b ∉ _about_to_be_deleted w ->
  platform w !! b = Some m ->
  let w' := snd (on_raw_message_delete g b (msg_channel m)
                   (set_platform (delete b) w)) in
  well_formed g w' /\ mirror_iff w'
  /\ forall e, In e (entries w') -> bot_message_id e ≠ Some b.
Proof.
  intros Hwf Hiff Hsb Hb Hm w'. subst w'.
  rewrite (foreign_delete_event g b (msg_channel m) (set_platform (delete b) w) sb)
    by assumption.
  cbn [snd]. destruct (ch_id sb =? msg_channel m) eqn:Hch.
  - (* a message of the starboard channel *)
    assert (Hcomm : delete_entries (fk_cascade g) (is_bot_message b)
                      (set_platform (delete b) w)
                    = set_platform (delete b)
                        (delete_entries (fk_cascade g) (is_bot_message b) w)).
    { unfold delete_entries. destruct (fk_cascade g); reflexivity. }
    rewrite Hcomm.
    assert (Hleft : forall e,
               In e (entries (delete_entries (fk_cascade g) (is_bot_message b) w)) ->
               bot_message_id e ≠ Some b).
    { intros e He.
      destruct (delete_entries_frame (fk_cascade g) (is_bot_message b) w) as (He2 & _).
      cbn zeta in He2. rewrite He2 in He. apply filter_In in He.
      destruct He as [_ Hn]. intros Hbe. unfold is_bot_message in Hn.
      rewrite Hbe, Z.eqb_refl in Hn. discriminate. }
    split; [|split].
    + apply wf_delete_message; [now apply wf_delete_entries|exact Hleft].
    + eapply mirror_iff_frame; [| | |apply (delete_entries_mirror_iff g); eassumption];
        reflexivity.
    + exact Hleft.
  - (* a message of another channel: the mirror of no entry *)
    assert (Hnone : forall e, In e (entries w) -> bot_message_id e ≠ Some b).
    { intros e He Hbe.
      destruct (wf_live g w Hwf sb e b Hsb He Hbe) as (m' & Hm' & Hc').
      rewrite Hm in Hm'. injection Hm' as <-.
      apply Z.eqb_neq in Hch. congruence. }
    split; [|split].
    + now apply wf_delete_message.
    + eapply mirror_iff_frame; [| | |exact Hiff]; reflexivity.
    + exact Hnone.
Qed.

(** X16: a bulk deletion of one message is the deletion of that message:
    [on_raw_bulk_message_delete] on a singleton does what
    [on_raw_message_delete] does. *)
Theorem bulk_delete_of_one g b channel_id w :
  on_raw_bulk_message_delete g {[ b ]} channel_id w
  = on_raw_message_delete g b channel_id w.
Proof.
  unfold on_raw_bulk_message_delete, on_raw_message_delete, bind at 1 3, gets at 1 3.
  destruct (decide ({[ b ]} ⊆ _about_to_be_deleted w)) as [Hs|Hs],
           (decide (b ∈ _about_to_be_deleted w)) as [Hb|Hb].
  - reflexivity.
  - exfalso. apply Hb, Hs, elem_of_singleton. reflexivity.
  - exfalso. apply Hs. intros x Hx. apply elem_of_singleton in Hx. now subst x.
  - unfold bind, gets. destruct (starboard_channel g (starboard w)) as [sb|];
      [|reflexivity].
    destruct (negb (ch_id sb =? channel_id)); [reflexivity|].
    unfold delete_entry_by_bot_message_id, modify. f_equal.
    assert (Hsel : forall e, is_bot_message_any {[ b ]} e = is_bot_message b e).
    { intros e. unfold is_bot_message_any, is_bot_message.
      destruct (bot_message_id e) as [x|]; [|reflexivity].
      destruct (Z.eqb_spec x b) as [->|Hne].
      - apply bool_decide_eq_true. apply elem_of_singleton. reflexivity.
      - apply bool_decide_eq_false. intros Hx. apply elem_of_singleton in Hx.
        contradiction. }
    now apply delete_entries_ext.
Qed.

Lemma reaction_clear_run c g channel_id message_id w channel sb :
  well_formed g w ->
  get_channel_or_thread g channel_id = Some channel ->
  text_or_thread c channel = true ->
  starboard_channel g (starboard w) = Some sb ->
  exists w',
    on_raw_reaction_clear c (Some g) channel_id message_id w = (Ok tt, w')
    /\ entries w' = List.filter (fun e => negb (has_message_id message_id e)) (entries w)
    /\ platform w'
       = match List.find (has_message_id message_id) (entries w) with
         | Some t =>
             match bot_message_id t with
             | Some b => delete b (platform w)
             | None => platform w
             end
         | None => platform w
         end
    /\ _about_to_be_deleted w' = _about_to_be_deleted w
    /\ starboard w' = starboard w.
Proof.
  intros Hwf Hch Htext Hsb. unfold on_raw_reaction_clear.
  rewrite Hch, Htext. cbn [negb]. unfold bind at 1, gets at 1. rewrite Hsb.
  unfold bind at 1, delete_entry_returning.
  destruct (List.find (has_message_id message_id) (entries w)) as [t|] eqn:Hfind.
  - destruct (delete_entries_frame (fk_cascade g) (has_message_id message_id) w)
      as (He2 & _ & Hp2 & _ & Ha2 & Hc2). cbn zeta in He2, Hp2, Ha2, Hc2.
    pose proof (wf_delete_entries g w (fk_cascade g) (has_message_id message_id) Hwf)
      as Hwf2.
    set (w2 := delete_entries (fk_cascade g) (has_message_id message_id) w) in *.
    destruct (bot_message_id t) as [b|] eqn:Hb.
    + apply find_message_id in Hfind. destruct Hfind as [Ht _].
      destruct (wf_live g w Hwf sb t b Hsb Ht Hb) as (cur & Hcur & Hcc).
      rewrite <- Hp2 in Hcur.
      destruct (get_message_present g w2 sb b cur Hwf2 Hcur Hcc)
        as (m & w3 & Hgm & Hid).
      unfold bind at 1. rewrite Hgm.
      destruct (get_message_frame _ _ _ _ _ Hgm)
        as (He3 & _ & _ & Hc3 & Hp3 & _ & Ha3).
      unfold delete_message. rewrite Hid, Hp3, Hcur.
      eexists. split; [reflexivity|]. cbn.
      rewrite He3, Hp3, Ha3, Hc3, He2, Hp2, Ha2, Hc2. auto.
    + eexists. split; [reflexivity|]. auto.
  - eexists. split; [reflexivity|]. split; [|auto].
    symmetry. apply filter_all. intros e He. apply negb_true_iff, Z.eqb_neq.
    exact (find_message_id_none _ _ Hfind e He).
Qed.

(** X17: when every reaction of a message is cleared at once, the entry
    of the message is dropped and its mirror message is deleted from the
    starboard channel; the id of the mirror is not put into the pending
    set. *)
Theorem reaction_clear_drops_entry c g channel_id message_id w channel sb :
  well_formed g w ->
  get_channel_or_thread g channel_id = Some channel ->
  text_or_thread c channel = true ->
  starboard_channel g (starboard w) = Some sb ->
  exists w',
    on_raw_reaction_clear c (Some g) channel_id message_id w = (Ok tt, w')
    /\ entries w' = List.filter (fun e => negb (has_message_id message_id e)) (entries w)
    /\ platform w'
       = match List.find (has_message_id message_id) (entries w) with
         | Some t =>
             match bot_message_id t with
             | Some b => delete b (platform w)
             | None => platform w
             end
         | None => platform w
         end
    /\ _about_to_be_deleted w' = _about_to_be_deleted w.
Proof.
  intros Hwf Hch Htext Hsb.
  destruct (reaction_clear_run c g channel_id message_id w channel sb Hwf Hch Htext Hsb)
    as (w' & H1 & H2 & H3 & H4 & _).
  exists w'. auto.
Qed.

Lemma filter_none {A} (f : A -> bool) l :
  (forall x, In x l -> f x = false) -> List.filter f l = [].
Proof.
  intros Hl. induction l as [|a l IH]; [reflexivity|]. cbn.
  rewrite (Hl a) by (left; reflexivity). apply IH. intros x Hx. apply Hl. now right.
Qed.

Lemma delete_entries_none cascade sel w :
  (forall e, In e (entries w) -> sel e = false) -> delete_entries cascade sel w = w.
Proof.
  intros Hsel. unfold delete_entries.
  assert (Hkeep : List.filter (fun e => negb (sel e)) (entries w) = entries w).
  { apply filter_all. intros e He. now rewrite (Hsel e He). }
  assert (Hgone : List.filter sel (entries w) = []) by now apply filter_none.
  rewrite Hgone. destruct cascade; apply world_ext; cbn; try reflexivity;
    try exact Hkeep.
  apply filter_all. reflexivity.
Qed.

(** X27: after the reactions of a message have been cleared, the deletion
    event of its mirror message changes nothing.  The mirror id was not
    marked as pending, so the listener runs its statement; the entry is
    gone already and no other entry has that mirror. *)
Theorem cleared_mirror_event_is_idle c g channel_id message_id w channel sb t b :
  well_formed g w ->
  get_channel_or_thread g channel_id = Some channel ->
  text_or_thread c channel = true ->
  starboard_channel g (starboard w) = Some sb ->
  List.find (has_message_id message_id) (entries w) = Some t ->
  bot_message_id t = Some b ->
  b ∉ _about_to_be_deleted w ->
  let w' := snd (on_raw_reaction_clear c (Some g) channel_id message_id w) in
  platform w' = delete b (platform w)
  /\ on_raw_message_delete g b (ch_id sb) w' = (Ok tt, w').
Proof.
  intros Hwf Hch Htext Hsb Hfind Hb Hpend w'.
  destruct (reaction_clear_run c g channel_id message_id w channel sb Hwf Hch Htext Hsb)
    as (w0 & Hrun & He & Hp & Ha & Hc).
  assert (Hw' : w' = w0) by (unfold w'; now rewrite Hrun).
  rewrite Hw'. clear Hw' w'. rewrite Hfind, Hb in Hp. split; [exact Hp|].
  rewrite (foreign_delete_event g b (ch_id sb) w0 sb)
    by (rewrite ?Ha, ?Hc; assumption).
  rewrite Z.eqb_refl. f_equal. apply delete_entries_none.
  intros e Hin. rewrite He in Hin. apply filter_In in Hin. destruct Hin as [Hin Hn].
  unfold is_bot_message. destruct (bot_message_id e) as [x|] eqn:Hx; [|reflexivity].
  apply Z.eqb_neq. intros ->.
  apply find_message_id in Hfind. destruct Hfind as [Ht Hm].
  assert (e = t) by (apply (wf_mirror g w Hwf e t b); assumption). subst e.
  unfold has_message_id in Hn. rewrite Hm, Z.eqb_refl in Hn. discriminate.
Qed.

(** X28: clearing the reactions keeps the tables and the platform in
    step: from a consistent world in which every entry has a mirror
    message exactly when its count is at the threshold or above, the
    world after [on_raw_reaction_clear] is consistent and has that
    property again. *)
Theorem reaction_clear_keeps_invariants c g channel_id message_id w :
  well_formed g w -> mirror_iff w ->
  let w' := snd (on_raw_reaction_clear c (Some g) channel_id message_id w) in
  well_formed g w' /\ mirror_iff w'.
Proof.
  intros Hwf Hiff w'. subst w'.
  destruct (on_raw_reaction_clear c (Some g) channel_id message_id w) as [r w'] eqn:Hrun.
  cbn [snd]. unfold on_raw_reaction_clear in Hrun.
  destruct (get_channel_or_thread g channel_id) as [channel|];
    [|inversion Hrun; subst; auto].
  destruct (negb (text_or_thread c channel)); [inversion Hrun; subst; auto|].
  unfold bind at 1, gets at 1 in Hrun.
  destruct (starboard_channel g (starboard w)) as [sb|] eqn:Hsb;
    [|inversion Hrun; subst; auto].
  unfold bind at 1, delete_entry_returning in Hrun.
  destruct (List.find (has_message_id message_id) (entries w)) as [t|] eqn:Hfind;
    [|inversion Hrun; subst; auto].
  destruct (delete_entries_frame (fk_cascade g) (has_message_id message_id) w)
    as (He2 & _ & Hp2 & _ & _ & Hc2). cbn zeta in He2, Hp2, Hc2.
  pose proof (wf_delete_entries g w (fk_cascade g) (has_message_id message_id) Hwf)
    as Hwf2.
  pose proof (delete_entries_mirror_iff g w (fk_cascade g) (has_message_id message_id)
                Hwf Hiff) as Hiff2.
  set (w2 := delete_entries (fk_cascade g) (has_message_id message_id) w) in *.
  destruct (bot_message_id t) as [b|] eqn:Hb; [|inversion Hrun; subst; auto].
  apply find_message_id in Hfind. destruct Hfind as [Ht Hm].
  destruct (wf_live g w Hwf sb t b Hsb Ht Hb) as (cur & Hcur & Hcc).
  rewrite <- Hp2 in Hcur.
  destruct (get_message_present g w2 sb b cur Hwf2 Hcur Hcc) as (m & w3 & Hgm & Hid).
  unfold bind at 1 in Hrun. rewrite Hgm in Hrun.
  destruct (get_message_frame _ _ _ _ _ Hgm) as (He3 & Hs3 & _ & Hc3 & Hp3 & _).
  pose proof (wf_get_message g _ _ _ _ _ Hwf2 Hgm) as Hwf3.
  unfold delete_message in Hrun. rewrite Hid, Hp3, Hcur in Hrun.
  inversion Hrun; subst r w'. split.
  - apply wf_delete_message; [exact Hwf3|].
    intros e He Hbe. rewrite He3, He2 in He. apply filter_In in He.
    destruct He as [He Hn].
    assert (e = t) by (apply (wf_mirror g w Hwf e t b); assumption). subst e.
    unfold has_message_id in Hn. rewrite Hm, Z.eqb_refl in Hn. discriminate.
  - apply (mirror_iff_frame w2); [exact He3|exact Hs3|exact Hc3|exact Hiff2].
Qed.

Lemma reaction_action_swallows c fmt now guild payload w e :
  fst (reaction_action c fmt now guild payload w) ≠ Raise (Star e).
Proof.
  unfold reaction_action.
  destruct (negb _); [discriminate|].
  destruct guild as [g|]; [|discriminate].
  destruct (get_channel_or_thread g (payload_channel_id payload)) as [channel|];
    [|discriminate].
  destruct (negb (text_or_thread c channel)); [discriminate|].
  destruct (match payload_member payload with
            | Some m => Some m
            | None => get_or_fetch_member c g (payload_user_id payload)
            end) as [u|]; [|discriminate].
  destruct (member_bot u); [discriminate|].
  unfold swallow_star_error.
  destruct fmt.
  - destruct (star_message g now channel (payload_message_id payload)
                (payload_user_id payload) true w) as [[[]|[]] w']; discriminate.
  - destruct (unstar_message g channel (payload_message_id payload)
                (payload_user_id payload) true w) as [[[]|[]] w']; discriminate.
Qed.

(** X18: the reaction listeners swallow every [StarError]: whatever
    reaction is added or removed, neither listener ends with one. *)
Theorem reaction_never_star_error c now guild payload w e :
  fst (on_raw_reaction_add c now guild payload w) ≠ Raise (Star e)
  /\ fst (on_raw_reaction_remove c now guild payload w) ≠ Raise (Star e).
Proof. split; apply reaction_action_swallows. Qed.


(** ** No user is counted twice *)

Section Distinct.
Variable g : Guild.

Lemma nodup_snoc {A} (l : list A) x :
  List.NoDup l -> ~ In x l -> List.NoDup (l ++ [x]).
Proof.
  induction 1 as [|a l Ha Hl IH]; intros Hx; cbn.
  - constructor; [intros []|constructor].
  - constructor.
    + intros Hin. apply in_app_iff in Hin. destruct Hin as [Hin|[->|[]]].
      * contradiction.
      * apply Hx. now left.
    + apply IH. intros Hin. apply Hx. now right.
Qed.

Lemma insert_nodup message_id channel guild author starrer_id w o w' :
  insert_entry_and_starrer message_id channel guild author starrer_id w = (o, w') ->
  List.NoDup (starrers w) -> List.NoDup (starrers w').
Proof.
  unfold insert_entry_and_starrer. intros Hins Hnd.
  assert (Hrow : forall eid rows,
             existsb (is_starrer starrer_id eid) rows = false ->
             ~ In (mkStarrer starrer_id eid) rows).
  { intros eid rows Hex Hin.
    assert (existsb (is_starrer starrer_id eid) rows = true); [|congruence].
    apply existsb_exists. eexists. split; [exact Hin|].
    unfold is_starrer. cbn. now rewrite !Z.eqb_refl. }
  destruct (List.find (has_message_id message_id) (entries w)) as [e|].
  - destruct (existsb _ _) eqn:Hex; inversion Hins; subst; [assumption|].
    cbn. apply nodup_snoc; [assumption|]. now apply Hrow.
  - destruct (existsb _ _) eqn:Hex; inversion Hins; subst; [assumption|].
    cbn. apply nodup_snoc; [assumption|]. now apply Hrow.
Qed.

Lemma delete_entries_nodup cascade sel w :
  List.NoDup (starrers w) -> List.NoDup (starrers (delete_entries cascade sel w)).
Proof.
  intros H. unfold delete_entries. destruct cascade; cbn; [|assumption].
  now apply List.NoDup_filter.
Qed.

Lemma star_publish_nodup now sb message_id msg eid w r w' :
  star_publish g now sb message_id msg eid w = (r, w') ->
  List.NoDup (starrers w) -> List.NoDup (starrers w').
Proof.
  unfold star_publish, bind at 1, gets at 1. unfold bind at 1, gets at 1.
  destruct (count_stars eid w <? threshold (starboard w));
    [intros H; inversion H; subst; auto|].
  destruct (get_emoji_message msg (count_stars eid w)) as [content embed].
  unfold bind at 1, select_bot_message_id at 1.
  destruct (List.find (has_message_id message_id) (entries w)) as [e|];
    [|intros H; inversion H; subst; auto].
  destruct (bot_message_id e) as [b|].
  - unfold bind at 1.
    destruct (get_message_total sb b w) as (o & w1 & Hgm). rewrite Hgm.
    destruct (get_message_frame _ _ _ _ _ Hgm) as (_ & Hs1 & _).
    destruct o as [m|].
    + unfold edit. destruct (platform w1 !! msg_id m);
        intros H; inversion H; subst; cbn; now rewrite Hs1.
    + unfold delete_entry_by_message_id, modify. intros H Hnd. inversion H; subst.
      apply delete_entries_nodup. now rewrite Hs1.
  - unfold bind, send, update_bot_message_id, modify.
    intros H; inversion H; subst; auto.
Qed.

Lemma star_message_nodup depth now channel message_id starrer_id w r w' :
  _star_message depth g now channel message_id starrer_id w = (r, w') ->
  List.NoDup (starrers w) -> List.NoDup (starrers w').
Proof.
  revert channel message_id. induction depth as [|depth IH];
    intros channel message_id Hrun Hnd.
  { inversion Hrun; subst; auto. }
  cbn [_star_message] in Hrun. unfold bind at 1, gets at 1 in Hrun.
  destruct (starboard_channel g (starboard w)) as [sb|];
    [|inversion Hrun; subst; auto].
  destruct (locked (starboard w)); [inversion Hrun; subst; auto|].
  destruct (ch_nsfw channel && negb (ch_nsfw sb)); [inversion Hrun; subst; auto|].
  destruct (ch_id channel =? ch_id sb).
  - unfold bind at 1, select_origin, gets in Hrun.
    destruct (List.find (is_bot_message message_id) (entries w)) as [t|];
      [|inversion Hrun; subst; auto].
    destruct (get_channel_or_thread g (entry_channel_id t)) as [ch|];
      [|inversion Hrun; subst; auto].
    eapply IH; eassumption.
  - destruct (negb (ch_send_messages sb)); [inversion Hrun; subst; auto|].
    unfold bind at 1 in Hrun.
    destruct (get_message_total channel message_id w) as (o & w1 & Hgm).
    rewrite Hgm in Hrun.
    destruct (get_message_frame _ _ _ _ _ Hgm) as (_ & Hs1 & _).
    rewrite <- Hs1 in Hnd.
    destruct o as [msg|]; [|inversion Hrun; subst; auto].
    destruct (msg_author msg =? starrer_id); [inversion Hrun; subst; auto|].
    destruct (_ || _); [inversion Hrun; subst; auto|].
    destruct (msg_created_at msg <? _); [inversion Hrun; subst; auto|].
    unfold star_commit, bind at 1 in Hrun.
    destruct (insert_entry_and_starrer message_id (ch_id channel) (guild_id g)
                (msg_author msg) starrer_id w1) as [[eid|] w2] eqn:Hins.
    + eapply star_publish_nodup; [exact Hrun|].
      eapply insert_nodup; eassumption.
    + inversion Hrun; subst. eapply insert_nodup; eassumption.
Qed.

Lemma unstar_retract_nodup sb channel message_id eid bot w r w' :
  unstar_retract g sb channel message_id eid bot w = (r, w') ->
  List.NoDup (starrers w) -> List.NoDup (starrers w').
Proof.
  unfold unstar_retract, bind at 1, gets at 1. unfold bind at 1.
  set (w2 := snd ((if count_stars eid w =? 0
                   then delete_entry_by_id (fk_cascade g) eid else ret tt) w)).
  assert (Hstep : (if count_stars eid w =? 0
                   then delete_entry_by_id (fk_cascade g) eid else ret tt) w
                  = (Ok tt, w2)).
  { subst w2. destruct (count_stars eid w =? 0); reflexivity. }
  assert (Hnd2 : List.NoDup (starrers w) -> List.NoDup (starrers w2)).
  { subst w2. destruct (count_stars eid w =? 0); cbn; [|auto].
    apply delete_entries_nodup. }
  rewrite Hstep. intros Hrun Hnd. apply Hnd2 in Hnd. clear Hnd2 Hstep.
  destruct bot as [b|]; [|inversion Hrun; subst; auto].
  unfold bind at 1 in Hrun.
  destruct (get_message_total sb b w2) as (o & w3 & Hg3). rewrite Hg3 in Hrun.
  destruct (get_message_frame _ _ _ _ _ Hg3) as (_ & Hs3 & _).
  rewrite <- Hs3 in Hnd.
  destruct o as [bot_message|]; [|inversion Hrun; subst; auto].
  unfold bind at 1, gets at 1 in Hrun.
  destruct (count_stars eid w <? threshold (starboard w3)).
  - unfold bind at 1, modify at 1 in Hrun. unfold bind at 1 in Hrun.
    destruct (negb (count_stars eid w =? 0));
      cbn [null_bot_message_id modify ret] in Hrun;
      unfold delete_message in Hrun; cbn in Hrun;
      match type of Hrun with context [platform ?p !! ?k] =>
        destruct (platform p !! k) end;
      inversion Hrun; subst; exact Hnd.
  - unfold bind at 1 in Hrun.
    destruct (get_message_total channel message_id w3) as (o & w4 & Hg4).
    rewrite Hg4 in Hrun.
    destruct (get_message_frame _ _ _ _ _ Hg4) as (_ & Hs4 & _).
    rewrite <- Hs4 in Hnd.
    destruct o as [msg|]; [|inversion Hrun; subst; auto].
    destruct (get_emoji_message msg (count_stars eid w)) as [content embed].
    unfold edit in Hrun. destruct (platform w4 !! msg_id bot_message);
      inversion Hrun; subst; exact Hnd.
Qed.

Lemma unstar_message_nodup depth channel message_id starrer_id w r w' :
  _unstar_message depth g channel message_id starrer_id w = (r, w') ->
  List.NoDup (starrers w) -> List.NoDup (starrers w').
Proof.
  revert channel message_id. induction depth as [|depth IH];
    intros channel message_id Hrun Hnd.
  { inversion Hrun; subst; auto. }
  cbn [_unstar_message] in Hrun. unfold bind at 1, gets at 1 in Hrun.
  destruct (starboard_channel g (starboard w)) as [sb|];
    [|inversion Hrun; subst; auto].
  destruct (locked (starboard w)); [inversion Hrun; subst; auto|].
  destruct (ch_id channel =? ch_id sb).
  - unfold bind at 1, select_origin, gets in Hrun.
    destruct (List.find (is_bot_message message_id) (entries w)) as [t|];
      [|inversion Hrun; subst; auto].
    destruct (get_channel_or_thread g (entry_channel_id t)) as [ch|];
      [|inversion Hrun; subst; auto].
    eapply IH; eassumption.
  - destruct (negb (ch_send_messages sb)); [inversion Hrun; subst; auto|].
    unfold unstar_commit, bind at 1 in Hrun.
    unfold delete_starrer at 1 in Hrun.
    destruct (List.find (unstar_target message_id starrer_id w) (starrers w))
      as [s|]; [|inversion Hrun; subst; auto].
    eapply unstar_retract_nodup; [exact Hrun|].
    cbn. now apply List.NoDup_filter.
Qed.

Lemma apply_event_nodup w ev :
  List.NoDup (starrers w) -> List.NoDup (starrers (apply_event g w ev)).
Proof.
  intros Hnd. destruct ev as [now ch m u v|ch m u v|ch a c n t now|m|now ch s];
    unfold apply_event.
  - unfold star_message.
    destruct (v && config_cog g && is_plonked g u ch); [auto|].
    destruct (v && config_cog g && is_command_blocked g (ch_id ch)); [auto|].
    destruct (_star_message (recursion_limit g) g now ch m u w) as [r w'] eqn:Hrun.
    eapply star_message_nodup; eassumption.
  - unfold unstar_message.
    destruct (v && config_cog g && is_plonked g u ch); [auto|].
    destruct (v && config_cog g && is_command_blocked g (ch_id ch)); [auto|].
    destruct (_unstar_message (recursion_limit g) g ch m u w) as [r w'] eqn:Hrun.
    eapply unstar_message_nodup; eassumption.
  - exact Hnd.
  - cbn. destruct (existsb (is_bot_message m) (entries w)); exact Hnd.
  - unfold star_limit, requires_starboard, bind, gets, modify, reply.
    destruct (starboard_channel g (starboard w)); [|exact Hnd].
    destruct (ch_send_messages ch); exact Hnd.
Qed.

End Distinct.

(** X20: no user is counted twice.  Whatever is starred and unstarred,
    whatever the threshold is set to in between, the table of starrers
    never holds the same pair of user and entry twice, so that the count
    of an entry is the number of the users who starred it. *)
Theorem starrers_stay_distinct g evs w0 :
  List.NoDup (starrers w0) -> List.NoDup (starrers (run_events g evs w0)).
Proof.
  revert w0. induction evs as [|ev evs IH]; intros w0 Hnd; [exact Hnd|].
  cbn. apply IH. now apply apply_event_nodup.
Qed.

(** ** Spoilers *)

Lemma after_bars_spec text rest :
  after_bars text = Some rest <-> text = bar :: bar :: rest.
Proof.
  unfold after_bars. destruct text as [|a [|b r]]; try (split; discriminate).
  destruct (Z.eqb_spec a bar) as [->|Ha], (Z.eqb_spec b bar) as [->|Hb]; cbn;
    split; intros H; inversion H; subst; try reflexivity; contradiction.
Qed.

Lemma after_bars_length text rest :
  after_bars text = Some rest -> length text = S (S (length rest)).
Proof. intros H. apply after_bars_spec in H. now subst. Qed.

Lemma spoiler_close_spec text group rest :
  spoiler_close text = Some (group, rest) ->
  text = group ++ bar :: bar :: rest /\ group ≠ []
  /\ forall c, In c group -> c ≠ newline.
Proof.
  revert group. induction text as [|c text IH]; intros group H; cbn in H;
    [discriminate|].
  destruct (Z.eqb_spec c newline) as [|Hc]; [discriminate|].
  destruct (after_bars text) as [r|] eqn:Hb.
  - inversion H; subst. apply after_bars_spec in Hb. subst text.
    split; [reflexivity|]. split; [discriminate|].
    intros x [<-|[]]. exact Hc.
  - destruct (spoiler_close text) as [[grp r]|]; [|discriminate].
    inversion H; subst. destruct (IH grp eq_refl) as (-> & _ & Hn).
    split; [reflexivity|]. split; [discriminate|].
    intros x [<-|Hx]; [exact Hc|now apply Hn].
Qed.

Lemma findall_spoilers_in fuel : forall text group,
  In group (findall_spoilers fuel text) ->
  exists before after,
    text = before ++ bar :: bar :: group ++ bar :: bar :: after
    /\ group ≠ [] /\ forall c, In c group -> c ≠ newline.
Proof.
  induction fuel as [|fuel IH]; intros text group Hin; [contradiction|].
  cbn [findall_spoilers] in Hin. destruct text as [|c text]; [contradiction|].
  assert (Hskip : In group (findall_spoilers fuel text) ->
                  exists before after,
                    c :: text = before ++ bar :: bar :: group ++ bar :: bar :: after
                    /\ group ≠ [] /\ forall x, In x group -> x ≠ newline).
  { intros H. destruct (IH _ _ H) as (before & after & -> & Hne & Hnl).
    exists (c :: before), after. auto. }
  destruct (after_bars (c :: text)) as [inner|] eqn:Hb; [|auto].
  destruct (spoiler_close inner) as [[grp rest]|] eqn:Hc; [|auto].
  apply after_bars_spec in Hb. apply spoiler_close_spec in Hc.
  destruct Hc as (-> & Hne & Hnl). destruct Hin as [<-|Hin].
  - exists [], rest. rewrite Hb. auto.
  - destruct (IH _ _ Hin) as (before & after & -> & Hne' & Hnl').
    exists (bar :: bar :: grp ++ bar :: bar :: before), after.
    rewrite Hb. cbn. rewrite <- !app_assoc. cbn. auto.
Qed.

(** The fuel: any number of steps from the length of the text on gives
    the same matches. *)
Lemma findall_spoilers_fuel n : forall m text,
  (length text <= n)%nat -> (length text <= m)%nat ->
  findall_spoilers n text = findall_spoilers m text.
Proof.
  induction n as [|n IH]; intros m text Hn Hm.
  - destruct text; [|cbn in Hn; lia]. destruct m; reflexivity.
  - destruct m as [|m]; [destruct text; [reflexivity|cbn in Hm; lia]|].
    cbn [findall_spoilers]. destruct text as [|c text]; [reflexivity|].
    cbn [length] in Hn, Hm.
    destruct (after_bars (c :: text)) as [inner|] eqn:Hb; [|apply IH; lia].
    destruct (spoiler_close inner) as [[group rest]|] eqn:Hc; [|apply IH; lia].
    apply after_bars_length in Hb. apply spoiler_close_spec in Hc.
    destruct Hc as (-> & _ & _). rewrite length_app in Hb. cbn [length] in Hb.
    f_equal. apply IH; lia.
Qed.

(** X21: what [is_url_spoiler] accepts is inside spoiler bars: when it
    answers yes, the text has a run between two pairs of bars, not empty
    and on one line, that contains the url. *)
Theorem spoiler_found_is_barred text url :
  is_url_spoiler text url = true ->
  exists before group after,
    text = before ++ bar :: bar :: group ++ bar :: bar :: after
    /\ group ≠ [] /\ (forall c, In c group -> c ≠ newline)
    /\ contains url group = true.
Proof.
  unfold is_url_spoiler. intros H. apply existsb_exists in H.
  destruct H as (group & Hin & Hc).
  destruct (findall_spoilers_in _ _ _ Hin) as (before & after & Ht & Hne & Hnl).
  exists before, group, after. auto.
Qed.

Lemma starts_with_refl url : starts_with url url = true.
Proof. induction url as [|a url IH]; cbn; [reflexivity|]. now rewrite Z.eqb_refl. Qed.

Lemma contains_refl url : contains url url = true.
Proof. destruct url; cbn; [reflexivity|]. now rewrite Z.eqb_refl, starts_with_refl. Qed.

Lemma spoiler_close_plain url rest :
  url ≠ [] -> (forall c, In c url -> c ≠ bar /\ c ≠ newline) ->
  spoiler_close (url ++ bar :: bar :: rest) = Some (url, rest).
Proof.
  induction url as [|c url IH]; intros Hne Hc; [contradiction|]. cbn.
  destruct (Hc c (or_introl eq_refl)) as [_ Hnl].
  destruct (Z.eqb_spec c newline); [contradiction|].
  destruct url as [|c' url].
  - cbn. reflexivity.
  - assert (Hb : after_bars ((c' :: url) ++ bar :: bar :: rest) = None).
    { cbn. destruct (Hc c' (or_intror (or_introl eq_refl))) as [Hb' _].
      destruct (Z.eqb_spec c' bar); [contradiction|]. cbn.
      destruct (url ++ bar :: bar :: rest); reflexivity. }
    rewrite Hb, IH; [reflexivity|discriminate|].
    intros x Hx. apply Hc. now right.
Qed.

Lemma findall_spoilers_skip before : forall fuel text,
  (forall c, In c before -> c ≠ bar) ->
  findall_spoilers (length before + fuel) (before ++ text)
  = findall_spoilers fuel text.
Proof.
  induction before as [|c before IH]; intros fuel text Hc; [reflexivity|].
  cbn [length Nat.add app findall_spoilers].
  assert (Hb : after_bars (c :: before ++ text) = None).
  { cbn. destruct (Z.eqb_spec c bar) as [Heq|_].
    - exfalso. apply (Hc c); [now left|exact Heq].
    - cbn. destruct (before ++ text); reflexivity. }
  rewrite Hb. apply IH. intros x Hx. apply Hc. now right.
Qed.

(** X22: a url written between spoiler bars is recognised.  With no bar
    before the opening pair, and a url that is not empty and has no bar
    and no line break in it, [is_url_spoiler] answers yes. *)
Theorem barred_url_is_spoiler before url after :
  (forall c, In c before -> c ≠ bar) ->
  url ≠ [] ->
  (forall c, In c url -> c ≠ bar /\ c ≠ newline) ->
  is_url_spoiler (before ++ bar :: bar :: url ++ bar :: bar :: after) url = true.
Proof.
  intros Hb Hne Hu. unfold is_url_spoiler.
  rewrite length_app. rewrite (findall_spoilers_skip before _ _ Hb).
  cbn [length findall_spoilers].
  replace (after_bars (bar :: bar :: url ++ bar :: bar :: after))
    with (Some (url ++ bar :: bar :: after)) by reflexivity.
  rewrite (spoiler_close_plain url after Hne Hu).
  cbn [existsb]. now rewrite contains_refl.
Qed.

(** X23: a text without a bar has no spoiler: the answer is no, whatever
    the url, the empty one included. *)
Theorem no_bar_no_spoiler text url :
  (forall c, In c text -> c ≠ bar) -> is_url_spoiler text url = false.
Proof.
  intros Hc. unfold is_url_spoiler.
  pose proof (findall_spoilers_skip text 0 [] Hc) as H.
  rewrite Nat.add_0_r, app_nil_r in H. rewrite H. reflexivity.
Qed.

(** ** A further star *)

(** The star of a user on a message that has its entry: a value of the
    serial is drawn and dropped, the row is added and the count is one
    more. *)
Lemma further_star_commit g now sb channel message_id starrer_id msg w1 t :
  List.find (has_message_id message_id) (entries w1) = Some t ->
  existsb (is_starrer starrer_id (entry_id t)) (starrers w1) = false ->
  let w2 := set_starrers (fun l => l ++ [mkStarrer starrer_id (entry_id t)])
              (set_entry_seq (entry_seq w1 + 1) w1) in
  star_commit g now sb channel message_id starrer_id msg w1
  = star_publish g now sb message_id msg (entry_id t) w2
  /\ count_stars (entry_id t) w2 = count_stars (entry_id t) w1 + 1.
Proof.
  intros Hfind Hex w2. split.
  - unfold star_commit, bind at 1, insert_entry_and_starrer.
    rewrite Hfind. cbn [starrers set_entry_seq]. rewrite Hex. reflexivity.
  - unfold count_stars, w2. cbn. rewrite count_rows_app.
    unfold stars_of. cbn. now rewrite Z.eqb_refl.
Qed.

(** X24: a further star edits the mirror message in place.  When the
    message has an entry with a mirror message and the new count is at
    the threshold or above, the call adds the starrer and rewrites the
    mirror message under its id, with the line and the colour of the new
    count; nothing is posted. *)
Theorem further_star_edits_mirror depth g now channel message_id starrer_id w sb msg w1 t b :
  well_formed g w -> star_gate g w channel sb ->
  get_message channel message_id w = (Ok (Some msg), w1) ->
  msg_author msg ≠ starrer_id -> starrable msg = true ->
  now - max_age (starboard w) <= msg_created_at msg ->
  List.find (has_message_id message_id) (entries w) = Some t ->
  bot_message_id t = Some b ->
  existsb (is_starrer starrer_id (entry_id t)) (starrers w) = false ->
  threshold (starboard w) <= count_stars (entry_id t) w + 1 ->
  exists w' cur,
    _star_message (S depth) g now channel message_id starrer_id w = (Ok tt, w')
    /\ platform w !! b = Some cur
    /\ platform w'
       = <[b := with_content cur
                  (fst (get_emoji_message msg (count_stars (entry_id t) w + 1)))
                  (snd (get_emoji_message msg (count_stars (entry_id t) w + 1)))]>
           (platform w)
    /\ entries w' = entries w
    /\ starrers w' = starrers w ++ [mkStarrer starrer_id (entry_id t)]
    /\ next_snowflake w' = next_snowflake w.
Proof.
  intros Hwf Hgate Hgm Hauthor Hst Hage Hfind Hb Hex Hthr.
  rewrite (star_message_direct depth g now channel message_id starrer_id w sb Hgate).
  rewrite Hgm.
  apply Z.eqb_neq in Hauthor. rewrite Hauthor, Hst. cbn [negb].
  apply Z.ltb_ge in Hage. rewrite Hage.
  destruct (get_message_frame _ _ _ _ _ Hgm) as (He1 & Hs1 & Hq1 & Hc1 & Hp1 & Hn1 & Hd1).
  pose proof (wf_get_message g _ _ _ _ _ Hwf Hgm) as Hwf1.
  rewrite <- He1 in Hfind. rewrite <- Hs1 in Hex.
  destruct (further_star_commit g now sb channel message_id starrer_id msg w1 t
              Hfind Hex) as [-> Hcount].
  set (w2 := set_starrers (fun l => l ++ [mkStarrer starrer_id (entry_id t)])
               (set_entry_seq (entry_seq w1 + 1) w1)) in *.
  pose proof (find_message_id _ _ _ Hfind) as [Ht _].
  assert (Hwf2 : well_formed g w2).
  { apply wf_add_starrer; [now apply wf_draw|].
    pose proof (wf_entry_seq g w1 Hwf1 t Ht). cbn. lia. }
  destruct Hgate as [Hsb _ _ _ _].
  assert (Hsb2 : starboard_channel g (starboard w2) = Some sb).
  { change (starboard w2) with (starboard w1). now rewrite Hc1. }
  destruct (get_message_live g w2 sb t b Hwf2 Hsb2 Ht Hb)
    as (m & cur & w3 & Hg3 & Hid & Hcur).
  destruct (get_message_frame _ _ _ _ _ Hg3) as (He3 & Hs3 & _ & _ & Hp3 & Hn3 & _).
  unfold star_publish, bind at 1, gets at 1. unfold bind at 1, gets at 1.
  rewrite Hcount. change (starboard w2) with (starboard w1). rewrite Hc1.
  unfold count_stars at 1 2. rewrite Hs1. fold (count_stars (entry_id t) w).
  assert (Hlt : (count_stars (entry_id t) w + 1 <? threshold (starboard w)) = false)
    by (apply Z.ltb_ge; lia).
  rewrite Hlt.
  destruct (get_emoji_message msg (count_stars (entry_id t) w + 1))
    as [content embed].
  unfold bind at 1, select_bot_message_id at 1.
  change (entries w2) with (entries w1). rewrite Hfind, Hb.
  unfold bind at 1. rewrite Hg3. unfold edit. rewrite Hid, Hp3, Hcur.
  exists (set_platform (insert b (with_content cur content embed)) w3), cur.
  split; [reflexivity|]. cbn [fst snd].
  change (platform w2) with (platform w1) in Hcur, Hp3.
  rewrite Hp1 in Hcur. split; [exact Hcur|]. cbn.
  rewrite Hp3, Hp1, He3, Hs3, Hn3. cbn. rewrite He1, Hs1, Hn1. repeat split.
Qed.

(** X25: a star on an entry whose mirror message is gone.  When the new
    count calls for the mirror message and that message is neither cached
    nor fetched, the call ends without an error and the entry of the
    message is purged, and with it the star just given. *)
Theorem star_purges_stale_entry depth g now channel message_id starrer_id w sb msg w1 t b :
  star_gate g w channel sb ->
  get_message channel message_id w = (Ok (Some msg), w1) ->
  msg_author msg ≠ starrer_id -> starrable msg = true ->
  now - max_age (starboard w) <= msg_created_at msg ->
  List.find (has_message_id message_id) (entries w) = Some t ->
  bot_message_id t = Some b ->
  existsb (is_starrer starrer_id (entry_id t)) (starrers w) = false ->
  threshold (starboard w) <= count_stars (entry_id t) w + 1 ->
  _message_cache w1 !! b = None ->
  fetch_message sb b w = None ->
  exists w',
    _star_message (S depth) g now channel message_id starrer_id w = (Ok tt, w')
    /\ entries w'
       = List.filter (fun e => negb (has_message_id message_id e)) (entries w)
    /\ platform w' = platform w
    /\ _about_to_be_deleted w' = _about_to_be_deleted w.
Proof.
  intros Hgate Hgm Hauthor Hst Hage Hfind Hb Hex Hthr Hcache Hfetch.
  rewrite (star_message_direct depth g now channel message_id starrer_id w sb Hgate).
  rewrite Hgm.
  apply Z.eqb_neq in Hauthor. rewrite Hauthor, Hst. cbn [negb].
  apply Z.ltb_ge in Hage. rewrite Hage.
  destruct (get_message_frame _ _ _ _ _ Hgm) as (He1 & Hs1 & Hq1 & Hc1 & Hp1 & Hn1 & Hd1).
  rewrite <- He1 in Hfind. rewrite <- Hs1 in Hex.
  destruct (further_star_commit g now sb channel message_id starrer_id msg w1 t
              Hfind Hex) as [-> Hcount].
  set (w2 := set_starrers (fun l => l ++ [mkStarrer starrer_id (entry_id t)])
               (set_entry_seq (entry_seq w1 + 1) w1)) in *.
  unfold star_publish, bind at 1, gets at 1. unfold bind at 1, gets at 1.
  rewrite Hcount. change (starboard w2) with (starboard w1). rewrite Hc1.
  unfold count_stars at 1 2. rewrite Hs1. fold (count_stars (entry_id t) w).
  assert (Hlt : (count_stars (entry_id t) w + 1 <? threshold (starboard w)) = false)
    by (apply Z.ltb_ge; lia).
  rewrite Hlt.
  destruct (get_emoji_message msg (count_stars (entry_id t) w + 1))
    as [content embed].
  unfold bind at 1, select_bot_message_id at 1.
  change (entries w2) with (entries w1). rewrite Hfind, Hb.
  unfold bind at 1.
  rewrite (get_message_none sb b w2)
    by (try exact Hcache; unfold fetch_message in *;
        change (platform w2) with (platform w1); now rewrite Hp1).
  unfold delete_entry_by_message_id, modify.
  eexists. split; [reflexivity|].
  destruct (delete_entries_frame (fk_cascade g) (has_message_id message_id) w2)
    as (He' & _ & Hp' & _ & Ha' & _). cbn zeta in He', Hp', Ha'.
  rewrite He', Hp', Ha'. change (entries w2) with (entries w1).
  change (platform w2) with (platform w1).
  change (_about_to_be_deleted w2) with (_about_to_be_deleted w1).
  rewrite He1, Hp1, Hd1. auto.
Qed.

(** ** The life of a mirror message *)

Section MirrorRoundTrip.
Variable g : Guild.

(** The only star of a message is taken back: what the statement on the
    starrers returns and leaves. *)
Lemma sole_star_delete w1 w2 message_id starrer_id e :
  (forall s, In s (starrers w1) -> starrer_entry_id s ≠ entry_seq w1) ->
  (forall x, In x (entries w1) -> entry_message_id x ≠ message_id) ->
  entries w2 = entries w1 ++ [e] ->
  entry_id e = entry_seq w1 -> entry_message_id e = message_id ->
  starrers w2 = starrers w1 ++ [mkStarrer starrer_id (entry_seq w1)] ->
  exists w3,
    delete_starrer message_id starrer_id w2
    = (Ok (Some (entry_seq w1, bot_message_id e)), w3)
    /\ starrers w3 = starrers w1 /\ entries w3 = entries w2
    /\ starboard w3 = starboard w2 /\ platform w3 = platform w2
    /\ _message_cache w3 = _message_cache w2
    /\ _about_to_be_deleted w3 = _about_to_be_deleted w2
    /\ w3 = set_starrers (List.filter
                            (fun s' => negb (unstar_target message_id starrer_id w2 s')))
              w2.
Proof.
  intros Hrows Hmsg He2 Hid Hmid Hs2.
  assert (Hold : forall s, In s (starrers w1) ->
                           unstar_target message_id starrer_id w2 s = false).
  { intros s Hs. unfold unstar_target. apply andb_false_iff. right.
    apply not_true_is_false. intros Hex. apply existsb_exists in Hex.
    destruct Hex as (x & Hx & Hb). apply andb_true_iff in Hb. destruct Hb as [Hb1 Hb2].
    rewrite He2 in Hx. apply in_app_iff in Hx. destruct Hx as [Hx|[<-|[]]].
    - apply Z.eqb_eq in Hb1. exact (Hmsg x Hx Hb1).
    - apply Z.eqb_eq in Hb2. apply (Hrows s Hs). congruence. }
  assert (Hnew : unstar_target message_id starrer_id w2
                   (mkStarrer starrer_id (entry_seq w1)) = true).
  { unfold unstar_target. cbn. rewrite Z.eqb_refl. cbn.
    rewrite He2, existsb_app. apply orb_true_iff. right. cbn.
    unfold has_message_id. rewrite Hmid, Hid, !Z.eqb_refl. reflexivity. }
  assert (Hentry : List.find (fun x => has_message_id message_id x
                                       && (entry_id x =? entry_seq w1))
                     (entries w2) = Some e).
  { rewrite He2. apply find_app_none.
    - intros x Hx. apply andb_false_iff. left. apply Z.eqb_neq. exact (Hmsg x Hx).
    - unfold has_message_id. cbn. rewrite Hmid, Hid, !Z.eqb_refl. reflexivity. }
  unfold delete_starrer. rewrite Hs2.
  rewrite (find_app_none _ _ _ Hold Hnew). cbn [starrer_entry_id]. rewrite Hentry.
  eexists. split; [reflexivity|]. cbn.
  rewrite Hs2. repeat split.
  apply filter_app_last.
  - intros s Hs. now rewrite (Hold s Hs).
  - now rewrite Hnew.
Qed.

Lemma mirror_retracted sb channel message_id eid b w3 cur :
  well_formed g w3 ->
  starboard_channel g (starboard w3) = Some sb ->
  count_stars eid w3 = 0 -> 0 < threshold (starboard w3) ->
  platform w3 !! b = Some cur -> msg_channel cur = ch_id sb ->
  exists w',
    unstar_retract g sb channel message_id eid (Some b) w3 = (Ok tt, w')
    /\ entries w' = entries (delete_entries (fk_cascade g) (has_entry_id eid) w3)
    /\ starrers w' = starrers (delete_entries (fk_cascade g) (has_entry_id eid) w3)
    /\ platform w' = delete b (platform w3)
    /\ _about_to_be_deleted w' = {[ b ]} ∪ _about_to_be_deleted w3.
Proof.
  intros Hwf Hsb Hcount Hthr Hcur Hch.
  unfold unstar_retract, bind at 1, gets at 1. unfold bind at 1.
  rewrite Hcount. cbn [Z.eqb]. unfold delete_entry_by_id at 1, modify at 1.
  destruct (delete_entries_frame (fk_cascade g) (has_entry_id eid) w3)
    as (_ & _ & Hp4 & _ & Ha4 & Hc4). cbn zeta in Hp4, Ha4, Hc4.
  pose proof (wf_delete_entries g w3 (fk_cascade g) (has_entry_id eid) Hwf) as Hwf4.
  set (w4 := delete_entries (fk_cascade g) (has_entry_id eid) w3) in *.
  rewrite <- Hp4 in Hcur.
  destruct (get_message_present g w4 sb b cur Hwf4 Hcur Hch) as (m & w5 & Hgm & Hid).
  unfold bind at 1. rewrite Hgm.
  destruct (get_message_frame _ _ _ _ _ Hgm) as (He5 & Hs5 & _ & Hc5 & Hp5 & _ & Ha5).
  unfold bind at 1, gets at 1. rewrite Hc5, Hc4.
  assert (Hlt : (0 <? threshold (starboard w3)) = true) by (apply Z.ltb_lt; exact Hthr).
  rewrite Hlt. unfold bind at 1, modify at 1. unfold bind at 1. cbn [negb Z.eqb ret].
  unfold delete_message. cbn [platform set_about_to_be_deleted].
  rewrite Hid, Hp5, Hcur.
  eexists. split; [reflexivity|]. cbn.
  rewrite He5, Hs5, Hp5, Ha5, Hp4, Ha4. auto.
Qed.

End MirrorRoundTrip.

(** X26: the life of a mirror message, from the first star to the last
    unstar.  On a starboard whose threshold is one, the first star of a
    message posts the mirror message; the unstar of the same user then
    deletes the entry and the mirror message and marks the id as pending;
    the deletion event that follows takes the mark away.  Both tables and
    the platform are then what they were before the star. *)
Theorem mirror_round_trip depth depth' g now channel message_id starrer_id w sb msg w1 :
  well_formed g w -> mirror_iff w -> star_gate g w channel sb ->
  get_message channel message_id w = (Ok (Some msg), w1) ->
  msg_author msg ≠ starrer_id -> starrable msg = true ->
  now - max_age (starboard w) <= msg_created_at msg ->
  List.find (has_message_id message_id) (entries w) = None ->
  threshold (starboard w) = 1 ->
  let w2 := snd (_star_message (S depth) g now channel message_id starrer_id w) in
  let w3 := snd (_unstar_message (S depth') g channel message_id starrer_id w2) in
  let w4 := snd (on_raw_message_delete g (next_snowflake w) (ch_id sb) w3) in
  fst (_unstar_message (S depth') g channel message_id starrer_id w2) = Ok tt
  /\ next_snowflake w ∈ _about_to_be_deleted w3
  /\ entries w4 = entries w /\ starrers w4 = starrers w
  /\ platform w4 = platform w
  /\ _about_to_be_deleted w4 = _about_to_be_deleted w ∖ {[ next_snowflake w ]}.
Proof.
  intros Hwf Hiff Hgate Hgm Hauthor Hst Hage Hfind Hthr w2.
  assert (Hrun : _star_message (S depth) g now channel message_id starrer_id w
                 = (Ok tt, first_mirrored g now sb channel message_id starrer_id msg w1))
    by (apply first_star_mirror_run; try assumption; lia).
  destruct (star_message_inv g _ _ _ _ _ _ _ _ Hwf Hiff Hrun) as (Hwf2 & _ & Hc2).
  assert (Hw2 : w2 = first_mirrored g now sb channel message_id starrer_id msg w1)
    by (unfold w2; now rewrite Hrun).
  clearbody w2. subst w2.
  set (w2 := first_mirrored g now sb channel message_id starrer_id msg w1) in *.
  destruct (get_message_frame _ _ _ _ _ Hgm) as (He1 & Hs1 & Hq1 & Hc1 & Hp1 & Hn1 & Hd1).
  pose proof (wf_get_message g _ _ _ _ _ Hwf Hgm) as Hwf1.
  pose proof (find_message_id_none _ _ Hfind) as Hmsg. rewrite <- He1 in Hmsg.
  assert (Hrows : forall s, In s (starrers w1) -> starrer_entry_id s ≠ entry_seq w1).
  { intros s Hs. pose proof (wf_starrer_seq g w1 Hwf1 s Hs). lia. }
  assert (Hids : forall e, In e (entries w1) -> entry_id e ≠ entry_seq w1).
  { intros e He. pose proof (wf_entry_seq g w1 Hwf1 e He). lia. }
  set (b := next_snowflake w1) in *.
  set (entry := mkEntry (entry_seq w1) (Some b) message_id (ch_id channel)
                        (guild_id g) (msg_author msg)).
  assert (He2 : entries w2 = entries w1 ++ [entry]).
  { unfold w2, first_mirrored, first_starred. cbn. rewrite List.map_app. cbn.
    rewrite map_update_where_none
      by (intros e He; apply Z.eqb_neq; exact (Hmsg e He)).
    unfold update_where, has_message_id. cbn. now rewrite Z.eqb_refl. }
  assert (Hs2 : starrers w2 = starrers w1 ++ [mkStarrer starrer_id (entry_seq w1)])
    by reflexivity.
  assert (Hp2 : platform w2 = <[b := first_mirror g now sb msg w1]> (platform w1))
    by reflexivity.
  assert (Ha2 : _about_to_be_deleted w2 = _about_to_be_deleted w1) by reflexivity.
  destruct Hgate as [Hsb Hl Hn Hd Hperm].
  assert (Hgate2 : unstar_gate g w2 channel sb)
    by (split; rewrite ?Hc2; assumption).
  intros w3 w4. subst w4 w3.
  destruct (sole_star_delete w1 w2 message_id starrer_id entry Hrows Hmsg He2
              eq_refl eq_refl Hs2)
    as (w3 & Hdel & Hs3 & He3 & Hc3 & Hp3 & _ & Ha3 & Hw3).
  cbn [entry bot_message_id] in Hdel.
  assert (Hwf3 : well_formed g w3) by (rewrite Hw3; now apply wf_filter_starrers).
  assert (Hcount : count_stars (entry_seq w1) w3 = 0).
  { unfold count_stars. rewrite Hs3. exact (count_rows_none _ _ Hrows). }
  destruct (mirror_retracted g sb channel message_id (entry_seq w1) b w3
              (first_mirror g now sb msg w1) Hwf3)
    as (w' & Hret & He' & Hs' & Hp' & Ha').
  { rewrite Hc3, Hc2. exact Hsb. }
  { exact Hcount. }
  { rewrite Hc3, Hc2. lia. }
  { rewrite Hp3, Hp2. apply lookup_insert_eq. }
  { reflexivity. }
  assert (Hun : _unstar_message (S depth') g channel message_id starrer_id w2
                = (Ok tt, w')).
  { rewrite (unstar_message_direct depth' g channel message_id starrer_id w2 sb Hgate2).
    rewrite Hperm. unfold unstar_commit, bind at 1. rewrite Hdel. exact Hret. }
  rewrite Hun. cbn [fst snd].
  assert (Hin : b ∈ _about_to_be_deleted w').
  { rewrite Ha'. apply elem_of_union_l, elem_of_singleton. reflexivity. }
  assert (Hb : next_snowflake w = b) by (symmetry; exact Hn1).
  rewrite Hb in *.
  rewrite (own_delete_event g b (ch_id sb) w' Hin).
  cbn [snd entries starrers platform _about_to_be_deleted set_about_to_be_deleted].
  split; [reflexivity|]. split; [exact Hin|].
  (* the tables *)
  assert (Hgone : List.filter (fun e => negb (has_entry_id (entry_seq w1) e)) (entries w3)
                  = entries w1).
  { rewrite He3, He2. apply filter_app_last.
    - intros e He. unfold has_entry_id. apply negb_true_iff, Z.eqb_neq. exact (Hids e He).
    - unfold has_entry_id. cbn. now rewrite Z.eqb_refl. }
  split; [|split; [|split]].
  - rewrite He'. unfold delete_entries. destruct (fk_cascade g); cbn;
      rewrite Hgone; exact He1.
  - rewrite Hs'. unfold delete_entries. destruct (fk_cascade g); cbn;
      [|rewrite Hs3; exact Hs1].
    rewrite Hs3, <- Hs1. apply filter_all. intros s Hs.
    apply negb_true_iff, not_true_is_false.
    intros Hex. apply existsb_exists in Hex. destruct Hex as (e & He & Hx).
    apply filter_In in He. destruct He as [_ He]. unfold has_entry_id in He.
    apply Z.eqb_eq in He. unfold stars_of in Hx. apply Z.eqb_eq in Hx.
    apply (Hrows s Hs). congruence.
  - rewrite Hp', Hp3, Hp2, <- Hp1. apply delete_insert_id.
    destruct (platform w1 !! b) as [m|] eqn:Hm; [|reflexivity].
    destruct (wf_platform g w1 Hwf1 b m Hm) as [_ Hlt]. unfold b in Hlt. lia.
  - rewrite Ha', Ha3, Ha2, Hd1. apply set_eq. intros x.
    rewrite !elem_of_difference, elem_of_union, elem_of_singleton. tauto.
Qed.

(** ** The further theorems at work on the example guild *)

Section MoreWitnesses.
Import Example Scene.

Ltac run := vm_compute; reflexivity.

(** seven stars: the glowing star on 0xffdd78 *)
Lemma render_tiers_and_gradient_witness :
  star_emoji 7 = GLOWING_STAR /\ star_gradient_colour 7 = 16768376.
Proof.
  destruct (render_tiers_and_gradient 7 ltac:(discriminate) ltac:(reflexivity))
    as (H1 & H2 & _).
  split; [exact H1|exact H2].
Defined.

Lemma gradient_colour_interpolates_witness :
  star_gradient_colour 20 = 16761356.
Proof.
  exact (gradient_colour_interpolates 20 ltac:(discriminate) ltac:(reflexivity)).
Defined.

Lemma gradient_colour_fades_witness :
  16761356 <= star_gradient_colour 20
  /\ star_gradient_colour 20 <= star_gradient_colour 3
  /\ star_gradient_colour 3 <= 16776695.
Proof.
  exact (gradient_colour_fades 3 20 ltac:(discriminate) ltac:(discriminate)
           ltac:(reflexivity)).
Defined.

(** message 100 is fetched, deleted, and still served; not after the
    cache has been cleaned *)
Lemma cache_outlives_message_witness :
  get_message board 100
    (set_platform (delete 100) (set_message_cache (insert 100 hello) (fresh 2 false)))
  = (Ok (Some hello),
     set_platform (delete 100) (set_message_cache (insert 100 hello) (fresh 2 false)))
  /\ fst (get_message board 100
            (snd (clean_message_cache
                    (set_platform (delete 100)
                       (set_message_cache (insert 100 hello) (fresh 2 false))))))
     = Ok None.
Proof.
  assert (Hgm : get_message general 100 (fresh 2 false)
                = (Ok (Some hello),
                   set_message_cache (insert 100 hello) (fresh 2 false))) by run.
  destruct (cache_outlives_message general 100 (fresh 2 false) hello _ board Hgm)
    as [H1 H2].
  split; [exact H1|]. rewrite H2. reflexivity.
Defined.

(** user 8 stars message 100 a second time: the one row of either table
    stays, the serial goes from two to three *)
Lemma star_rejection_keeps_world_witness :
  entries (set_entry_seq 3 starred_once) = entries starred_once
  /\ starrers (set_entry_seq 3 starred_once) = starrers starred_once
  /\ platform (set_entry_seq 3 starred_once) = platform starred_once
  /\ entry_seq (set_entry_seq 3 starred_once) = entry_seq starred_once + 1.
Proof.
  assert (Hrun : _star_message 1 guild 2000 general 100 8 starred_once
                 = (Raise (Star AlreadyStarred), set_entry_seq 3 starred_once)) by run.
  destruct (star_rejection_keeps_world 1 guild 2000 general 100 8 starred_once
              AlreadyStarred _ Hrun) as (H1 & H2 & _ & H4 & _ & _ & H7).
  repeat split; assumption.
Defined.

(** user 9 takes the star back when message 100 is gone: the call fails
    and the star is removed all the same *)
Lemma unstar_rejection_witness :
  lt (length (starrers (set_message_cache (insert 101 mirror)
                          (set_starrers (fun _ => [mkStarrer 8 1]) lost))))
     (length (starrers lost)).
Proof.
  assert (Hrun : _unstar_message 1 guild general 100 9 lost
                 = (Raise (Star MessageNotFound),
                    set_message_cache (insert 101 mirror)
                      (set_starrers (fun _ => [mkStarrer 8 1]) lost))) by run.
  exact (unstar_rejection 1 guild general 100 9 lost MessageNotFound _ Hrun).
Defined.

(** a moderator locks the starboard from the general channel *)
Lemma locked_board_is_frozen_witness :
  star_message guild 2000 general 100 8 false
    (snd (star_lock guild 1500 general (fresh 2 false)))
  = (Raise (Star Locked), snd (star_lock guild 1500 general (fresh 2 false)))
  /\ unstar_message guild general 100 8 false
       (snd (star_lock guild 1500 general (fresh 2 false)))
     = (Raise (Star Locked), snd (star_lock guild 1500 general (fresh 2 false))).
Proof.
  destruct (locked_board_is_frozen guild 999 1500 general 2000 general 100 8 true
              (fresh 2 false) board eq_refl ltac:(run))
    as (H1 & H2 & _).
  split; assumption.
Defined.

(** locked and unlocked from the general channel: the two answers, the
    messages 101 and 102, are all there is to see of it *)
Lemma lock_unlock_round_trip_witness :
  snd (star_unlock guild 1600 general
         (snd (star_lock guild 1500 general (fresh 2 false))))
  = set_next_snowflake 103
      (set_platform
         (fun p =>
            <[102 := mkMessage 102 1 999 (UserText "Starboard is now unlocked.") 0
                       MT_default 1600 None]>
              (<[101 := mkMessage 101 1 999 (UserText "Starboard is now locked.") 0
                          MT_default 1500 None]> p))
         (fresh 2 false)).
Proof.
  rewrite (proj1 (lock_unlock_round_trip guild 1500 general 1600 general
                    (fresh 2 false) board eq_refl ltac:(run))).
  reflexivity.
Defined.

Lemma example_well_formed limit lock : well_formed guild (fresh limit lock).
Proof. apply fresh_start_inv, example_fresh_start. Qed.

Lemma example_reached :
  well_formed guild starred_twice /\ mirror_iff starred_twice.
Proof.
  replace starred_twice
    with (run_events guild
            [Starred 2000 general 100 8 false; Starred 2000 general 100 9 false]
            (fresh 2 false)) by run.
  destruct (fresh_start_inv guild _ (example_fresh_start 2 false)) as [Hwf Hiff].
  apply run_events_inv; [reflexivity|assumption|assumption].
Qed.

Lemma example_gate limit : star_gate guild (fresh limit false) general board.
Proof. split; try run. discriminate. Qed.

(** user 8 is the first to star message 100, the threshold is two *)
Lemma first_star_below_threshold_witness :
  exists w',
    _star_message 1 guild 2000 general 100 8 (fresh 2 false) = (Ok tt, w')
    /\ entries w' = [mkEntry 1 None 100 1 10 7]
    /\ starrers w' = [mkStarrer 8 1]
    /\ platform w' = platform (fresh 2 false).
Proof.
  assert (Hgm : get_message general 100 (fresh 2 false)
                = (Ok (Some hello),
                   set_message_cache (insert 100 hello) (fresh 2 false))) by run.
  destruct (first_star_below_threshold 0 guild 2000 general 100 8 (fresh 2 false)
              board hello _
              (example_well_formed 2 false) (example_gate 2) Hgm
              ltac:(discriminate) ltac:(run) ltac:(discriminate) ltac:(run)
              ltac:(reflexivity))
    as (w' & H1 & H2 & H3 & _ & H4 & _).
  exists w'. repeat split; assumption.
Defined.

(** and takes the star back *)
Lemma star_then_unstar_witness :
  _unstar_message 1 guild general 100 8
    (snd (_star_message 1 guild 2000 general 100 8 (fresh 2 false)))
  = (Ok tt,
     set_entry_seq 2 (set_message_cache (insert 100 hello) (fresh 2 false))).
Proof.
  assert (Hgm : get_message general 100 (fresh 2 false)
                = (Ok (Some hello),
                   set_message_cache (insert 100 hello) (fresh 2 false))) by run.
  exact (proj1 (star_then_unstar 0 0 guild 2000 general 100 8 (fresh 2 false)
                  board hello _
                  (example_well_formed 2 false) (example_gate 2) Hgm
                  ltac:(discriminate) ltac:(run) ltac:(discriminate) ltac:(run)
                  ltac:(reflexivity))).
Defined.

(** the threshold is one: the first star posts the mirror message 101 *)
Lemma first_star_posts_mirror_witness :
  exists w',
    _star_message 1 guild 2000 general 100 8 (fresh 1 false) = (Ok tt, w')
    /\ entries w' = [mkEntry 1 (Some 101) 100 1 10 7]
    /\ platform w'
       = <[101 := mkMessage 101 50 999 (StarText WHITE_MEDIUM_STAR None 1 100) 0
                   MT_default 2000 (Some (mkEmbed (UserText "hello") 16775396))]>
           (platform (fresh 1 false)).
Proof.
  assert (Hgm : get_message general 100 (fresh 1 false)
                = (Ok (Some hello),
                   set_message_cache (insert 100 hello) (fresh 1 false))) by run.
  destruct (first_star_posts_mirror 0 guild 2000 general 100 8 (fresh 1 false)
              board hello _
              (example_well_formed 1 false) (example_gate 1) Hgm
              ltac:(discriminate) ltac:(run) ltac:(discriminate) ltac:(run)
              ltac:(discriminate))
    as (w' & H1 & H2 & _ & H3 & _).
  exists w'. repeat split; assumption.
Defined.

(** user 9 takes the star back in [starred_twice]; the deletion event of
    the mirror message 101 follows *)
Lemma own_removal_keeps_entry_witness :
  on_raw_message_delete guild 101 50
    (snd (_unstar_message 1 guild general 100 9 starred_twice))
  = (Ok tt,
     set_about_to_be_deleted (fun s => s ∖ {[ 101 ]})
       (snd (_unstar_message 1 guild general 100 9 starred_twice)))
  /\ mirror_nulled 1 (snd (_unstar_message 1 guild general 100 9 starred_twice)).
Proof.
  assert (Hdel : delete_starrer 100 9 starred_twice
                 = (Ok (Some (1, Some 101)),
                    set_starrers (fun _ => [mkStarrer 8 1]) starred_twice)) by run.
  assert (Hgm : get_message board 101
                  (set_starrers (fun _ => [mkStarrer 8 1]) starred_twice)
                = (Ok (Some mirror),
                   set_message_cache (insert 101 mirror)
                     (set_starrers (fun _ => [mkStarrer 8 1]) starred_twice))) by run.
  exact (own_removal_keeps_entry 0 guild general 100 9 starred_twice board 1 101
           _ mirror _ 50
           (example_unstar_gate guild board starred_twice ltac:(run) eq_refl eq_refl)
           eq_refl Hdel ltac:(reflexivity) ltac:(reflexivity) Hgm).
Defined.

(** a moderator deletes the mirror message 101 *)
Lemma external_deletion_repaired_witness :
  mirror_iff
    (snd (on_raw_message_delete guild 101 (msg_channel mirror)
            (set_platform (delete 101) starred_twice))).
Proof.
  exact (proj1 (proj2 (external_deletion_repaired guild starred_twice board 101 mirror
                         (proj1 example_reached) (proj2 example_reached)
                         ltac:(run) ltac:(apply not_elem_of_empty) ltac:(run)))).
Defined.

(** the reactions of message 100 are cleared in [starred_twice] *)
Lemma reaction_clear_drops_entry_witness :
  exists w',
    on_raw_reaction_clear client (Some guild) 1 100 starred_twice = (Ok tt, w')
    /\ entries w' = []
    /\ platform w' = delete 101 (platform starred_twice).
Proof.
  destruct (reaction_clear_drops_entry client guild 1 100 starred_twice general board
              (proj1 example_reached) ltac:(run) eq_refl ltac:(run))
    as (w' & H1 & H2 & H3 & _).
  exists w'. repeat split; assumption.
Defined.


Lemma starrers_stay_distinct_witness :
  List.NoDup
    (starrers
       (run_events guild
          [Starred 2000 general 100 8 false; Starred 2000 general 100 8 false;
           Limit 3000 general 1; Starred 3500 general 100 9 false]
          (fresh 2 false))).
Proof. apply starrers_stay_distinct. constructor. Defined.

(** [||a||] and the url [a] *)
Lemma spoiler_found_is_barred_witness :
  exists before group after,
    [124; 124; 97; 124; 124] = before ++ bar :: bar :: group ++ bar :: bar :: after
    /\ group ≠ [] /\ (forall c, In c group -> c ≠ newline)
    /\ contains [97] group = true.
Proof. exact (spoiler_found_is_barred [124; 124; 97; 124; 124] [97] ltac:(run)). Defined.

(** [x||ab||] and the url [ab] *)
Lemma barred_url_is_spoiler_witness :
  is_url_spoiler [120; 124; 124; 97; 98; 124; 124] [97; 98] = true.
Proof.
  apply (barred_url_is_spoiler [120] [97; 98] []).
  - intros c [<-|[]]. discriminate.
  - discriminate.
  - intros c [<-|[<-|[]]]; split; discriminate.
Defined.

Lemma no_bar_no_spoiler_witness : is_url_spoiler [97; 98] [] = false.
Proof.
  apply no_bar_no_spoiler. intros c [<-|[<-|[]]]; discriminate.
Defined.

(** user 5 is the third to star message 100: the mirror message 101
    shows three stars *)
Lemma further_star_edits_mirror_witness :
  exists w',
    _star_message 1 guild 2000 general 100 5 starred_twice = (Ok tt, w')
    /\ platform w'
       = <[101 := mkMessage 101 50 999 (StarText WHITE_MEDIUM_STAR (Some 3) 1 100) 0
                    MT_default 2000 (Some (mkEmbed (UserText "hello") 16773056))]>
           (platform starred_twice)
    /\ starrers w' = [mkStarrer 8 1; mkStarrer 9 1; mkStarrer 5 1].
Proof.
  destruct (further_star_edits_mirror 0 guild 2000 general 100 5 starred_twice board
              hello starred_twice (mkEntry 1 (Some 101) 100 1 10 7) 101
              (proj1 example_reached) (example_star_gate starred_twice eq_refl)
              ltac:(run) ltac:(discriminate) ltac:(run) ltac:(discriminate)
              ltac:(run) eq_refl ltac:(run) ltac:(discriminate))
    as (w' & cur & H1 & H2 & H3 & _ & H4 & _).
  exists w'. split; [exact H1|]. split; [|exact H4].
  rewrite H3. replace cur with mirror
    by (assert (Some mirror = Some cur) as Hc
          by (rewrite <- H2; vm_compute; reflexivity);
        now injection Hc).
  vm_compute. reflexivity.
Defined.

(** user 5 stars message 100 after a moderator has deleted the mirror
    message: the entry is purged *)
Lemma star_purges_stale_entry_witness :
  exists w',
    _star_message 1 guild 2000 general 100 5 stale = (Ok tt, w')
    /\ entries w' = [].
Proof.
  destruct (star_purges_stale_entry 0 guild 2000 general 100 5 stale board
              hello stale (mkEntry 1 (Some 101) 100 1 10 7) 101
              (example_star_gate stale eq_refl)
              ltac:(run) ltac:(discriminate) ltac:(run) ltac:(discriminate)
              ltac:(run) eq_refl ltac:(run) ltac:(discriminate) ltac:(run) ltac:(run))
    as (w' & H1 & H2 & _).
  exists w'. split; [exact H1|]. rewrite H2. reflexivity.
Defined.

(** with a threshold of one: user 8 stars message 100 and takes the star
    back, and the deletion event of the mirror message 101 arrives *)
Lemma mirror_round_trip_witness :
  fst (_unstar_message 1 guild general 100 8
         (snd (_star_message 1 guild 2000 general 100 8 (fresh 1 false)))) = Ok tt
  /\ platform
       (snd (on_raw_message_delete guild 101 50
               (snd (_unstar_message 1 guild general 100 8
                       (snd (_star_message 1 guild 2000 general 100 8
                               (fresh 1 false)))))))
     = platform (fresh 1 false).
Proof.
  assert (Hgm : get_message general 100 (fresh 1 false)
                = (Ok (Some hello),
                   set_message_cache (insert 100 hello) (fresh 1 false))) by run.
  pose proof (mirror_round_trip 0 0 guild 2000 general 100 8 (fresh 1 false)
                board hello _
                (example_well_formed 1 false)
                (proj2 (fresh_start_inv guild _ (example_fresh_start 1 false)))
                (example_gate 1) Hgm
                ltac:(discriminate) ltac:(run) ltac:(discriminate) ltac:(run)
                eq_refl) as H.
  cbv zeta in H. destruct H as (H1 & _ & _ & _ & H2 & _).
  split; [exact H1|exact H2].
Defined.

(** the reactions of message 100 are cleared in [starred_twice], and the
    deletion event of the mirror message 101 arrives *)
Lemma cleared_mirror_event_is_idle_witness :
  on_raw_message_delete guild 101 50
    (snd (on_raw_reaction_clear client (Some guild) 1 100 starred_twice))
  = (Ok tt, snd (on_raw_reaction_clear client (Some guild) 1 100 starred_twice)).
Proof.
  exact (proj2 (cleared_mirror_event_is_idle client guild 1 100 starred_twice general
                  board (mkEntry 1 (Some 101) 100 1 10 7) 101
                  (proj1 example_reached) ltac:(run) eq_refl ltac:(run) ltac:(run)
                  eq_refl ltac:(apply not_elem_of_empty))).
Defined.

Lemma reaction_clear_keeps_invariants_witness :
  mirror_iff (snd (on_raw_reaction_clear client (Some guild) 1 100 starred_twice)).
Proof.
  exact (proj2 (reaction_clear_keeps_invariants client guild 1 100 starred_twice
                  (proj1 example_reached) (proj2 example_reached))).
Defined.

End MoreWitnesses.
